(** * forms-backend: the submission pipeline and the Discord client

    A shallow embedding of [backend/discord.py] and
    [backend/routes/forms/submit.py].

    - Python values that travel as JSON are the inductive [value]; a [dict] is
      an association list, because Python dicts iterate in insertion order and
      [format_message] depends on that order.
    - Coroutines run in a state-and-exception monad [M] over a [World] that
      holds the two database collections, the answers the remote HTTP
      endpoints will give, and the trace of effects performed so far.
    - The loop of [make_request] is bounded by a fuel argument; a run that
      exhausts it ends as [Diverged]. *)

From Stdlib Require Import List String Ascii ZArith QArith Bool Lia.
From Stdlib Require Import DecimalString.
Import ListNotations.

Set Warnings "-register-all".

Local Open Scope list_scope.
Local Open Scope Z_scope.
Local Open Scope string_scope.

(* ================================================================== *)
(** ** Python values *)

(** The floats [json.loads] accepts beyond the finite ones: [NaN],
    [Infinity] and [-Infinity]. *)
Inductive nonfinite : Type :=
| NaN
| Infinity (negative : bool).

(** The values of JSON and of the token's claims.  Finite numbers with a
    fractional part are left out: the two modules only copy, store and
    render what they are given. *)
Inductive value : Type :=
| VNone
| VBool (b : bool)
| VInt (z : Z)
| VStr (s : string)
| VList (items : list value)
| VDict (entries : list (string * value))
| VFloat (x : nonfinite).

(** A Python [dict] with string keys, in insertion order. *)
Definition dict : Type := list (string * value).

Module Dict.

(** [d.get(k)] *)
Fixpoint get {A : Type} (k : string) (d : list (string * A)) : option A :=
  match d with
  | [] => None
  | (k', v) :: rest => if String.eqb k k' then Some v else get k rest
  end.

(** [k in d] *)
Definition mem {A : Type} (k : string) (d : list (string * A)) : bool :=
  match get k d with Some _ => true | None => false end.

(** [d[k] = v]: an existing key keeps its position, a new one goes last. *)
Fixpoint set {A : Type} (k : string) (v : A) (d : list (string * A))
  : list (string * A) :=
  match d with
  | [] => [(k, v)]
  | (k', v') :: rest =>
      if String.eqb k k' then (k, v) :: rest else (k', v') :: set k v rest
  end.

(** [d.update(e)] *)
Definition update {A : Type} (d e : list (string * A)) : list (string * A) :=
  fold_left (fun acc kv => set (fst kv) (snd kv) acc) e d.

Definition keys {A : Type} (d : list (string * A)) : list string :=
  map fst d.

End Dict.

(** Python truthiness, as [if x:], [x or y] and [not x] use it. *)
Definition truthy (v : value) : bool :=
  match v with
  | VNone => false
  | VBool b => b
  | VInt z => negb (z =? 0)%Z
  | VStr s => negb (String.eqb s "")
  | VList l => match l with [] => false | _ => true end
  | VDict d => match d with [] => false | _ => true end
  | VFloat _ => true
  end.

Definition string_of_Z (z : Z) : string :=
  NilZero.string_of_int (Z.to_int z).

Fixpoint has_char (c : ascii) (s : string) : bool :=
  match s with
  | EmptyString => false
  | String x rest => (Ascii.eqb x c || has_char c rest)%bool
  end.

Definition hex_digit (n : nat) : ascii :=
  nth n (list_ascii_of_string "0123456789abcdef") "0"%char.

(** One character of [repr(s)] between the quotes [quote]. *)
Definition repr_char (quote c : ascii) : string :=
  let n := nat_of_ascii c in
  if (Ascii.eqb c quote || Ascii.eqb c "\")%bool then String "\" (String c "")
  else if Nat.eqb n 9 then "\t"
  else if Nat.eqb n 10 then "\n"
  else if Nat.eqb n 13 then "\r"
  else if (Nat.ltb n 32 || Nat.eqb n 127)%bool
  then "\x" ++ String (hex_digit (Nat.div n 16))
                      (String (hex_digit (Nat.modulo n 16)) "")
  else String c "".

Fixpoint repr_chars (quote : ascii) (s : string) : string :=
  match s with
  | EmptyString => EmptyString
  | String c rest => repr_char quote c ++ repr_chars quote rest
  end.

(** [repr(s)] of a string: between single quotes, or between double quotes
    when it holds a single quote and no double one. *)
Definition str_repr (s : string) : string :=
  let double := ascii_of_nat 34 in
  let quote :=
    if (has_char "'" s && negb (has_char double s))%bool then double
    else "'"%char in
  String quote (repr_chars quote s ++ String quote "").

(** [repr(v)].  Strings are strings of bytes: the bytes above 127 are
    copied, as [repr] copies the printable characters they encode.  Of the
    floats only the three that are not finite are modelled. *)
Fixpoint py_repr (v : value) : string :=
  match v with
  | VNone => "None"
  | VBool true => "True"
  | VBool false => "False"
  | VInt z => string_of_Z z
  | VStr s => str_repr s
  | VList l =>
      "[" ++ String.concat ", "
               ((fix each (l : list value) : list string :=
                   match l with
                   | [] => []
                   | x :: r => py_repr x :: each r
                   end) l) ++ "]"
  | VDict d =>
      "{" ++ String.concat ", "
               ((fix each (d : list (string * value)) : list string :=
                   match d with
                   | [] => []
                   | (k, x) :: r =>
                       (str_repr k ++ ": " ++ py_repr x) :: each r
                   end) d) ++ "}"
  | VFloat NaN => "nan"
  | VFloat (Infinity false) => "inf"
  | VFloat (Infinity true) => "-inf"
  end.

(** What [json.dumps(v, allow_nan=False)] accepts: no [NaN] and no infinity
    anywhere in [v]. *)
Fixpoint json_compliant (v : value) : bool :=
  match v with
  | VFloat _ => false
  | VList l =>
      (fix all (l : list value) : bool :=
         match l with
         | [] => true
         | x :: r => json_compliant x && all r
         end) l
  | VDict d =>
      (fix all (d : list (string * value)) : bool :=
         match d with
         | [] => true
         | (_, x) :: r => json_compliant x && all r
         end) d
  | _ => true
  end.

(** [str(v)], which is also what an f-string interpolates. *)
Definition py_str (v : value) : string :=
  match v with
  | VStr s => s
  | _ => py_repr v
  end.

(* ================================================================== *)
(** ** Strings: [in] and [str.replace] *)

(** [old in s] on strings: [old] occurs somewhere in [s]. *)
Fixpoint occurs (old s : string) : bool :=
  prefix old s ||
  match s with
  | EmptyString => false
  | String _ rest => occurs old rest
  end.

(** An occurrence of [old] starts inside [a] when [a] is followed by [t]. *)
Fixpoint starts_within (old a t : string) : bool :=
  match a with
  | EmptyString => false
  | String _ a' => prefix old (a ++ t) || starts_within old a' t
  end.

(** The scan of [str.replace] for a non-empty [old]: left to right, copying
    [new] at each match and stepping over the matched text ([skip] characters
    are still to be stepped over). *)
Fixpoint replace_from (old new : string) (skip : nat) (s : string) : string :=
  match s with
  | EmptyString => EmptyString
  | String c rest =>
      match skip with
      | S k => replace_from old new k rest
      | O =>
          if prefix old s
          then new ++ replace_from old new (Nat.pred (String.length old)) rest
          else String c (replace_from old new 0 rest)
      end
  end.

(** With an empty [old], Python puts [new] before every character and at the
    end. *)
Fixpoint intersperse (new s : string) : string :=
  match s with
  | EmptyString => new
  | String c rest => new ++ String c (intersperse new rest)
  end.

(** [s.replace(old, new)] *)
Definition replace (old new s : string) : string :=
  match old with
  | EmptyString => intersperse new s
  | String _ _ => replace_from old new 0 s
  end.

(** [sep.join(segments)] *)
Fixpoint join (sep : string) (segments : list string) : string :=
  match segments with
  | [] => ""
  | [s] => s
  | s :: rest => s ++ sep ++ join sep rest
  end.

(** [segments] are the stretches of text between the occurrences of [old]
    that a scan from the left finds in [join old segments]: no occurrence
    starts inside a segment, and none is left in the last one. *)
Fixpoint separated (old : string) (segments : list string) : bool :=
  match segments with
  | [] => true
  | [s] => negb (occurs old s)
  | s :: rest =>
      negb (starts_within old s (old ++ join old rest)) && separated old rest
  end.

(** The text [{key}] that [format_message] looks for: [f"{{{key}}}"]. *)
Definition placeholder (key : string) : string := "{" ++ key ++ "}".

(* ================================================================== *)
(** ** discord.py: [format_message] *)

(** [[
    def format_message(ctx, message):
        for key, val in ctx.items():
            message = message.replace(f"{{{key}}}", str(val))
        return message
    ]] *)
Definition format_message (ctx : dict) (message : string) : string :=
  fold_left
    (fun message kv => replace (placeholder (fst kv)) (py_str (snd kv)) message)
    ctx message.

(** The spec's reading of a template: stretches of text and placeholders
    [{name}], from left to right. *)
Inductive token : Type :=
| Text (s : string)
| Hole (name : string).

Definition render_token (t : token) : string :=
  match t with
  | Text s => s
  | Hole name => placeholder name
  end.

Fixpoint render (template : list token) : string :=
  match template with
  | [] => ""
  | t :: rest => render_token t ++ render rest
  end.

(** The spec's reading of the replacement: every placeholder whose name is
    a key of the context becomes [str] of the key's value, all of them at
    once, and the other tokens stay. *)
Definition fill (ctx : dict) (t : token) : token :=
  match t with
  | Text s => Text s
  | Hole name =>
      match Dict.get name ctx with
      | Some v => Text (py_str v)
      | None => Hole name
      end
  end.

Fixpoint no_char (c : ascii) (s : string) : bool :=
  match s with
  | EmptyString => true
  | String x rest => negb (Ascii.eqb x c) && no_char c rest
  end.

Definition brace_free (s : string) : bool :=
  no_char "{" s && no_char "}" s.

(** A template whose text holds no opening brace and whose placeholders
    have names without braces: its tokens are what a reader sees in it. *)
Definition plain_template (template : list token) : bool :=
  forallb (fun t => match t with
                    | Text s => no_char "{" s
                    | Hole name => brace_free name
                    end) template.

(** A context whose keys hold no brace and whose values, as [str] gives
    them, hold no opening brace. *)
Definition plain_context (ctx : dict) : bool :=
  forallb (fun kv => brace_free (fst kv) && no_char "{" (py_str (snd kv)))
          ctx.

(** [float(s)] on plain decimal notation such as ["0.2"], as an exact
    rational. *)
Definition digit (c : ascii) : option Z :=
  let n := Z.of_nat (nat_of_ascii c) in
  if ((48 <=? n) && (n <=? 57))%Z then Some (n - 48)%Z else None.

Fixpoint decimal (s : string) (num : Z) (den : positive) (frac seen : bool)
  : option Q :=
  match s with
  | EmptyString => if seen then Some (num # den) else None
  | String c rest =>
      if Ascii.eqb c "."%char then
        if frac then None else decimal rest num den true seen
      else
        match digit c with
        | Some d =>
            decimal rest (10 * num + d)%Z
                    (if frac then (10 * den)%positive else den) frac true
        | None => None
        end
  end.

Definition decimal_float (s : string) : option Q := decimal s 0 1 false false.

(* ================================================================== *)
(** ** The data model *)

(** Modelled from the spec: a question of a form, from [backend.models],
    whose declarations are missing: its id, whether it is required, and its
    data, which may hold grading metadata under ["unittests"]. *)
Record Question := {
  question_id : string;
  required : bool;
  question_data : dict;
}.

(** Modelled from the spec: the webhook configuration of a form, a URL and
    an optional message template. *)
Record WebHook := {
  webhook_url : string;
  webhook_message : option string;
}.

(** Modelled from the spec: [Form], with the fields the two files read.  The
    spec makes the webhook, the role and the direct-message template
    optional and states no tie between them and the feature flags. *)
Record Form := {
  form_id : string;
  features : list string;
  questions : list Question;
  form_name : string;
  webhook : option WebHook;
  discord_role : option string;
  dm_message : option string;
}.

(** Modelled from the spec: the anti-spam record of a response. *)
Record AntiSpam := {
  ip_hash : string;
  user_agent_hash : string;
  captcha_pass : bool;
}.

(** Modelled from the spec: [FormResponse], the validated response. *)
Record FormResponse := {
  response_id : string;
  response_user : option dict;
  antispam : option AntiSpam;
  response_answers : dict;
  response_form_id : string;
  timestamp : string;
}.

(** Modelled from the spec: the acting user [request.user].  An
    unauthenticated user has no [discord_mention], hence the option. *)
Record User := {
  is_authenticated : bool;
  discord_mention : option string;
  display_name : string;
  payload : dict;
}.

(** Modelled from the spec: the named tuple [execute_unittest] returns per
    graded question. *)
Record TestResult := {
  test_question : string;
  passed : bool;
  return_code : Z;
  test_result : string;
}.

(** Modelled from the spec: [backend.constants.FormFeatures], whose
    declaration is missing; the spec lists the capability flags and the
    source names the members it reads.  [value] of a member is its name. *)
Module FormFeatures.
Definition OPEN := "OPEN".
Definition REQUIRES_LOGIN := "REQUIRES_LOGIN".
Definition COLLECT_EMAIL := "COLLECT_EMAIL".
Definition DISABLE_ANTISPAM := "DISABLE_ANTISPAM".
Definition WEBHOOK_ENABLED := "WEBHOOK_ENABLED".
End FormFeatures.

(** [x in form.features] *)
Definition has_feature (flag : string) (form : Form) : bool :=
  existsb (String.eqb flag) (features form).

(* ================================================================== *)
(** ** HTTP, exceptions and the world *)

Record HttpRequest := {
  req_method : string;
  req_url : string;
  req_params : dict;
  req_json : option value;
  req_headers : list (string * string);
}.

Record Response := {
  status_code : Z;
  resp_headers : list (string * string);
  resp_json : value;
}.

Inductive exn : Type :=
| HTTPStatusError (response : Response)
| TransportError (msg : string)
| RuntimeError (msg : string)
| KeyError (key : string)
| ValueError (msg : string)
| TypeError (msg : string)
| AttributeError (msg : string).

(** What a remote endpoint does with the next request it receives. *)
Inductive Reply : Type :=
| Answer (r : Response)
| Fault (e : exn).

Inductive event : Type :=
| Sent (r : HttpRequest)
| Slept (seconds : Q)
| Graded (r : FormResponse)
| Inserted (r : FormResponse).

Record World := {
  db_forms : list Form;
  db_responses : list FormResponse;
  remote : list Reply;
  trace : list event;
}.

(** What the process is configured with and what it draws from its
    surroundings within one request. *)
Record Env := {
  DISCORD_BOT_TOKEN : string;
  FRONTEND_URL : string;
  HCAPTCHA_API_SECRET : string;
  float : string -> option Q;
  md5_hex : string -> string;
  uuid4 : string;
  now : string;
  execute_unittest : FormResponse -> Form -> exn + list TestResult;
}.

Inductive outcome (A : Type) : Type :=
| Returned (a : A)
| Raised (e : exn)
| Diverged.
Arguments Returned {A} a.
Arguments Raised {A} e.
Arguments Diverged {A}.

Definition M (A : Type) : Type := World -> outcome A * World.

Definition ret {A : Type} (a : A) : M A := fun w => (Returned a, w).

Definition raise {A : Type} (e : exn) : M A := fun w => (Raised e, w).

Definition bind {A B : Type} (m : M A) (k : A -> M B) : M B :=
  fun w =>
    match m w with
    | (Returned a, w') => k a w'
    | (Raised e, w') => (Raised e, w')
    | (Diverged, w') => (Diverged, w')
    end.

(** [try: m  except Exception as e: handler(e)] *)
Definition try_except {A : Type} (m : M A) (handler : exn -> M A) : M A :=
  fun w =>
    match m w with
    | (Raised e, w') => handler e w'
    | r => r
    end.

Declare Scope io_scope.
Delimit Scope io_scope with io.
Notation "x <- m ;; k" := (bind m (fun x => k))
  (at level 100, m at next level, right associativity) : io_scope.
Notation "m ;;; k" := (bind m (fun _ => k))
  (at level 100, right associativity) : io_scope.
Local Open Scope io_scope.

(** The world after one more effect. *)
Definition emit (e : event) (w : World) : World :=
  {| db_forms := db_forms w; db_responses := db_responses w;
     remote := remote w; trace := (trace w ++ [e])%list |}.

(** The world once the remote side has given its next reply. *)
Definition advance (w : World) : World :=
  {| db_forms := db_forms w; db_responses := db_responses w;
     remote := tl (remote w); trace := trace w |}.

Definition store (r : FormResponse) (w : World) : World :=
  {| db_forms := db_forms w; db_responses := (db_responses w ++ [r])%list;
     remote := remote w; trace := trace w |}.

Definition log (e : event) : M unit := fun w => (Returned tt, emit e w).

(** One HTTP exchange: the request goes out and the endpoint's next reply
    comes back.  An endpoint with nothing left to say is unreachable. *)
Definition http_send (r : HttpRequest) : M Response :=
  fun w =>
    let w' := advance (emit (Sent r) w) in
    match remote w with
    | [] => (Raised (TransportError "connection failed"), w')
    | Answer resp :: _ => (Returned resp, w')
    | Fault e :: _ => (Raised e, w')
    end.

(** [asyncio.sleep] *)
Definition sleep (seconds : Q) : M unit := log (Slept seconds).

(** [resp.raise_for_status()]: client and server errors raise. *)
Definition is_error (status : Z) : bool :=
  ((400 <=? status) && (status <=? 599))%Z.

Definition raise_for_status (resp : Response) : M unit :=
  if is_error (status_code resp) then raise (HTTPStatusError resp) else ret tt.

(** A coroutine object.  Awaiting it runs its body; Python refuses a second
    [await] on the same object. *)
Inductive coroutine (A : Type) : Type :=
| Pending (body : M A)
| Awaited.
Arguments Pending {A} body.
Arguments Awaited {A}.

Definition await {A : Type} (c : coroutine A) : M (A * coroutine A) :=
  match c with
  | Pending body => a <- body ;; ret (a, Awaited)
  | Awaited => raise (RuntimeError "cannot reuse already awaited coroutine")
  end.

(** Header names compare without regard to case. *)
Definition lower_ascii (c : ascii) : ascii :=
  let n := nat_of_ascii c in
  if (Nat.leb 65 n && Nat.leb n 90)%bool then ascii_of_nat (n + 32) else c.

Fixpoint lower (s : string) : string :=
  match s with
  | EmptyString => EmptyString
  | String c rest => String (lower_ascii c) (lower rest)
  end.

Fixpoint header (name : string) (hs : list (string * string)) : option string :=
  match hs with
  | [] => None
  | (k, v) :: rest =>
      if String.eqb (lower k) (lower name) then Some v else header name rest
  end.

(** [v[k]] read on a value that came from JSON. *)
Definition subscript (v : value) (k : string) : M value :=
  match v with
  | VDict d =>
      match Dict.get k d with
      | Some x => ret x
      | None => raise (KeyError k)
      end
  | _ => raise (TypeError "indices must be integers")
  end.

(** [k not in v]: keys of a dict, items of a list, substrings of a string. *)
Definition not_in (k : string) (v : value) : M bool :=
  match v with
  | VDict d => ret (negb (Dict.mem k d))
  | VList l =>
      ret (negb (existsb
                   (fun x =>
                      match x with VStr s => String.eqb s k | _ => false end)
                   l))
  | VStr s => ret (negb (occurs k s))
  | _ => raise (TypeError "argument is not iterable")
  end.

(** [v[k] = x]: only a dict takes a string key. *)
Definition setitem (v : value) (k : string) (x : value) : M value :=
  match v with
  | VDict d => ret (VDict (Dict.set k x d))
  | _ => raise (TypeError "object does not support item assignment")
  end.

(* ================================================================== *)
(** ** [urllib.parse]: [urljoin] *)

(** The library function [parse.urljoin], after CPython 3.11, on strings of
    bytes.  Left out: the [ValueError] that [urlsplit] raises for a host
    part with unbalanced or ill-formed square brackets or with characters
    that normalise to URL delimiters, and the rule of releases before 3.10
    that reads [scheme:digits] as a path. *)
Module Parse.

(** The schemes [urljoin] resolves relative references for, those that
    take a host, and those whose last path segment takes parameters. *)
Definition uses_relative : list string :=
  [""; "ftp"; "http"; "gopher"; "nntp"; "imap"; "wais"; "file"; "https";
   "shttp"; "mms"; "prospero"; "rtsp"; "rtspu"; "sftp"; "svn"; "svn+ssh";
   "ws"; "wss"].

Definition uses_netloc : list string :=
  [""; "ftp"; "http"; "gopher"; "nntp"; "telnet"; "imap"; "wais"; "file";
   "mms"; "https"; "shttp"; "snews"; "prospero"; "rtsp"; "rtspu"; "rsync";
   "svn"; "svn+ssh"; "sftp"; "nfs"; "git"; "git+ssh"; "ws"; "wss"].

Definition uses_params : list string :=
  [""; "ftp"; "hdl"; "prospero"; "http"; "imap"; "https"; "shttp"; "rtsp";
   "rtspu"; "sip"; "sips"; "mms"; "sftp"; "tel"].

Definition among (s : string) (l : list string) : bool :=
  existsb (String.eqb s) l.

Definition between (lo hi : nat) (c : ascii) : bool :=
  (Nat.leb lo (nat_of_ascii c) && Nat.leb (nat_of_ascii c) hi)%bool.

Definition isalpha (c : ascii) : bool :=
  (between 65 90 c || between 97 122 c)%bool.

Definition scheme_chars (c : ascii) : bool :=
  (isalpha c || between 48 57 c
   || Ascii.eqb c "+" || Ascii.eqb c "-" || Ascii.eqb c ".")%bool.

Fixpoint all_chars (p : ascii -> bool) (s : string) : bool :=
  match s with
  | EmptyString => true
  | String c rest => (p c && all_chars p rest)%bool
  end.

Fixpoint lower (s : string) : string :=
  match s with
  | EmptyString => EmptyString
  | String c rest =>
      String (if between 65 90 c then ascii_of_nat (nat_of_ascii c + 32)
              else c)
             (lower rest)
  end.

(** [url.lstrip(_WHATWG_C0_CONTROL_OR_SPACE)] *)
Fixpoint lstrip (s : string) : string :=
  match s with
  | EmptyString => EmptyString
  | String c rest => if between 0 32 c then lstrip rest else s
  end.

(** Tabs and line ends are taken out of the URL. *)
Fixpoint remove_unsafe (s : string) : string :=
  match s with
  | EmptyString => EmptyString
  | String c rest =>
      if (between 9 10 c || between 13 13 c)%bool then remove_unsafe rest
      else String c (remove_unsafe rest)
  end.

(** The text before the first [c] and, when there is one, the text after
    it. *)
Fixpoint partition (c : ascii) (s : string) : string * option string :=
  match s with
  | EmptyString => (EmptyString, None)
  | String x rest =>
      if Ascii.eqb x c then (EmptyString, Some rest)
      else let (before, after) := partition c rest in (String x before, after)
  end.

(** [s.split(c)] *)
Fixpoint split (c : ascii) (s : string) : list string :=
  match s with
  | EmptyString => [EmptyString]
  | String x rest =>
      if Ascii.eqb x c then EmptyString :: split c rest
      else match split c rest with
           | [] => [String x EmptyString]
           | segment :: segments => String x segment :: segments
           end
  end.

(** [_splitnetloc(url, 2)] on the text after the two slashes: the host
    part ends at the first of [/], [?] and [#]. *)
Fixpoint splitnetloc (url : string) : string * string :=
  match url with
  | EmptyString => (EmptyString, EmptyString)
  | String c rest =>
      if (Ascii.eqb c "/" || Ascii.eqb c "?" || Ascii.eqb c "#")%bool
      then (EmptyString, url)
      else let (domain, after) := splitnetloc rest in (String c domain, after)
  end.

Record SplitResult : Type :=
  { split_scheme : string; split_netloc : string; split_path : string;
    split_query : string; split_fragment : string }.

(** [urlsplit(url, scheme)] *)
Definition urlsplit (url scheme : string) : SplitResult :=
  let url := remove_unsafe (lstrip url) in
  let found :=
    match partition ":" url with
    | (String c before, Some after) =>
        if (isalpha c && all_chars scheme_chars before)%bool
        then (lower (String c before), after)
        else (scheme, url)
    | _ => (scheme, url)
    end in
  let scheme := fst found in
  let url := snd found in
  let located :=
    match url with
    | String "/" (String "/" rest) => splitnetloc rest
    | _ => (EmptyString, url)
    end in
  let netloc := fst located in
  let url := snd located in
  let cut :=
    match partition "#" url with
    | (before, Some after) => (before, after)
    | (before, None) => (before, EmptyString)
    end in
  let url := fst cut in
  let fragment := snd cut in
  let cut :=
    match partition "?" url with
    | (before, Some after) => (before, after)
    | (before, None) => (before, EmptyString)
    end in
  {| split_scheme := scheme; split_netloc := netloc; split_path := fst cut;
     split_query := snd cut; split_fragment := fragment |}.

(** [_splitparams]: the last segment of the path is cut at its first
    [;]. *)
Definition splitparams (url : string) : string * string :=
  let segments := split "/" url in
  match partition ";" (last segments EmptyString) with
  | (before, Some after) =>
      (join "/" (removelast segments ++ [before])%list, after)
  | (_, None) => (url, EmptyString)
  end.

Record ParseResult : Type :=
  { scheme : string; netloc : string; path : string; params : string;
    query : string; fragment : string }.

(** [urlparse(url, scheme)] *)
Definition urlparse (url default : string) : ParseResult :=
  let parts := urlsplit url default in
  let cut :=
    if among (split_scheme parts) uses_params
    then splitparams (split_path parts)
    else (split_path parts, EmptyString) in
  {| scheme := split_scheme parts; netloc := split_netloc parts;
     path := fst cut; params := snd cut; query := split_query parts;
     fragment := split_fragment parts |}.

Definition nonempty (s : string) : bool :=
  match s with EmptyString => false | String _ _ => true end.

Definition urlunsplit (scheme netloc url query fragment : string) : string :=
  let url :=
    if (nonempty netloc
        || (nonempty scheme && among scheme uses_netloc
            && negb (prefix "//" url)))%bool
    then "//" ++ netloc
         ++ (if (nonempty url && negb (prefix "/" url))%bool
             then "/" ++ url else url)
    else url in
  let url := if nonempty scheme then scheme ++ ":" ++ url else url in
  let url := if nonempty query then url ++ "?" ++ query else url in
  if nonempty fragment then url ++ "#" ++ fragment else url.

Definition urlunparse (p : ParseResult) : string :=
  let url := if nonempty (params p) then path p ++ ";" ++ params p
             else path p in
  urlunsplit (scheme p) (netloc p) url (query p) (fragment p).

(** [segments[1:-1] = filter(None, segments[1:-1])] *)
Definition filter_inner (segments : list string) : list string :=
  match segments with
  | [] => []
  | [only] => [only]
  | first :: rest =>
      (first :: filter nonempty (removelast rest)
         ++ [last rest EmptyString])%list
  end.

(** The loop over the segments: [..] drops the last segment kept so far,
    if any, and [.] is passed over. *)
Fixpoint resolve (segments resolved_path : list string) : list string :=
  match segments with
  | [] => resolved_path
  | seg :: rest =>
      if String.eqb seg ".." then resolve rest (removelast resolved_path)
      else if String.eqb seg "." then resolve rest resolved_path
      else resolve rest (resolved_path ++ [seg])%list
  end.

(** [urljoin(base, url)] *)
Definition urljoin (base url : string) : string :=
  if negb (nonempty base) then url
  else if negb (nonempty url) then base
  else
    let b := urlparse base EmptyString in
    let u := urlparse url (scheme b) in
    if (negb (String.eqb (scheme u) (scheme b))
        || negb (among (scheme u) uses_relative))%bool
    then url
    else if (among (scheme u) uses_netloc && nonempty (netloc u))%bool
    then urlunparse u
    else
      let netloc := if among (scheme u) uses_netloc then netloc b
                    else netloc u in
      if (negb (nonempty (path u)) && negb (nonempty (params u)))%bool
      then
        urlunparse {| scheme := scheme u; netloc := netloc; path := path b;
                      params := params b;
                      query := if nonempty (query u) then query u
                               else query b;
                      fragment := fragment u |}
      else
        let base_parts := split "/" (path b) in
        let base_parts :=
          if nonempty (last base_parts EmptyString)
          then removelast base_parts else base_parts in
        let segments :=
          if prefix "/" (path u) then split "/" (path u)
          else filter_inner (base_parts ++ split "/" (path u))%list in
        let resolved_path := resolve segments [] in
        let resolved_path :=
          if (String.eqb (last segments EmptyString) "."
              || String.eqb (last segments EmptyString) "..")%bool
          then (resolved_path ++ [EmptyString])%list else resolved_path in
        let joined := join "/" resolved_path in
        urlunparse {| scheme := scheme u; netloc := netloc;
                      path := if nonempty joined then joined else "/";
                      params := params u; query := query u;
                      fragment := fragment u |}.

End Parse.

(* ================================================================== *)
(** ** discord.py *)

Module Discord.

Definition API_BASE_URL : string := "https://discord.com/api/v8/".

Definition DISCORD_HEADERS (env : Env) : list (string * string) :=
  [("Authorization", "Bot " ++ DISCORD_BOT_TOKEN env)].

Definition retry_after (env : Env) (resp : Response) : M Q :=
  match header "X-Ratelimit-Reset-After" (resp_headers resp) with
  | None => raise (KeyError "X-Ratelimit-Reset-After")
  | Some s =>
      match float env s with
      | Some q => ret q
      | None => raise (ValueError "could not convert string to float")
      end
  end.

(** [[
    while resp.status_code == 429:
        retry_after = float(resp.headers["X-Ratelimit-Reset-After"])
        await asyncio.sleep(retry_after)
        resp = await request
    ]]
    [request] is the coroutine object made before the loop. *)
Fixpoint handle_rate_limits (env : Env) (fuel : nat)
         (request : coroutine Response) (resp : Response) : M Response :=
  if (status_code resp =? 429)%Z then
    match fuel with
    | O => fun w => (Diverged, w)
    | S fuel' =>
        seconds <- retry_after env resp ;;
        sleep seconds ;;;
        ar <- await request ;;
        handle_rate_limits env fuel' (snd ar) (fst ar)
    end
  else ret resp.

(** What [client.request(method, url, json=json, headers=_headers)] will
    send, with [url] and [_headers] as lines 25-27 compute them. *)
Definition request_of (env : Env) (method url : string)
           (json : option value) (headers : list (string * string))
  : HttpRequest :=
  let url := Parse.urljoin API_BASE_URL url in
  let _headers := Dict.update (DISCORD_HEADERS env) headers in
  {| req_method := method; req_url := url; req_params := [];
     req_json := json; req_headers := _headers |}.

(** [[
    async def make_request(method, url, json=None, headers=None):
        url = parse.urljoin(API_BASE_URL, url)
        _headers = DISCORD_HEADERS.copy()
        _headers.update(headers if headers else {})
        async with httpx.AsyncClient() as client:
            if json is not None:
                request = client.request(method, url, json=json,
                                         headers=_headers)
            else:
                request = client.request(method, url, headers=_headers)
            resp = await request
            # Handle Rate Limits
            while resp.status_code == 429: ...
            resp.raise_for_status()
            return resp
    ]] *)
Definition make_request (env : Env) (fuel : nat) (method url : string)
           (json : option value) (headers : list (string * string))
  : M Response :=
  let request := Pending (http_send (request_of env method url json headers)) in
  ar <- await request ;;
  resp <- handle_rate_limits env fuel (snd ar) (fst ar) ;;
  raise_for_status resp ;;;
  ret resp.

(** [[
    try:
        mention = user.discord_mention
    except AttributeError:
        mention = "User"
    ]] *)
Definition mention_of (user : User) : string :=
  match discord_mention user with
  | Some m => m
  | None => "User"
  end.

Definition build_ctx_variables (form : Form) (response : FormResponse)
           (user : User) : dict :=
  [("user", VStr (mention_of user));
   ("response_id", VStr (response_id response));
   ("form", VStr (form_name form));
   ("form_id", VStr (form_id form));
   ("time", VStr (timestamp response))].

(** [x or y] on two strings *)
Definition str_or (x y : string) : string :=
  if String.eqb x "" then y else x.

(** The author block: the display name and, when the response's user has
    an avatar, the icon URL. *)
Definition with_author (request_user : User) (user : option dict)
           (embed : dict) : dict :=
  if is_authenticated request_user then
    let author := [("name", VStr (display_name request_user))] in
    let author :=
      match user with
      | Some u =>
          let avatar := match Dict.get "avatar" u with
                        | Some a => a | None => VNone end in
          let id := match Dict.get "id" u with
                    | Some i => i | None => VNone end in
          if truthy avatar then
            Dict.set "icon_url"
              (VStr ("https://cdn.discordapp.com/avatars/" ++ py_str id
                     ++ "/" ++ py_str avatar ++ ".png"))
              author
          else author
      | None => author
      end in
    Dict.set "author" (VDict author) embed
  else embed.

(** Lines 113-125: the context, and the embed built from it. *)
Definition embed_of (env : Env) (form : Form) (response : FormResponse)
           (request_user : User) : dict :=
  let ctx := build_ctx_variables form response request_user in
  let mention := match Dict.get "mention" ctx with
                 | Some v => v | None => VNone end in
  [("title", VStr "New Form Response");
   ("description",
    VStr (py_str mention ++ " submitted a response to `"
          ++ form_name form ++ "`."));
   ("url", VStr (FRONTEND_URL env ++ "/path_to_view_form/"
                 ++ response_id response));
   ("timestamp", VStr (timestamp response));
   ("color", VInt 7506394)].

(** Lines 113-145: the payload posted to the webhook. *)
Definition hook_of (env : Env) (form : Form) (hook_cfg : WebHook)
           (response : FormResponse) (request_user : User) : dict :=
  let ctx := build_ctx_variables form response request_user in
  let user := response_user response in
  let embed := embed_of env form response request_user in
  let embed := with_author request_user user embed in
  let hook :=
    [("embeds", VList [VDict embed]);
     ("allowed_mentions",
      VDict [("parse", VList [VStr "users"; VStr "roles"])]);
     ("username", VStr (str_or (form_name form) "Python Discord Forms"))] in
  match webhook_message hook_cfg with
  | Some message =>
      if truthy (VStr message)
      then Dict.set "content" (VStr (format_message ctx message)) hook
      else hook
  | None => hook
  end.

Definition send_submission_webhook (env : Env) (fuel : nat) (form : Form)
           (response : FormResponse) (request_user : User) : M unit :=
  match webhook form with
  | None => raise (ValueError "Got empty webhook.")
  | Some cfg =>
      make_request env fuel "POST" (webhook_url cfg)
        (Some (VDict (hook_of env form cfg response request_user))) [] ;;;
      ret tt
  end.

(** [[
    try:
        response = await make_request("POST", "users/@me/channels",
                                      {"recipient_id": user_id})
        return response.json().get("id")
    except httpx.HTTPStatusError as e:
        if e.response.status_code == 400:
            return
        raise e
    ]] *)
Definition get_direct_message_channel (env : Env) (fuel : nat)
           (user_id : value) : M value :=
  try_except
    (response <- make_request env fuel "POST" "users/@me/channels"
                   (Some (VDict [("recipient_id", user_id)])) [] ;;
     match resp_json response with
     | VDict d =>
         ret (match Dict.get "id" d with Some c => c | None => VNone end)
     | _ => raise (AttributeError "get")
     end)
    (fun e =>
       match e with
       | HTTPStatusError r =>
           if (status_code r =? 400)%Z then ret VNone else raise e
       | _ => raise e
       end).

Definition send_direct_message (env : Env) (fuel : nat) (form : Form)
           (response : FormResponse) (user : User) : M unit :=
  user_id <- subscript (VDict (payload user)) "id" ;;
  channel <- get_direct_message_channel env fuel user_id ;;
  if negb (truthy channel) then ret tt
  else
    match dm_message form with
    | None => raise (AttributeError "replace")
    | Some template =>
        let message :=
          format_message (build_ctx_variables form response user) template in
        try_except
          (make_request env fuel "POST"
             ("channels/" ++ py_str channel ++ "/messages")
             (Some (VDict [("content", VStr message)])) [] ;;;
           ret tt)
          (fun e =>
             match e with
             | HTTPStatusError r =>
                 if (status_code r =? 403)%Z then ret tt else raise e
             | _ => raise e
             end)
    end.

(** [[
    async def fetch_user_details(bearer_token):
        r = await make_request("GET", "users/@me",
                               headers={"Authorization": f"Bearer {bearer_token}"})
        r.raise_for_status()
        return r.json()
    ]] *)
Definition fetch_user_details (env : Env) (fuel : nat) (bearer_token : string)
  : M value :=
  r <- make_request env fuel "GET" "users/@me" None
         [("Authorization", "Bearer " ++ bearer_token)] ;;
  raise_for_status r ;;;
  ret (resp_json r).

(** [[
    async def assign_role(form, request_user):
        if not form.discord_role:
            raise ValueError("Got empty Discord role ID.")
        url = (f"guilds/{constants.DISCORD_GUILD}"
               f"/members/{request_user.payload['id']}/roles/{form.discord_role}")
        await make_request("PUT", url)
    ]]
    [guild] stands for [constants.DISCORD_GUILD], whose declaration is
    missing. *)
Definition assign_role (env : Env) (fuel : nat) (guild : string) (form : Form)
           (request_user : User) : M unit :=
  match discord_role form with
  | None => raise (ValueError "Got empty Discord role ID.")
  | Some role =>
      if String.eqb role "" then raise (ValueError "Got empty Discord role ID.")
      else
        id <- subscript (VDict (payload request_user)) "id" ;;
        let url := "guilds/" ++ guild ++ "/members/" ++ py_str id
                   ++ "/roles/" ++ role in
        make_request env fuel "PUT" url None [] ;;;
        ret tt
  end.

End Discord.

(* ================================================================== *)
(** ** The response model *)

Module Models.

Definition as_str (v : option value) : option string :=
  match v with Some (VStr s) => Some s | _ => None end.

Definition as_dict (v : option value) : option dict :=
  match v with Some (VDict d) => Some d | _ => None end.

Definition optional_dict (v : option value) : option (option dict) :=
  match v with
  | None | Some VNone => Some None
  | Some (VDict d) => Some (Some d)
  | _ => None
  end.

Definition optional_antispam (v : option value) : option (option AntiSpam) :=
  match v with
  | None | Some VNone => Some None
  | Some (VDict d) =>
      match Dict.get "ip_hash" d, Dict.get "user_agent_hash" d,
            Dict.get "captcha_pass" d with
      | Some (VStr i), Some (VStr u), Some (VBool c) =>
          Some (Some {| ip_hash := i; user_agent_hash := u;
                        captcha_pass := c |})
      | _, _, _ => None
      end
  | _ => None
  end.

Definition timestamp_or (now : string) (v : option value) : option string :=
  match v with
  | None | Some VNone => Some now
  | Some (VStr s) => Some s
  | _ => None
  end.

Definition missing {A : Type} (field : string) (x : option A) : list string :=
  match x with Some _ => [] | None => [field] end.

(** Modelled from the spec: the constructor of [FormResponse] in
    [backend.models], called with the assembled fields; it is missing.
    The spec gives the fields: [id],
    [formId], a [timestamp] the server assigns when none is given,
    [response] (a mapping), an optional [user] and an optional [antispam]
    record of two hashes and the CAPTCHA verdict.  Keys the model does not
    declare are ignored; a field of the wrong shape is reported by name. *)
Definition FormResponse_init (env : Env) (response : dict)
  : list string + FormResponse :=
  let id := as_str (Dict.get "id" response) in
  let user := optional_dict (Dict.get "user" response) in
  let spam := optional_antispam (Dict.get "antispam" response) in
  let answers := as_dict (Dict.get "response" response) in
  let form := as_str (Dict.get "form_id" response) in
  let time := timestamp_or (now env) (Dict.get "timestamp" response) in
  match id, user, spam, answers, form, time with
  | Some i, Some u, Some a, Some r, Some f, Some t =>
      inr {| response_id := i; response_user := u; antispam := a;
             response_answers := r; response_form_id := f;
             timestamp := t |}
  | _, _, _, _, _, _ =>
      inl (missing "id" id ++ missing "user" user
           ++ missing "antispam" spam ++ missing "response" answers
           ++ missing "form_id" form ++ missing "timestamp" time)%list
  end.

End Models.

(* ================================================================== *)
(** ** routes/forms/submit.py *)

Module SubmitForm.

Definition HCAPTCHA_VERIFY_URL : string := "https://hcaptcha.com/siteverify".

Definition HCAPTCHA_HEADERS : list (string * string) :=
  [("Content-Type", "application/x-www-form-urlencoded")].

Record Request := {
  json_body : dict;
  path_form_id : string;
  client_host : string;
  request_headers : list (string * string);
  request_user : User;
}.

Record BackgroundTask := {
  task_form : Form;
  task_response : FormResponse;
  task_user : User;
}.

Inductive Content : Type :=
| Error (error : string)
| ErrorFields (error : string) (fields : list string)
| ValidationErrors (errors : list string)
| ErrorTests (error : string) (test_results : list TestResult)
| Submission (form : Form) (response : FormResponse).

Record JSONResponse := {
  content : Content;
  status : Z;
  background : option BackgroundTask;
}.

Definition reply (c : Content) (code : Z) : JSONResponse :=
  {| content := c; status := code; background := None |}.

(** A stage either hands its result to the next one or returns to the
    caller. *)
Inductive step (A : Type) : Type :=
| Continue (a : A)
| Return (r : JSONResponse).
Arguments Continue {A} a.
Arguments Return {A} r.

Definition and_then {A B : Type} (m : M (step A)) (k : A -> M (step B))
  : M (step B) :=
  s <- m ;;
  match s with
  | Continue a => k a
  | Return r => ret (Return r)
  end.

(** [db.forms.find_one({"_id": form_id, "features": "OPEN"})] *)
Definition find_one (id : string) : M (option Form) :=
  fun w =>
    (Returned
       (find (fun f => String.eqb (form_id f) id
                       && has_feature FormFeatures.OPEN f)%bool
             (db_forms w)),
     w).

(** [db.responses.insert_one(doc)] *)
Definition insert_one (r : FormResponse) : M unit :=
  fun w => (Returned tt, store r (emit (Inserted r) w)).

(** Lines 72-97. *)
Definition antispam_stage (env : Env) (request : Request) (form : Form)
           (data response : dict) : M dict :=
  if negb (has_feature FormFeatures.DISABLE_ANTISPAM form) then
    let ip := md5_hex env (client_host request) in
    agent <- match header "User-Agent" (request_headers request) with
             | Some a => ret a
             | None => raise (KeyError "User-Agent")
             end ;;
    let agent_hash := md5_hex env agent in
    let query_params :=
      [("secret", VStr (HCAPTCHA_API_SECRET env));
       ("response", match Dict.get "captcha" data with
                    | Some c => c | None => VNone end)] in
    r <- http_send {| req_method := "POST"; req_url := HCAPTCHA_VERIFY_URL;
                      req_params := query_params; req_json := None;
                      req_headers := HCAPTCHA_HEADERS |} ;;
    raise_for_status r ;;;
    success <- subscript (resp_json r) "success" ;;
    ret (Dict.set "antispam"
           (VDict [("ip_hash", VStr ip);
                   ("user_agent_hash", VStr agent_hash);
                   ("captcha_pass", success)])
           response)
  else ret response.

(** Lines 99-113. *)
Definition login_stage (request : Request) (form : Form) (response : dict)
  : step dict :=
  if has_feature FormFeatures.REQUIRES_LOGIN form then
    if is_authenticated (request_user request) then
      let claims := payload (request_user request) in
      let response := Dict.set "user" (VDict claims) response in
      if (has_feature FormFeatures.COLLECT_EMAIL form
          && negb (Dict.mem "email" claims))%bool
      then Return (reply (Error "email_required") 400)
      else Continue response
    else Return (reply (Error "missing_discord_data") 400)
  else Continue response.

(** Lines 115-121: the loop over [form.questions]. *)
Fixpoint complete_fields (qs : list Question) (response : dict)
         (missing_fields : list string) : M (dict * list string) :=
  match qs with
  | [] => ret (response, missing_fields)
  | question :: rest =>
      answers <- subscript (VDict response) "response" ;;
      absent <- not_in (question_id question) answers ;;
      if absent then
        if negb (required question) then
          answers' <- setitem answers (question_id question) VNone ;;
          complete_fields rest (Dict.set "response" answers' response)
                          missing_fields
        else
          complete_fields rest response
                          (missing_fields ++ [question_id question])%list
      else complete_fields rest response missing_fields
  end.

(** Lines 62-113: the response shell, anti-spam and login. *)
Definition enrich (env : Env) (request : Request) (form : Form)
  : M (step dict) :=
  let data := Dict.set "timestamp" VNone (json_body request) in
  let response := data in
  let response := Dict.set "id" (VStr (uuid4 env)) response in
  let response := Dict.set "form_id" (VStr (form_id form)) response in
  response <- antispam_stage env request form data response ;;
  ret (login_stage request form response).

(** Lines 115-132: completeness and validation. *)
Definition check (env : Env) (form : Form) (response : dict)
  : M (step FormResponse) :=
  cm <- complete_fields (questions form) response [] ;;
  let response := fst cm in
  let missing_fields := snd cm in
  match missing_fields with
  | _ :: _ =>
      ret (Return (reply (ErrorFields "missing_fields" missing_fields) 400))
  | [] =>
      match Models.FormResponse_init env response with
      | inr response_obj => ret (Continue response_obj)
      | inl errors => ret (Return (reply (ValidationErrors errors) 422))
      end
  end.

Definition has_unittests (form : Form) : bool :=
  existsb (fun question => Dict.mem "unittests" (question_data question))
          (questions form).

Definition run_unittests (env : Env) (response_obj : FormResponse)
           (form : Form) : M (list TestResult) :=
  log (Graded response_obj) ;;;
  match execute_unittest env response_obj form with
  | inr results => ret results
  | inl e => raise e
  end.

(** Lines 134-151. *)
Definition grade (env : Env) (form : Form) (response_obj : FormResponse)
  : M (step FormResponse) :=
  if has_unittests form then
    unittest_results <- run_unittests env response_obj form ;;
    let was_successful := forallb passed unittest_results in
    if negb was_successful then
      let status_code :=
        if existsb (fun test => (return_code test =? 99)%Z) unittest_results
        then 500%Z else 403%Z in
      ret (Return
             (reply (ErrorTests "failed_tests"
                       (filter (fun test => negb (passed test))
                               unittest_results))
                    status_code))
    else ret (Continue response_obj)
  else ret (Continue response_obj).

(** Modelled from the spec: whether [JSONResponse] can render the answer of
    lines 166-169, [{"form": form.dict(admin=False), "response":
    response_obj.dict()}].  Starlette renders with [allow_nan=False] when
    the response object is made.  The methods [dict] are missing; of what
    the spec lets a form and a response hold, the questions' data, the
    answers and the user's claims can carry arbitrary JSON. *)
Definition renders (form : Form) (response_obj : FormResponse) : bool :=
  forallb (fun question => json_compliant (VDict (question_data question)))
          (questions form)
  && json_compliant (VDict (response_answers response_obj))
  && match response_user response_obj with
     | Some claims => json_compliant (VDict claims)
     | None => true
     end.

(** Lines 153-169: the insert comes first, then the answer is built. *)
Definition persist (request : Request) (form : Form)
           (response_obj : FormResponse) : M (step JSONResponse) :=
  insert_one response_obj ;;;
  let send_webhook :=
    if has_feature FormFeatures.WEBHOOK_ENABLED form
    then Some {| task_form := form; task_response := response_obj;
                 task_user := request_user request |}
    else None in
  if renders form response_obj then
    ret (Continue {| content := Submission form response_obj;
                     status := 200; background := send_webhook |})
  else raise (ValueError "Out of range float values are not JSON compliant").

(** [SubmitForm.post] *)
Definition post (env : Env) (request : Request) : M JSONResponse :=
  found <- find_one (path_form_id request) ;;
  match found with
  | Some form =>
      s <- and_then (enrich env request form) (fun response =>
           and_then (check env form response) (fun response_obj =>
           and_then (grade env form response_obj) (fun response_obj =>
           persist request form response_obj))) ;;
      match s with
      | Continue r => ret r
      | Return r => ret r
      end
  | None => ret (reply (Error "Open form not found") 404)
  end.

(** The static method [send_submission_webhook], lines 187-233: the
    payload. *)
Definition hook_of (env : Env) (form : Form) (hook_cfg : WebHook)
           (response : FormResponse) (request_user : User) : dict :=
  let mention := Discord.mention_of request_user in
  let user := response_user response in
  let embed :=
    [("title", VStr "New Form Response");
     ("description",
      VStr (mention ++ " submitted a response to `"
            ++ form_name form ++ "`."));
     ("url", VStr (FRONTEND_URL env ++ "/path_to_view_form/"
                   ++ response_id response));
     ("timestamp", VStr (timestamp response));
     ("color", VInt 7506394)] in
  let embed := Discord.with_author request_user user embed in
  let hook :=
    [("embeds", VList [VDict embed]);
     ("allowed_mentions",
      VDict [("parse", VList [VStr "users"; VStr "roles"])]);
     ("username",
      VStr (Discord.str_or (form_name form) "Python Discord Forms"))] in
  match webhook_message hook_cfg with
  | Some message =>
      if truthy (VStr message) then
        let ctx :=
          [("user", VStr mention);
           ("response_id", VStr (response_id response));
           ("form", VStr (form_name form));
           ("form_id", VStr (form_id form));
           ("time", VStr (timestamp response))] in
        let message := format_message ctx message in
        Dict.set "content"
          (VStr (replace "_USER_MENTION_" mention message)) hook
      else hook
  | None => hook
  end.

Definition send_submission_webhook (env : Env) (form : Form)
           (response : FormResponse) (request_user : User) : M unit :=
  match webhook form with
  | None => raise (ValueError "Got empty webhook.")
  | Some cfg =>
      r <- http_send {| req_method := "POST"; req_url := webhook_url cfg;
                        req_params := [];
                        req_json :=
                          Some (VDict (hook_of env form cfg response
                                               request_user));
                        req_headers := [] |} ;;
      raise_for_status r
  end.

(** Starlette runs the background task of a response after sending it. *)
Definition run_background (env : Env) (task : BackgroundTask) : M unit :=
  send_submission_webhook env (task_form task) (task_response task)
                          (task_user task).

End SubmitForm.

(* ================================================================== *)
(** ** Observations *)

(** A field of the embed a webhook payload carries. *)
Definition embed_field (field : string) (hook : dict) : option value :=
  match Dict.get "embeds" hook with
  | Some (VList (VDict embed :: _)) => Dict.get field embed
  | _ => None
  end.

(** The documents [insert_one] was called with, oldest first. *)
Fixpoint inserted (t : list event) : list FormResponse :=
  match t with
  | [] => []
  | Inserted r :: rest => r :: inserted rest
  | _ :: rest => inserted rest
  end.

(** The requests that went out, oldest first. *)
Fixpoint requests (t : list event) : list HttpRequest :=
  match t with
  | [] => []
  | Sent r :: rest => r :: requests rest
  | _ :: rest => requests rest
  end.

(** The loop of lines 115-121 seen on the answers alone, for a response
    whose ["response"] entry is a dict. *)
Fixpoint completed (qs : list Question) (answers : dict)
         (missing_fields : list string) : dict * list string :=
  match qs with
  | [] => (answers, missing_fields)
  | question :: rest =>
      if negb (Dict.mem (question_id question) answers) then
        if negb (required question) then
          completed rest (Dict.set (question_id question) VNone answers)
                    missing_fields
        else
          completed rest answers
                    (missing_fields ++ [question_id question])%list
      else completed rest answers missing_fields
  end.

(** In the words of the specification: the ids of the required questions
    that are absent from the submitted answers, in the order of the form's
    questions. *)
Definition missing_required (qs : list Question) (answers : dict)
  : list string :=
  map question_id
      (filter (fun q => required q && negb (Dict.mem (question_id q) answers))
              qs).

(** Question ids are pairwise distinct. *)
Fixpoint distinct (ids : list string) : bool :=
  match ids with
  | [] => true
  | i :: rest => negb (existsb (String.eqb i) rest) && distinct rest
  end.

(** The request lines 80-89 of [post] send to the CAPTCHA service. *)
Definition captcha_request (env : Env) (request : SubmitForm.Request)
  : HttpRequest :=
  {| req_method := "POST"; req_url := SubmitForm.HCAPTCHA_VERIFY_URL;
     req_params :=
       [("secret", VStr (HCAPTCHA_API_SECRET env));
        ("response",
         match Dict.get "captcha" (SubmitForm.json_body request) with
         | Some c => c | None => VNone end)];
     req_json := None;
     req_headers := SubmitForm.HCAPTCHA_HEADERS |}.

(** The responses [execute_unittest] was called with, oldest first. *)
Fixpoint graded (t : list event) : list FormResponse :=
  match t with
  | [] => []
  | Graded r :: rest => r :: graded rest
  | _ :: rest => graded rest
  end.

(** The author block of an embed, as lines 128-133 of [discord.py] and
    204-209 of [submit.py] build it. *)
Definition author_block (request_user : User) (user : option dict)
  : option value :=
  if is_authenticated request_user then
    let name := ("name", VStr (display_name request_user)) in
    match user with
    | Some u =>
        let avatar :=
          match Dict.get "avatar" u with Some a => a | None => VNone end in
        let id := match Dict.get "id" u with Some i => i | None => VNone end in
        if truthy avatar then
          Some (VDict
                  [name;
                   ("icon_url",
                    VStr ("https://cdn.discordapp.com/avatars/" ++ py_str id
                          ++ "/" ++ py_str avatar ++ ".png"))])
        else Some (VDict [name])
    | None => Some (VDict [name])
    end
  else None.

(** Nothing was inserted between [w] and [w']. *)
Definition quiet (w w' : World) : Prop :=
  db_responses w' = db_responses w
  /\ inserted (trace w') = inserted (trace w)
  /\ db_forms w' = db_forms w.

(** An answer that refuses the submission: an error status, and nothing
    left to run in the background. *)
Definition refusal (r : SubmitForm.JSONResponse) : Prop :=
  SubmitForm.status r <> 200%Z /\ SubmitForm.background r = None.

Create HintDb pipeline.

(* ================================================================== *)
(** ** Concrete surroundings for the examples *)

Module Sample.

Definition env : Env :=
  {| DISCORD_BOT_TOKEN := "bot-token";
     FRONTEND_URL := "https://forms.example";
     HCAPTCHA_API_SECRET := "hcaptcha-secret";
     float := decimal_float;
     md5_hex := fun s => "md5(" ++ s ++ ")";
     uuid4 := "3b241101-e2bb-4255-8caf-4136c566a962";
     now := "2021-03-01T12:00:00+00:00";
     execute_unittest := fun _ _ => inr [] |}.

Definition world (forms : list Form) (replies : list Reply) : World :=
  {| db_forms := forms; db_responses := []; remote := replies; trace := [] |}.

Definition answer (code : Z) (headers : list (string * string))
           (json : value) : Reply :=
  Answer {| status_code := code; resp_headers := headers;
            resp_json := json |}.

(** The server of the rate-limit scenario: 429 with a reset after 0.2
    seconds, then 200. *)
Definition rate_limited_once : list Reply :=
  [answer 429 [("X-RateLimit-Reset-After", "0.2")] VNone;
   answer 200 [] (VDict [("id", VStr "77")])].

Definition ada : User :=
  {| is_authenticated := true; discord_mention := Some "<@42>";
     display_name := "Ada"; payload := [("id", VStr "42")] |}.

Definition anonymous : User :=
  {| is_authenticated := false; discord_mention := None;
     display_name := ""; payload := [] |}.

Definition hook : WebHook :=
  {| webhook_url := "https://discord.com/api/webhooks/1/abc";
     webhook_message := Some "{user} submitted {form}" |}.

Definition question (id : string) (req : bool) (data : dict) : Question :=
  {| question_id := id; required := req; question_data := data |}.

Definition form (flags : list string) (qs : list Question)
           (wh : option WebHook) : Form :=
  {| form_id := "survey"; features := flags; questions := qs;
     form_name := "Survey"; webhook := wh; discord_role := None;
     dm_message := Some "Thanks {user}" |}.

Definition response : FormResponse :=
  {| response_id := "r1"; response_user := None; antispam := None;
     response_answers := [("q1", VStr "yes")];
     response_form_id := "survey";
     timestamp := "2021-03-01T12:00:00+00:00" |}.

Definition test (q : string) (ok : bool) (code : Z) : TestResult :=
  {| test_question := q; passed := ok; return_code := code;
     test_result := "" |}.

(** The surroundings with a grader that returns [results]. *)
Definition grader (results : list TestResult) : Env :=
  {| DISCORD_BOT_TOKEN := DISCORD_BOT_TOKEN env;
     FRONTEND_URL := FRONTEND_URL env;
     HCAPTCHA_API_SECRET := HCAPTCHA_API_SECRET env;
     float := float env; md5_hex := md5_hex env; uuid4 := uuid4 env;
     now := now env;
     execute_unittest := fun _ _ => inr results |}.

(** Two graded questions, no anti-spam. *)
Definition graded_form : Form :=
  form ["OPEN"; "DISABLE_ANTISPAM"]
       [question "q1" true [("unittests", VList [VStr "assert True"])];
        question "q2" true [("unittests", VList [VStr "assert False"])]]
       None.

Definition request (body : dict) (user : User) : SubmitForm.Request :=
  {| SubmitForm.json_body := body;
     SubmitForm.path_form_id := "survey";
     SubmitForm.client_host := "203.0.113.7";
     SubmitForm.request_headers := [("user-agent", "curl/7.74")];
     SubmitForm.request_user := user |}.

End Sample.

(* ================================================================== *)
(** * Properties *)

(* ------------------------------------------------------------------ *)
(** ** Strings *)

Lemma prefix_empty (s : string) : prefix "" s = true.
Proof. destruct s; reflexivity. Qed.

Lemma prefix_app (a b : string) : prefix a (a ++ b) = true.
Proof.
  induction a as [|c a IH]; simpl; [apply prefix_empty|].
  destruct (ascii_dec c c); [exact IH | congruence].
Qed.

Lemma replace_from_skip (old new x s : string) :
  replace_from old new (String.length x) (x ++ s) = replace_from old new 0 s.
Proof.
  induction x as [|c x IH]; simpl; [reflexivity | exact IH].
Qed.

Lemma replace_from_absent (old new s : string) :
  occurs old s = false -> replace_from old new 0 s = s.
Proof.
  induction s as [|c s IH]; intros H; [reflexivity|].
  cbn [occurs] in H. apply orb_false_iff in H as [H1 H2].
  cbn [replace_from]. rewrite H1. now rewrite IH.
Qed.

Lemma replace_absent (old new s : string) :
  occurs old s = false -> replace old new s = s.
Proof.
  destruct old as [|c old]; intros H.
  - destruct s; simpl in H; discriminate.
  - now apply replace_from_absent.
Qed.

Lemma replace_from_match (c : ascii) (old new b : string) :
  replace_from (String c old) new 0 (String c old ++ b)
  = new ++ replace_from (String c old) new 0 b.
Proof.
  change (String c old ++ b) with (String c (old ++ b)).
  cbn [replace_from].
  change (String c (old ++ b)) with (String c old ++ b).
  rewrite prefix_app. cbn [String.length Nat.pred].
  now rewrite replace_from_skip.
Qed.

Lemma replace_from_first (old new a b : string) :
  old <> "" ->
  starts_within old a (old ++ b) = false ->
  replace_from old new 0 (a ++ old ++ b)
  = a ++ new ++ replace_from old new 0 b.
Proof.
  intros Hne. induction a as [|c a IH]; intros H.
  - destruct old as [|c old]; [congruence|]. apply replace_from_match.
  - cbn [starts_within] in H. apply orb_false_iff in H as [H1 H2].
    change (String c a ++ old ++ b) with (String c (a ++ old ++ b)) in *.
    cbn [replace_from]. rewrite H1. rewrite (IH H2). reflexivity.
Qed.

(** [replace] turns every occurrence of [old] into [new]: a text cut at its
    occurrences of [old] comes back with [new] at the cuts. *)
Lemma replace_join (old new : string) (segments : list string) :
  old <> "" ->
  separated old segments = true ->
  replace old new (join old segments) = join new segments.
Proof.
  intros Hne.
  assert (E : forall s, replace old new s = replace_from old new 0 s).
  { destruct old; [congruence | reflexivity]. }
  rewrite E.
  induction segments as [|s rest IH]; intros H; [reflexivity|].
  destruct rest as [|s' rest].
  - simpl in *. apply replace_from_absent. now apply negb_true_iff.
  - cbn [separated] in H. apply andb_true_iff in H as [H1 H2].
    apply negb_true_iff in H1.
    cbn [join]. cbn [join] in H1, IH.
    rewrite replace_from_first by assumption.
    now rewrite IH.
Qed.

Lemma placeholder_nonempty (key : string) : placeholder key <> "".
Proof. unfold placeholder. simpl. discriminate. Qed.

(* ------------------------------------------------------------------ *)
(** ** [format_message] *)

Lemma format_message_cons (k : string) (v : value) (ctx : dict) (m : string) :
  format_message ((k, v) :: ctx) m
  = format_message ctx (replace (placeholder k) (py_str v) m).
Proof. reflexivity. Qed.

Lemma format_message_identity (ctx : dict) (m : string) :
  (forall k v, In (k, v) ctx -> occurs (placeholder k) m = false) ->
  format_message ctx m = m.
Proof.
  induction ctx as [|[k v] ctx IH]; intros H; [reflexivity|].
  rewrite format_message_cons, replace_absent.
  - apply IH. intros k' v' Hin. apply (H k' v'). now right.
  - apply (H k v). now left.
Qed.

Lemma format_message_app (pre post : dict) (m : string) :
  format_message (pre ++ post)%list m
  = format_message post (format_message pre m).
Proof. unfold format_message. apply fold_left_app. Qed.

Lemma append_assoc (a b c : string) : (a ++ b) ++ c = a ++ b ++ c.
Proof.
  induction a as [|x a IH]; [reflexivity|].
  change (String x ((a ++ b) ++ c) = String x (a ++ b ++ c)).
  now rewrite IH.
Qed.

(** The scan passes over text without an opening brace. *)
Lemma replace_from_text (key new s rest : string) :
  no_char "{" s = true ->
  replace_from (placeholder key) new 0 (s ++ rest)
  = s ++ replace_from (placeholder key) new 0 rest.
Proof.
  induction s as [|c s IH]; intros H; [reflexivity|].
  cbn [no_char] in H. apply andb_true_iff in H as [Hc Hs].
  apply negb_true_iff, Ascii.eqb_neq in Hc.
  change (String c s ++ rest) with (String c (s ++ rest)).
  cbn [replace_from]. unfold placeholder at 1.
  change ("{" ++ key ++ "}") with (String "{" (key ++ "}")).
  cbn [prefix].
  destruct (ascii_dec "{" c) as [E|_]; [now subst c|].
  now rewrite (IH Hs).
Qed.

Lemma no_char_app (c : ascii) (a b : string) :
  no_char c (a ++ b) = (no_char c a && no_char c b)%bool.
Proof.
  induction a as [|x a IH]; [reflexivity|].
  change (String x a ++ b) with (String x (a ++ b)).
  cbn [no_char]. now rewrite IH, andb_assoc.
Qed.

(** Two names without a closing brace: the placeholder of the one starts
    the text only where the placeholder of the same name stands. *)
Lemma prefix_name (key name rest : string) :
  no_char "}" key = true -> no_char "}" name = true ->
  prefix (key ++ "}") (name ++ "}" ++ rest) = true -> key = name.
Proof.
  revert name. induction key as [|a key IH]; intros [|c name] Hk Hn H.
  - reflexivity.
  - cbn [append prefix] in H.
    destruct (ascii_dec "}" c) as [<-|]; [|discriminate].
    cbn in Hn. discriminate.
  - cbn [append prefix] in H.
    destruct (ascii_dec a "}") as [->|]; [|discriminate].
    cbn in Hk. discriminate.
  - change (String a key ++ "}") with (String a (key ++ "}")) in H.
    change (String c name ++ "}" ++ rest)
      with (String c (name ++ "}" ++ rest)) in H.
    cbn [prefix] in H.
    destruct (ascii_dec a c) as [->|]; [|discriminate].
    cbn [no_char] in Hk, Hn.
    apply andb_true_iff in Hk as [_ Hk]. apply andb_true_iff in Hn as [_ Hn].
    now rewrite (IH name Hk Hn H).
Qed.

(** One turn of the loop on a plain template: the placeholders of [key]
    become [new], and the template that is left is plain again. *)
Lemma replace_plain (key new : string) (template : list token) :
  brace_free key = true ->
  plain_template template = true ->
  replace (placeholder key) new (render template)
  = render (map (fun t => match t with
                          | Text s => Text s
                          | Hole name =>
                              if String.eqb name key then Text new
                              else Hole name
                          end) template).
Proof.
  intros Hkey. apply andb_true_iff in Hkey as [_ Hkey].
  change (replace (placeholder key) new (render template))
    with (replace_from (placeholder key) new 0 (render template)).
  induction template as [|[s|name] template IH]; intros H;
    [reflexivity| |];
    cbn [plain_template forallb] in H; apply andb_true_iff in H as [Ht H];
    cbn [render map render_token].
  - rewrite (replace_from_text _ _ _ _ Ht). now rewrite IH.
  - apply andb_true_iff in Ht as [Ho Hc].
    destruct (String.eqb_spec name key) as [->|Hne].
    + cbn [render render_token]. unfold placeholder at 2.
      change (("{" ++ key ++ "}") ++ render template)
        with (String "{" (key ++ "}") ++ render template).
      unfold placeholder at 1.
      change ("{" ++ key ++ "}") with (String "{" (key ++ "}")).
      rewrite replace_from_match.
      change (String "{" (key ++ "}")) with (placeholder key).
      now rewrite (IH H).
    + cbn [render render_token].
      unfold placeholder at 2.
      change (("{" ++ name ++ "}") ++ render template)
        with (String "{" ((name ++ "}") ++ render template)).
      cbn [replace_from].
      destruct (prefix (placeholder key)
                       (String "{" ((name ++ "}") ++ render template)))
        eqn:Hp.
      * exfalso. apply Hne. symmetry.
        unfold placeholder in Hp.
        change ("{" ++ key ++ "}") with (String "{" (key ++ "}")) in Hp.
        cbn [prefix] in Hp.
        destruct (ascii_dec "{" "{") as [_|N]; [|now elim N].
        rewrite append_assoc in Hp.
        exact (prefix_name _ _ _ Hkey Hc Hp).
      * rewrite replace_from_text, (IH H).
        -- unfold placeholder.
           change ("{" ++ name ++ "}") with (String "{" (name ++ "}")).
           reflexivity.
        -- rewrite no_char_app, Ho. reflexivity.
Qed.

Lemma replace_plain_still (key new : string) (template : list token) :
  no_char "{" new = true ->
  plain_template template = true ->
  plain_template
    (map (fun t => match t with
                   | Text s => Text s
                   | Hole name =>
                       if String.eqb name key then Text new else Hole name
                   end) template) = true.
Proof.
  intros Hnew. induction template as [|[s|name] template IH]; intros H;
    [reflexivity| |];
    cbn [plain_template forallb map] in *;
    apply andb_true_iff in H as [Ht H]; apply andb_true_iff; split;
    try (apply IH; exact H); try exact Ht.
  destruct (String.eqb name key); [exact Hnew | exact Ht].
Qed.

(** On a plain context and a plain template the loop of [format_message]
    and the replacement of all placeholders at once agree. *)
Lemma format_message_plain (ctx : dict) (template : list token) :
  plain_context ctx = true ->
  plain_template template = true ->
  format_message ctx (render template) = render (map (fill ctx) template).
Proof.
  revert template. induction ctx as [|[k v] ctx IH]; intros template Hc Ht.
  - cbn [format_message fold_left]. f_equal.
    induction template as [|[s|name] template IHt]; [reflexivity| |];
      cbn [map fill Dict.get]; f_equal; apply IHt;
      cbn [plain_template forallb] in Ht;
      now apply andb_true_iff in Ht as [_ Ht].
  - cbn [plain_context forallb fst snd] in Hc.
    apply andb_true_iff in Hc as [Hkv Hc].
    apply andb_true_iff in Hkv as [Hk Hv].
    rewrite format_message_cons, (replace_plain _ _ _ Hk Ht).
    rewrite (IH _ Hc (replace_plain_still k _ _ Hv Ht)).
    f_equal. rewrite map_map. apply map_ext. intros [s|name]; [reflexivity|].
    cbn [fill Dict.get]. now destruct (String.eqb name k).
Qed.

(** C9, as the code has it.  On a context whose keys hold no brace and
    whose values, as [str] gives them, hold no opening brace,
    [format_message] turns every placeholder of a plain template whose name
    is a key into the key's value, and leaves the text and the other
    placeholders as they are.  On any context the keys are taken one after
    the other, in the order of the context: what the earlier keys have made
    of the message, cut at the occurrences of the last key's placeholder,
    comes back with the last key's value at each cut.  A template in which
    no [{key}] occurs is returned unchanged, and
    ["{user} submitted {form}"] under [user = "Ada"], [form = "Survey"]
    gives ["Ada submitted Survey"]. *)
Theorem format_message_fills_placeholders :
  (forall ctx template,
      plain_context ctx = true ->
      plain_template template = true ->
      format_message ctx (render template) = render (map (fill ctx) template))
  /\ (forall ctx k v m segments,
         format_message ctx m = join (placeholder k) segments ->
         separated (placeholder k) segments = true ->
         format_message (ctx ++ [(k, v)])%list m = join (py_str v) segments)
  /\ (forall ctx m,
         (forall k v, In (k, v) ctx -> occurs (placeholder k) m = false) ->
         format_message ctx m = m)
  /\ format_message [("user", VStr "Ada"); ("form", VStr "Survey")]
                    "{user} submitted {form}"
     = "Ada submitted Survey".
Proof.
  split; [exact format_message_plain|]. split; [|split].
  - intros ctx k v m segments Hm Hs.
    rewrite format_message_app, Hm. cbn [format_message fold_left fst snd].
    apply replace_join; [apply placeholder_nonempty | exact Hs].
  - apply format_message_identity.
  - reflexivity.
Qed.

(** A template with a repeated placeholder, one that the context does not
    know, and a value that holds a closing brace. *)
Lemma format_message_fills_placeholders_ada :
  format_message [("user", VStr "Ada"); ("form", VStr "Survey}");
                  ("time", VInt 7)]
                 "{user} and {user} submitted {form} to {team} at {time}."
  = "Ada and Ada submitted Survey} to {team} at 7.".
Proof.
  exact (proj1 format_message_fills_placeholders
           [("user", VStr "Ada"); ("form", VStr "Survey}"); ("time", VInt 7)]
           [Hole "user"; Text " and "; Hole "user"; Text " submitted ";
            Hole "form"; Text " to "; Hole "team"; Text " at "; Hole "time";
            Text "."]
           eq_refl eq_refl).
Defined.

(** C9 as stated fails: the value of an earlier key is searched for the
    placeholders of the later keys, so ["{user}"] does not come back as the
    value of [user], and the same mapping in another order gives another
    text.  A value without braces does the same inside a template that puts
    braces around a placeholder. *)
Lemma format_message_rescans_values :
  format_message [("user", VStr "{form}"); ("form", VStr "Survey")] "{user}"
  = "Survey"
  /\ format_message [("form", VStr "Survey"); ("user", VStr "{form}")]
                    "{user}"
     = "{form}"
  /\ occurs (placeholder "form") "{user}" = false
  /\ format_message [("user", VStr "form"); ("form", VStr "Survey")]
                    "{{user}}"
     = "Survey"
  /\ occurs (placeholder "form") "{{user}}" = false.
Proof. repeat split. Qed.

(** A template cut at its two occurrences of [{user}]. *)
Example format_message_one_key :
  separated (placeholder "user") [""; " and "; "!"] = true
  /\ format_message [("user", VStr "Ada")] "{user} and {user}!"
     = "Ada and Ada!".
Proof. split; reflexivity. Qed.

(* ------------------------------------------------------------------ *)
(** ** [make_request] *)

(** Once the request coroutine has been awaited, the rate-limit loop cannot
    obtain another response from it. *)
Lemma handle_rate_limits_awaited (env : Env) (fuel : nat) (resp : Response)
      (w : World) :
  Discord.handle_rate_limits env (S fuel) Awaited resp w
  = if (status_code resp =? 429)%Z then
      match header "X-Ratelimit-Reset-After" (resp_headers resp) with
      | None => (Raised (KeyError "X-Ratelimit-Reset-After"), w)
      | Some s =>
          match float env s with
          | None =>
              (Raised (ValueError "could not convert string to float"), w)
          | Some q =>
              (Raised (RuntimeError "cannot reuse already awaited coroutine"),
               emit (Slept q) w)
          end
      end
    else (Returned resp, w).
Proof.
  cbn [Discord.handle_rate_limits].
  destruct (status_code resp =? 429)%Z; [|reflexivity].
  unfold bind, Discord.retry_after.
  destruct (header _ _) as [s|]; [|reflexivity].
  destruct (float env s) as [q|]; reflexivity.
Qed.

(** What [make_request] does with the first reply of the remote side. *)
Lemma make_request_first_reply (env : Env) (fuel : nat) (method url : string)
      (json : option value) (headers : list (string * string)) (w : World) :
  let w1 :=
    advance (emit (Sent (Discord.request_of env method url json headers)) w)
  in
  Discord.make_request env (S fuel) method url json headers w
  = match remote w with
    | [] => (Raised (TransportError "connection failed"), w1)
    | Fault e :: _ => (Raised e, w1)
    | Answer resp :: _ =>
        if (status_code resp =? 429)%Z then
          match header "X-Ratelimit-Reset-After" (resp_headers resp) with
          | None => (Raised (KeyError "X-Ratelimit-Reset-After"), w1)
          | Some s =>
              match float env s with
              | None =>
                  (Raised (ValueError "could not convert string to float"), w1)
              | Some q =>
                  (Raised
                     (RuntimeError "cannot reuse already awaited coroutine"),
                   emit (Slept q) w1)
              end
          end
        else if is_error (status_code resp)
             then (Raised (HTTPStatusError resp), w1)
             else (Returned resp, w1)
    end.
Proof.
  intros w1. unfold Discord.make_request, await, bind, http_send.
  fold w1.
  destruct (remote w) as [|[resp|e] rest]; try reflexivity.
  cbn [snd fst ret]. rewrite handle_rate_limits_awaited.
  destruct (status_code resp =? 429)%Z.
  - destruct (header _ _) as [s|]; [|reflexivity].
    destruct (float env s); reflexivity.
  - unfold raise_for_status. destruct (is_error _); reflexivity.
Qed.

(** C1.  A call whose first response is 429 reads the reset delay from the
    headers and sleeps for it, but then awaits the request coroutine it has
    already awaited: Python raises [RuntimeError], nothing is sent a second
    time and no later response is ever returned. *)
Theorem make_request_429_reuses_coroutine (env : Env) (fuel : nat)
        (method url : string) (json : option value)
        (headers : list (string * string)) (w : World)
        (resp : Response) (rest : list Reply) (s : string) (q : Q) :
  remote w = Answer resp :: rest ->
  status_code resp = 429%Z ->
  header "X-Ratelimit-Reset-After" (resp_headers resp) = Some s ->
  float env s = Some q ->
  let sent := Discord.request_of env method url json headers in
  Discord.make_request env (S fuel) method url json headers w
  = (Raised (RuntimeError "cannot reuse already awaited coroutine"),
     {| db_forms := db_forms w; db_responses := db_responses w;
        remote := rest; trace := (trace w ++ [Sent sent; Slept q])%list |}).
Proof.
  intros Hr Hs Hh Hf sent.
  rewrite make_request_first_reply, Hr, Hs, Hh, Hf. cbn.
  unfold emit, advance. cbn. rewrite Hr. cbn.
  now rewrite <- app_assoc.
Qed.

(** The scripted server that answers 429 with a reset after 0.2 and then
    200: the call ends in [RuntimeError] after one request and one sleep,
    and the 200 is still waiting on the server. *)
Lemma make_request_429_reuses_coroutine_scripted :
  let w := Sample.world [] Sample.rate_limited_once in
  let body := Some (VDict [("recipient_id", VStr "42")]) in
  Discord.make_request Sample.env 1 "POST" "users/@me/channels" body [] w
  = (Raised (RuntimeError "cannot reuse already awaited coroutine"),
     {| db_forms := []; db_responses := [];
        remote := [Sample.answer 200 [] (VDict [("id", VStr "77")])];
        trace :=
          [Sent (Discord.request_of Sample.env "POST" "users/@me/channels"
                                    body []);
           Slept (2 # 10)] |}).
Proof.
  intros w body.
  exact (make_request_429_reuses_coroutine Sample.env 0 "POST"
           "users/@me/channels" body [] w _ _ "0.2" (2 # 10)
           eq_refl eq_refl eq_refl eq_refl).
Defined.

(* ------------------------------------------------------------------ *)
(** ** Dictionaries *)

Lemma get_set_same {A : Type} (k : string) (v : A) (d : list (string * A)) :
  Dict.get k (Dict.set k v d) = Some v.
Proof.
  induction d as [|[k' v'] d IH]; cbn [Dict.set Dict.get].
  - now rewrite String.eqb_refl.
  - destruct (String.eqb k k') eqn:E; cbn [Dict.get].
    + now rewrite String.eqb_refl.
    + now rewrite E.
Qed.

Lemma get_set_other {A : Type} (k k' : string) (v : A)
      (d : list (string * A)) :
  String.eqb k k' = false ->
  Dict.get k (Dict.set k' v d) = Dict.get k d.
Proof.
  intros Hk. induction d as [|[k0 v0] d IH]; cbn [Dict.set Dict.get].
  - now rewrite Hk.
  - destruct (String.eqb k' k0) eqn:E; cbn [Dict.get].
    + apply String.eqb_eq in E. subst k0. now rewrite Hk.
    + now rewrite IH.
Qed.

Lemma requests_app (t u : list event) :
  requests (t ++ u) = (requests t ++ requests u)%list.
Proof.
  induction t as [|[r|q|r|r] t IH]; cbn [requests app]; congruence.
Qed.

Lemma inserted_app (t u : list event) :
  inserted (t ++ u) = (inserted t ++ inserted u)%list.
Proof.
  induction t as [|[r|q|r|r] t IH]; cbn [inserted app]; congruence.
Qed.

(* ------------------------------------------------------------------ *)
(** ** The webhook payload *)

Lemma get_with_author (field : string) (request_user : User)
      (user : option dict) (embed : dict) :
  String.eqb field "author" = false ->
  Dict.get field (Discord.with_author request_user user embed)
  = Dict.get field embed.
Proof.
  intros Hf. unfold Discord.with_author.
  destruct (is_authenticated request_user); [|reflexivity].
  now apply get_set_other.
Qed.

Lemma discord_embed_field (field : string) (env : Env) (form : Form)
      (cfg : WebHook) (response : FormResponse) (user : User) :
  String.eqb field "author" = false ->
  embed_field field (Discord.hook_of env form cfg response user)
  = Dict.get field (Discord.embed_of env form response user).
Proof.
  intros Hf. unfold Discord.hook_of, embed_field.
  destruct (webhook_message cfg) as [m|];
    [destruct (truthy (VStr m))|];
    cbn [Dict.get Dict.set String.eqb Ascii.eqb Bool.eqb];
    now apply get_with_author.
Qed.

Lemma route_embed_field (field : string) (env : Env) (form : Form)
      (cfg : WebHook) (response : FormResponse) (user : User) :
  String.eqb field "author" = false ->
  embed_field field (SubmitForm.hook_of env form cfg response user)
  = Dict.get field
      [("title", VStr "New Form Response");
       ("description",
        VStr (Discord.mention_of user ++ " submitted a response to `"
              ++ form_name form ++ "`."));
       ("url", VStr (FRONTEND_URL env ++ "/path_to_view_form/"
                     ++ response_id response));
       ("timestamp", VStr (timestamp response));
       ("color", VInt 7506394)].
Proof.
  intros Hf. unfold SubmitForm.hook_of, embed_field.
  destruct (webhook_message cfg) as [m|];
    [destruct (truthy (VStr m))|];
    cbn [Dict.get Dict.set String.eqb Ascii.eqb Bool.eqb];
    now apply get_with_author.
Qed.

Lemma discord_webhook_requests (env : Env) (fuel : nat) (form : Form)
      (cfg : WebHook) (response : FormResponse) (user : User) (w : World) :
  webhook form = Some cfg ->
  requests (trace (snd (Discord.send_submission_webhook env (S fuel) form
                          response user w)))
  = (requests (trace w)
     ++ [Discord.request_of env "POST" (webhook_url cfg)
           (Some (VDict (Discord.hook_of env form cfg response user)))
           []])%list.
Proof.
  intros Hw. unfold Discord.send_submission_webhook. rewrite Hw.
  unfold bind. rewrite make_request_first_reply.
  destruct (remote w) as [|[resp|e] rest]; cbn [snd];
    try (cbn; now rewrite requests_app).
  destruct (status_code resp =? 429)%Z.
  - destruct (header _ _) as [s|]; [destruct (float env s)|];
      cbn; rewrite ?requests_app; cbn; try reflexivity.
    now rewrite app_nil_r.
  - destruct (is_error _); cbn; now rewrite requests_app.
Qed.

Lemma route_webhook_requests (env : Env) (form : Form)
      (cfg : WebHook) (response : FormResponse) (user : User) (w : World) :
  webhook form = Some cfg ->
  requests (trace (snd (SubmitForm.send_submission_webhook env form
                          response user w)))
  = (requests (trace w)
     ++ [{| req_method := "POST"; req_url := webhook_url cfg;
            req_params := [];
            req_json :=
              Some (VDict (SubmitForm.hook_of env form cfg response user));
            req_headers := [] |}])%list.
Proof.
  intros Hw. unfold SubmitForm.send_submission_webhook. rewrite Hw.
  unfold bind, http_send, raise_for_status.
  destruct (remote w) as [|[resp|e] rest]; cbn [snd];
    try (cbn; now rewrite requests_app).
  destruct (is_error _); cbn; now rewrite requests_app.
Qed.

(** C2.  Both implementations post one request whose payload carries an
    embed with the fixed title and colour and the response's timestamp.
    The static method of the route describes it as
    ["<mention> submitted a response to `<form name>`."], with ["User"] for
    a user without a mention.  The helper of [discord.py] looks its mention
    up under the key ["mention"], which the context it builds does not
    have, so its description always starts with ["None"]. *)
Theorem webhook_embed_description (env : Env) (fuel : nat) (form : Form)
        (cfg : WebHook) (response : FormResponse) (user : User) (w : World) :
  webhook form = Some cfg ->
  let said who :=
    Some (VStr (who ++ " submitted a response to `" ++ form_name form ++ "`."))
  in
  let by_helper := Discord.hook_of env form cfg response user in
  let by_route := SubmitForm.hook_of env form cfg response user in
  requests (trace (snd (Discord.send_submission_webhook env (S fuel) form
                          response user w)))
  = (requests (trace w)
     ++ [Discord.request_of env "POST" (webhook_url cfg)
           (Some (VDict by_helper)) []])%list
  /\ requests (trace (snd (SubmitForm.send_submission_webhook env form
                             response user w)))
     = (requests (trace w)
        ++ [{| req_method := "POST"; req_url := webhook_url cfg;
               req_params := []; req_json := Some (VDict by_route);
               req_headers := [] |}])%list
  /\ embed_field "description" by_route = said (Discord.mention_of user)
  /\ embed_field "description" by_helper = said "None"
  /\ embed_field "title" by_route = Some (VStr "New Form Response")
  /\ embed_field "title" by_helper = Some (VStr "New Form Response")
  /\ embed_field "color" by_route = Some (VInt 7506394)
  /\ embed_field "color" by_helper = Some (VInt 7506394)
  /\ embed_field "timestamp" by_route = Some (VStr (timestamp response))
  /\ embed_field "timestamp" by_helper = Some (VStr (timestamp response)).
Proof.
  intros Hw said by_helper by_route.
  split; [now apply discord_webhook_requests|].
  split; [now apply route_webhook_requests|].
  unfold by_helper, by_route.
  repeat split;
    (rewrite route_embed_field by reflexivity)
    || (rewrite discord_embed_field by reflexivity);
    reflexivity.
Qed.

(** Ada, whose mention is [<@42>], submits to the form "Survey": the route
    announces [<@42>], the helper announces [None]. *)
Lemma webhook_embed_description_ada :
  let form := Sample.form ["OPEN"; "WEBHOOK_ENABLED"] [] (Some Sample.hook) in
  embed_field "description"
    (SubmitForm.hook_of Sample.env form Sample.hook Sample.response Sample.ada)
  = Some (VStr "<@42> submitted a response to `Survey`.")
  /\ embed_field "description"
       (Discord.hook_of Sample.env form Sample.hook Sample.response Sample.ada)
     = Some (VStr "None submitted a response to `Survey`.").
Proof.
  intros form.
  pose proof (webhook_embed_description Sample.env 0 form Sample.hook
                Sample.response Sample.ada (Sample.world [] []) eq_refl) as H.
  cbv zeta in H.
  destruct H as (_ & _ & Hroute & Hhelper & _).
  split; [exact Hroute | exact Hhelper].
Defined.

(* ------------------------------------------------------------------ *)
(** ** The pipeline: lookup *)

Lemma find_closed (id : string) (forms : list Form) :
  (forall f, In f forms -> form_id f = id ->
             has_feature FormFeatures.OPEN f = false) ->
  find (fun f => String.eqb (form_id f) id
                 && has_feature FormFeatures.OPEN f)%bool forms = None.
Proof.
  induction forms as [|f forms IH]; intros H; [reflexivity|].
  cbn [find].
  destruct (String.eqb (form_id f) id) eqn:E; cbn [andb].
  - apply String.eqb_eq in E. rewrite (H f (or_introl eq_refl) E).
    apply IH. intros g Hg. apply H. now right.
  - apply IH. intros g Hg. apply H. now right.
Qed.

Lemma find_open (id : string) (forms : list Form) (form : Form) :
  find (fun f => String.eqb (form_id f) id
                 && has_feature FormFeatures.OPEN f)%bool forms = Some form ->
  In form forms /\ form_id form = id
  /\ has_feature FormFeatures.OPEN form = true.
Proof.
  intros H. apply find_some in H as [Hin Hb].
  apply andb_true_iff in Hb as [Hid Hopen].
  apply String.eqb_eq in Hid. auto.
Qed.

(** C8.  When no stored form with the id of the path carries [OPEN] (there
    is none with that id, or none of them is open), [post] answers 404
    whatever the body holds, and leaves the world as it found it: nothing
    was sent, graded or inserted, and no background task is attached. *)
Theorem post_closed_form_not_found (env : Env) (request : SubmitForm.Request)
        (w : World) :
  (forall f, In f (db_forms w) ->
             form_id f = SubmitForm.path_form_id request ->
             has_feature FormFeatures.OPEN f = false) ->
  SubmitForm.post env request w
  = (Returned {| SubmitForm.content := SubmitForm.Error "Open form not found";
                 SubmitForm.status := 404;
                 SubmitForm.background := None |},
     w).
Proof.
  intros H. unfold SubmitForm.post, bind, SubmitForm.find_one.
  now rewrite (find_closed _ _ H).
Qed.

(** A closed form with the requested id and an open form with another id:
    the submission is refused with 404 and the world is untouched. *)
Lemma post_closed_form_not_found_sample :
  let closed := Sample.form ["WEBHOOK_ENABLED"] [] (Some Sample.hook) in
  let other :=
    {| form_id := "other"; features := ["OPEN"]; questions := [];
       form_name := "Other"; webhook := None; discord_role := None;
       dm_message := None |} in
  let w := Sample.world [closed; other] [] in
  let request :=
    Sample.request [("response", VDict [("q1", VStr "yes")]);
                    ("captcha", VStr "tok")] Sample.ada in
  SubmitForm.post Sample.env request w
  = (Returned {| SubmitForm.content := SubmitForm.Error "Open form not found";
                 SubmitForm.status := 404;
                 SubmitForm.background := None |},
     w).
Proof.
  intros closed other w request.
  apply (post_closed_form_not_found Sample.env request w).
  intros f [<-|[<-|[]]] E; [reflexivity | discriminate E].
Defined.

(* ------------------------------------------------------------------ *)
(** ** The pipeline: what the stages leave alone *)

Lemma quiet_refl (w : World) : quiet w w.
Proof. repeat split. Qed.

Lemma quiet_trans (w1 w2 w3 : World) :
  quiet w1 w2 -> quiet w2 w3 -> quiet w1 w3.
Proof. unfold quiet. intuition congruence. Qed.

Lemma quiet_sent (r : HttpRequest) (w : World) :
  quiet w (advance (emit (Sent r) w)).
Proof.
  repeat split. cbn. rewrite inserted_app. cbn. apply app_nil_r.
Qed.

Lemma quiet_graded (r : FormResponse) (w : World) :
  quiet w (emit (Graded r) w).
Proof.
  repeat split. cbn. rewrite inserted_app. cbn. apply app_nil_r.
Qed.

#[local] Hint Resolve quiet_refl quiet_sent quiet_graded : pipeline.

Lemma subscript_pure (v : value) (k : string) (w : World) :
  snd (subscript v k w) = w.
Proof. destruct v; try reflexivity. cbn. now destruct (Dict.get k entries). Qed.

Lemma not_in_pure (k : string) (v : value) (w : World) :
  snd (not_in k v w) = w.
Proof. now destruct v. Qed.

Lemma setitem_pure (v : value) (k : string) (x : value) (w : World) :
  snd (setitem v k x w) = w.
Proof. now destruct v. Qed.

Lemma complete_fields_pure (qs : list Question) (response : dict)
      (missing_fields : list string) (w : World) :
  snd (SubmitForm.complete_fields qs response missing_fields w) = w.
Proof.
  revert response missing_fields.
  induction qs as [|q qs IH]; intros response missing_fields; [reflexivity|].
  cbn [SubmitForm.complete_fields]. unfold bind.
  pose proof (subscript_pure (VDict response) "response" w) as H1.
  destruct (subscript (VDict response) "response" w) as [[answers|e|] w1];
    cbn [snd] in H1; subst w1; try reflexivity.
  pose proof (not_in_pure (question_id q) answers w) as H2.
  destruct (not_in (question_id q) answers w) as [[absent|e|] w2];
    cbn [snd] in H2; subst w2; try reflexivity.
  destruct absent; [|apply IH].
  destruct (negb (required q)); [|apply IH].
  pose proof (setitem_pure answers (question_id q) VNone w) as H3.
  destruct (setitem answers (question_id q) VNone w) as [[answers'|e|] w3];
    cbn [snd] in H3; subst w3; try reflexivity.
  apply IH.
Qed.

Lemma check_pure (env : Env) (form : Form) (response : dict) (w : World) :
  snd (SubmitForm.check env form response w) = w.
Proof.
  unfold SubmitForm.check, bind.
  pose proof (complete_fields_pure (questions form) response [] w) as H.
  destruct (SubmitForm.complete_fields _ _ _ w) as [[[resp miss]|e|] w1];
    cbn [snd] in H; subst w1; try reflexivity.
  cbn [fst snd]. destruct miss; [|reflexivity].
  now destruct (Models.FormResponse_init env resp).
Qed.

Lemma antispam_stage_quiet (env : Env) (request : SubmitForm.Request)
      (form : Form) (data response : dict) (w : World) :
  quiet w (snd (SubmitForm.antispam_stage env request form data response w)).
Proof.
  unfold SubmitForm.antispam_stage.
  destruct (negb _); [|apply quiet_refl].
  unfold bind.
  destruct (header _ _) as [agent|]; cbn; [|apply quiet_refl].
  unfold http_send.
  destruct (remote w) as [|[r|e] rest]; cbn [snd]; auto with pipeline.
  unfold raise_for_status.
  destruct (is_error _); cbn [raise ret snd]; auto with pipeline.
  pose proof (subscript_pure (resp_json r) "success"
                (advance (emit (Sent
                   {| req_method := "POST";
                      req_url := SubmitForm.HCAPTCHA_VERIFY_URL;
                      req_params :=
                        [("secret", VStr (HCAPTCHA_API_SECRET env));
                         ("response",
                          match Dict.get "captcha" data with
                          | Some c => c | None => VNone end)];
                      req_json := None;
                      req_headers := SubmitForm.HCAPTCHA_HEADERS |}) w))) as H.
  destruct (subscript _ _ _) as [[v|e|] w1]; cbn [snd] in *; subst w1;
    cbn [ret snd]; auto with pipeline.
Qed.

Lemma enrich_quiet (env : Env) (request : SubmitForm.Request) (form : Form)
      (w : World) :
  match SubmitForm.enrich env request form w with
  | (Returned (SubmitForm.Return r), w') => refusal r /\ quiet w w'
  | (_, w') => quiet w w'
  end.
Proof.
  unfold SubmitForm.enrich, bind.
  pose proof (antispam_stage_quiet env request form
                (Dict.set "timestamp" VNone (SubmitForm.json_body request))
                (Dict.set "form_id" (VStr (form_id form))
                   (Dict.set "id" (VStr (uuid4 env))
                      (Dict.set "timestamp" VNone
                         (SubmitForm.json_body request)))) w) as H.
  destruct (SubmitForm.antispam_stage _ _ _ _ _ w) as [[response|e|] w1];
    cbn [snd] in H; try exact H.
  cbn [ret]. unfold SubmitForm.login_stage.
  repeat match goal with
         | |- context [if ?b then _ else _] => destruct b
         end;
         try exact H; (split; [split; [discriminate|reflexivity] | exact H]).
Qed.

Lemma check_quiet (env : Env) (form : Form) (response : dict) (w : World) :
  match SubmitForm.check env form response w with
  | (Returned (SubmitForm.Return r), w') => refusal r /\ w' = w
  | (_, w') => w' = w
  end.
Proof.
  pose proof (check_pure env form response w) as H.
  destruct (SubmitForm.check env form response w) as [[[obj|r]|e|] w1] eqn:E;
    cbn [snd] in H; subst w1; try reflexivity.
  split; [|reflexivity].
  unfold SubmitForm.check, bind in E.
  destruct (SubmitForm.complete_fields _ _ _ w) as [[[resp miss]|e|] w1];
    try discriminate.
  cbn [fst snd] in E. destruct miss.
  - destruct (Models.FormResponse_init env resp); inversion E; subst.
    split; [discriminate|reflexivity].
  - inversion E; subst. split; [discriminate|reflexivity].
Qed.

Lemma grade_quiet (env : Env) (form : Form) (obj : FormResponse) (w : World) :
  match SubmitForm.grade env form obj w with
  | (Returned (SubmitForm.Return r), w') => refusal r /\ quiet w w'
  | (Returned (SubmitForm.Continue obj'), w') => obj' = obj /\ quiet w w'
  | (_, w') => quiet w w'
  end.
Proof.
  unfold SubmitForm.grade, SubmitForm.run_unittests, bind, log.
  destruct (SubmitForm.has_unittests form); cbn; auto with pipeline.
  destruct (execute_unittest env obj form) as [e|results]; cbn;
    auto with pipeline.
  destruct (negb _); cbn; auto with pipeline.
  split; auto with pipeline. split; [|reflexivity].
  cbn. destruct (existsb _ _); discriminate.
Qed.

(** What [persist] does: the insert, and then the answer or the error of
    rendering it. *)
Lemma persist_eq (request : SubmitForm.Request) (form : Form)
      (obj : FormResponse) (w : World) :
  SubmitForm.persist request form obj w
  = (if SubmitForm.renders form obj
     then Returned
            (SubmitForm.Continue
               {| SubmitForm.content := SubmitForm.Submission form obj;
                  SubmitForm.status := 200;
                  SubmitForm.background :=
                    if has_feature FormFeatures.WEBHOOK_ENABLED form
                    then Some {| SubmitForm.task_form := form;
                                 SubmitForm.task_response := obj;
                                 SubmitForm.task_user :=
                                   SubmitForm.request_user request |}
                    else None |})
     else Raised
            (ValueError "Out of range float values are not JSON compliant"),
     store obj (emit (Inserted obj) w)).
Proof.
  unfold SubmitForm.persist, bind, SubmitForm.insert_one.
  now destruct (SubmitForm.renders form obj).
Qed.



(* ------------------------------------------------------------------ *)
(** ** The pipeline: grading and persistence *)

(** [post] from the point where the response has been validated. *)
Lemma post_after_check (env : Env) (request : SubmitForm.Request) (form : Form)
      (response : dict) (response_obj : FormResponse) (w w1 w2 : World) :
  find (fun f => String.eqb (form_id f) (SubmitForm.path_form_id request)
                 && has_feature FormFeatures.OPEN f)%bool (db_forms w)
  = Some form ->
  SubmitForm.enrich env request form w
  = (Returned (SubmitForm.Continue response), w1) ->
  SubmitForm.check env form response w1
  = (Returned (SubmitForm.Continue response_obj), w2) ->
  SubmitForm.post env request w
  = match SubmitForm.grade env form response_obj w2 with
    | (Returned (SubmitForm.Continue obj), w3) =>
        (if SubmitForm.renders form obj
         then Returned
                {| SubmitForm.content := SubmitForm.Submission form obj;
                   SubmitForm.status := 200;
                   SubmitForm.background :=
                     if has_feature FormFeatures.WEBHOOK_ENABLED form
                     then Some {| SubmitForm.task_form := form;
                                  SubmitForm.task_response := obj;
                                  SubmitForm.task_user :=
                                    SubmitForm.request_user request |}
                     else None |}
         else Raised
                (ValueError
                   "Out of range float values are not JSON compliant"),
         store obj (emit (Inserted obj) w3))
    | (Returned (SubmitForm.Return r), w3) => (Returned r, w3)
    | (Raised e, w3) => (Raised e, w3)
    | (Diverged, w3) => (Diverged, w3)
    end.
Proof.
  intros Hf He Hc.
  unfold SubmitForm.post, SubmitForm.and_then, bind, SubmitForm.find_one.
  rewrite Hf, He, Hc.
  destruct (SubmitForm.grade env form response_obj w2) as [[[obj|r]|e|] w3];
    try reflexivity.
  rewrite persist_eq. now destruct (SubmitForm.renders form obj).
Qed.

Lemma forallb_passed_false (results : list TestResult) :
  forallb passed results = false <->
  exists test, In test results /\ passed test = false.
Proof.
  split.
  - intros H. induction results as [|t results IH]; [discriminate|].
    cbn in H. destruct (passed t) eqn:E.
    + destruct (IH H) as (x & Hx & Hp). exists x. split; [now right | exact Hp].
    + exists t. split; [now left | exact E].
  - intros (t & Hin & Hp).
    destruct (forallb passed results) eqn:E; [|reflexivity].
    rewrite forallb_forall in E. rewrite (E t Hin) in Hp. discriminate.
Qed.

(** C4.  A submission to a form with a graded question has reached grading
    and the grader has returned [results].  If one of them has not passed,
    [post] answers before [insert_one]: 500 when some result carries return
    code 99 and 403 otherwise, the error is ["failed_tests"] and
    [test_results] holds the results that did not pass, in order, and no
    other.  If all have passed, the
    response is inserted and [post] answers 200, unless the answer cannot
    be rendered: then the insert is followed by the error of the
    rendering. *)
Theorem grading_gate (env : Env) (request : SubmitForm.Request) (form : Form)
        (response : dict) (response_obj : FormResponse) (w w1 : World)
        (results : list TestResult) :
  find (fun f => String.eqb (form_id f) (SubmitForm.path_form_id request)
                 && has_feature FormFeatures.OPEN f)%bool (db_forms w)
  = Some form ->
  SubmitForm.enrich env request form w
  = (Returned (SubmitForm.Continue response), w1) ->
  SubmitForm.check env form response w1
  = (Returned (SubmitForm.Continue response_obj), w1) ->
  SubmitForm.has_unittests form = true ->
  execute_unittest env response_obj form = inr results ->
  let failing := filter (fun test => negb (passed test)) results in
  let graded := emit (Graded response_obj) w1 in
  ((exists test, In test results /\ passed test = false) ->
   SubmitForm.post env request w
   = (Returned
        {| SubmitForm.content := SubmitForm.ErrorTests "failed_tests" failing;
           SubmitForm.status :=
             if existsb (fun test => (return_code test =? 99)%Z) results
             then 500 else 403;
           SubmitForm.background := None |},
      graded)
   /\ inserted (trace graded) = inserted (trace w)
   /\ db_responses graded = db_responses w
   /\ (forall test,
          In test failing <-> In test results /\ passed test = false))
  /\ ((forall test, In test results -> passed test = true) ->
      SubmitForm.post env request w
      = (if SubmitForm.renders form response_obj
         then Returned
                {| SubmitForm.content :=
                     SubmitForm.Submission form response_obj;
                   SubmitForm.status := 200;
                   SubmitForm.background :=
                     if has_feature FormFeatures.WEBHOOK_ENABLED form
                     then Some {| SubmitForm.task_form := form;
                                  SubmitForm.task_response := response_obj;
                                  SubmitForm.task_user :=
                                    SubmitForm.request_user request |}
                     else None |}
         else Raised
                (ValueError
                   "Out of range float values are not JSON compliant"),
         store response_obj (emit (Inserted response_obj) graded))).
Proof.
  intros Hf He Hc Hu Hx failing graded.
  rewrite (post_after_check _ _ _ _ _ _ _ _ Hf He Hc).
  unfold SubmitForm.grade, SubmitForm.run_unittests, bind, log.
  rewrite Hu, Hx. cbn [ret].
  split.
  - intros Hfail. apply forallb_passed_false in Hfail. rewrite Hfail.
    cbn [negb ret]. split; [reflexivity|].
    pose proof (enrich_quiet env request form w) as Hq. rewrite He in Hq.
    destruct Hq as (Hd & Hi & _).
    split; [|split].
    + unfold graded. cbn. rewrite inserted_app. cbn. now rewrite app_nil_r.
    + exact Hd.
    + intros test. unfold failing. rewrite filter_In, negb_true_iff.
      reflexivity.
  - intros Hall. apply forallb_forall in Hall. rewrite Hall. reflexivity.
Qed.

(** Two graded questions of which the second fails: with return code 99
    the answer is 500, with return code 1 it is 403, and in both only the
    failing result is reported. *)
Lemma grading_gate_two_questions :
  let request :=
    Sample.request [("response", VDict [("q1", VStr "a"); ("q2", VStr "b")])]
                   Sample.anonymous in
  let w := Sample.world [Sample.graded_form] [] in
  let ok := Sample.test "q1" true 0 in
  let broken := Sample.test "q2" false 99 in
  let wrong := Sample.test "q2" false 1 in
  (fst (SubmitForm.post (Sample.grader [ok; broken]) request w)
   = Returned {| SubmitForm.content :=
                   SubmitForm.ErrorTests "failed_tests" [broken];
                 SubmitForm.status := 500;
                 SubmitForm.background := None |})
  /\ (fst (SubmitForm.post (Sample.grader [ok; wrong]) request w)
      = Returned {| SubmitForm.content :=
                      SubmitForm.ErrorTests "failed_tests" [wrong];
                    SubmitForm.status := 403;
                    SubmitForm.background := None |}).
Proof.
  intros request w ok broken wrong.
  split.
  - edestruct (grading_gate (Sample.grader [ok; broken]) request
                 Sample.graded_form) with (w := w) as [Hfail _];
      [reflexivity | reflexivity | reflexivity | reflexivity | reflexivity |].
    destruct Hfail as [Hpost _].
    + exists broken. split; [right; left; reflexivity | reflexivity].
    + rewrite Hpost. reflexivity.
  - edestruct (grading_gate (Sample.grader [ok; wrong]) request
                 Sample.graded_form) with (w := w) as [Hfail _];
      [reflexivity | reflexivity | reflexivity | reflexivity | reflexivity |].
    destruct Hfail as [Hpost _].
    + exists wrong. split; [right; left; reflexivity | reflexivity].
    + rewrite Hpost. reflexivity.
Defined.

(* ------------------------------------------------------------------ *)
(** ** The pipeline: completeness of the answers *)

Lemma set_get {A : Type} (k : string) (v : A) (d : list (string * A)) :
  Dict.get k d = Some v -> Dict.set k v d = d.
Proof.
  induction d as [|[k' v'] d IH]; cbn [Dict.get Dict.set]; [discriminate|].
  destruct (String.eqb k k') eqn:E.
  - apply String.eqb_eq in E. subst k'. now intros [= ->].
  - intros H. now rewrite IH.
Qed.

Lemma set_set {A : Type} (k : string) (v v' : A) (d : list (string * A)) :
  Dict.set k v (Dict.set k v' d) = Dict.set k v d.
Proof.
  induction d as [|[k0 v0] d IH]; cbn [Dict.set].
  - now rewrite String.eqb_refl.
  - destruct (String.eqb k k0) eqn:E; cbn [Dict.set].
    + now rewrite String.eqb_refl.
    + now rewrite E, IH.
Qed.

Lemma mem_set_same {A : Type} (k : string) (v : A) (d : list (string * A)) :
  Dict.mem k (Dict.set k v d) = true.
Proof. unfold Dict.mem. now rewrite get_set_same. Qed.

Lemma mem_set_other {A : Type} (k k' : string) (v : A)
      (d : list (string * A)) :
  String.eqb k k' = false ->
  Dict.mem k (Dict.set k' v d) = Dict.mem k d.
Proof. intros H. unfold Dict.mem. now rewrite get_set_other. Qed.

(** On a response whose answers are a dict, the loop is [completed]. *)
Lemma complete_fields_completed (qs : list Question) (response answers : dict)
      (missing_fields : list string) (w : World) :
  Dict.get "response" response = Some (VDict answers) ->
  SubmitForm.complete_fields qs response missing_fields w
  = (Returned
       (Dict.set "response" (VDict (fst (completed qs answers missing_fields)))
                 response,
        snd (completed qs answers missing_fields)),
     w).
Proof.
  revert response answers missing_fields.
  induction qs as [|q qs IH]; intros response answers missing_fields H.
  - cbn. now rewrite set_get.
  - cbn [SubmitForm.complete_fields completed].
    unfold bind, subscript. rewrite H. cbn [ret not_in].
    destruct (negb (Dict.mem (question_id q) answers)); [|now apply IH].
    destruct (negb (required q)); [|now apply IH].
    cbn [setitem ret].
    rewrite (IH _ (Dict.set (question_id q) VNone answers));
      [|apply get_set_same].
    now rewrite set_set.
Qed.

(** The loop keeps what was submitted. *)
Lemma completed_keeps (qs : list Question) (answers : dict)
      (missing_fields : list string) (k : string) :
  Dict.mem k answers = true ->
  Dict.get k (fst (completed qs answers missing_fields)) = Dict.get k answers.
Proof.
  revert answers missing_fields.
  induction qs as [|q qs IH]; intros answers missing_fields H; [reflexivity|].
  cbn [completed].
  destruct (Dict.mem (question_id q) answers) eqn:Em; cbn [negb];
    [now apply IH|].
  destruct (required q); cbn [negb]; [now apply IH|].
  assert (Hk : String.eqb k (question_id q) = false).
  { destruct (String.eqb_spec k (question_id q)); [|reflexivity].
    subst k. congruence. }
  rewrite IH by now rewrite mem_set_other.
  now apply get_set_other.
Qed.

(** The loop gives every absent optional question the answer [None]. *)
Lemma completed_fills (qs : list Question) (answers : dict)
      (missing_fields : list string) (q : Question) :
  In q qs -> required q = false ->
  Dict.mem (question_id q) answers = false ->
  Dict.get (question_id q) (fst (completed qs answers missing_fields))
  = Some VNone.
Proof.
  revert answers missing_fields.
  induction qs as [|q0 qs IH]; intros answers missing_fields Hin Hr Hm;
    [contradiction|].
  cbn [completed].
  destruct Hin as [->|Hin].
  - rewrite Hm, Hr. cbn [negb].
    rewrite completed_keeps by apply mem_set_same.
    apply get_set_same.
  - destruct (Dict.mem (question_id q0) answers) eqn:Em; cbn [negb];
      [now apply IH|].
    destruct (required q0); cbn [negb]; [now apply IH|].
    destruct (String.eqb_spec (question_id q) (question_id q0)) as [E|E].
    + rewrite E. rewrite completed_keeps by apply mem_set_same.
      apply get_set_same.
    + apply IH; try assumption.
      rewrite mem_set_other; [assumption|].
      now apply String.eqb_neq.
Qed.

Lemma completed_missing_app (qs : list Question) (answers : dict)
      (missing_fields : list string) :
  snd (completed qs answers missing_fields)
  = (missing_fields ++ snd (completed qs answers []))%list.
Proof.
  revert answers missing_fields.
  induction qs as [|q qs IH]; intros answers missing_fields; cbn [completed].
  - cbn. now rewrite app_nil_r.
  - destruct (negb (Dict.mem (question_id q) answers)); [|apply IH].
    destruct (negb (required q)); [apply IH|].
    rewrite IH. rewrite (IH answers ([] ++ [question_id q])%list).
    now rewrite <- app_assoc.
Qed.

(** With pairwise distinct ids the collected list is the one the
    specification describes. *)
Lemma completed_missing (qs : list Question) (submitted answers : dict) :
  distinct (map question_id qs) = true ->
  (forall q, In q qs ->
             Dict.mem (question_id q) answers
             = Dict.mem (question_id q) submitted) ->
  snd (completed qs answers []) = missing_required qs submitted.
Proof.
  revert answers.
  induction qs as [|q qs IH]; intros answers Hd Hsame; [reflexivity|].
  cbn [map distinct] in Hd. apply andb_true_iff in Hd as [Hq Hd].
  apply negb_true_iff in Hq.
  assert (Hrest : forall r, In r qs ->
                    String.eqb (question_id r) (question_id q) = false).
  { intros r Hr. destruct (String.eqb_spec (question_id r) (question_id q))
      as [E|]; [|reflexivity].
    rewrite <- Hq. symmetry. apply existsb_exists.
    exists (question_id r). split; [now apply in_map|].
    rewrite E. apply String.eqb_refl. }
  unfold missing_required. cbn [completed filter].
  rewrite (Hsame q (or_introl eq_refl)).
  destruct (Dict.mem (question_id q) submitted) eqn:Em; cbn [negb].
  - rewrite andb_false_r. apply IH; [exact Hd|].
    intros r Hr. apply Hsame. now right.
  - rewrite andb_true_r. destruct (required q); cbn [negb].
    + rewrite completed_missing_app. cbn [map app]. f_equal.
      apply IH; [exact Hd|]. intros r Hr. apply Hsame. now right.
    + apply IH; [exact Hd|]. intros r Hr.
      rewrite mem_set_other by now apply Hrest.
      apply Hsame. now right.
Qed.

(** The stages before the loop leave the submitted answers alone. *)
Lemma antispam_stage_keeps (key : string) (env : Env)
      (request : SubmitForm.Request) (form : Form) (data response out : dict)
      (w w1 : World) :
  String.eqb key "antispam" = false ->
  SubmitForm.antispam_stage env request form data response w
  = (Returned out, w1) ->
  Dict.get key out = Dict.get key response.
Proof.
  intros Hk. unfold SubmitForm.antispam_stage.
  destruct (negb _); [|now intros [= <- _]].
  unfold bind.
  destruct (header _ _) as [agent|]; cbn [ret raise]; [|discriminate].
  destruct (http_send _ w) as [[r|e|] w0]; try discriminate.
  destruct (raise_for_status r w0) as [[[]|e|] w2]; try discriminate.
  destruct (subscript _ _ w2) as [[v|e|] w3]; try discriminate.
  cbn [ret]. intros [= <- _]. now apply get_set_other.
Qed.

Lemma login_stage_keeps (key : string) (request : SubmitForm.Request)
      (form : Form) (response out : dict) :
  String.eqb key "user" = false ->
  SubmitForm.login_stage request form response = SubmitForm.Continue out ->
  Dict.get key out = Dict.get key response.
Proof.
  intros Hk. unfold SubmitForm.login_stage.
  destruct (has_feature FormFeatures.REQUIRES_LOGIN form);
    [|now intros [= <-]].
  destruct (is_authenticated _); [|discriminate].
  destruct (_ && _)%bool; [discriminate|].
  intros [= <-]. now apply get_set_other.
Qed.

Lemma enrich_keeps_answers (env : Env) (request : SubmitForm.Request)
      (form : Form) (response : dict) (w w1 : World) :
  SubmitForm.enrich env request form w
  = (Returned (SubmitForm.Continue response), w1) ->
  Dict.get "response" response
  = Dict.get "response" (SubmitForm.json_body request).
Proof.
  unfold SubmitForm.enrich, bind. intros H.
  destruct (SubmitForm.antispam_stage _ _ _ _ _ w) as [[out|e|] w0] eqn:Ea;
    try discriminate.
  cbn [ret] in H. injection H as Hl _.
  rewrite (login_stage_keeps "response" _ _ _ _ eq_refl Hl).
  rewrite (antispam_stage_keeps "response" _ _ _ _ _ _ _ _ eq_refl Ea).
  now rewrite !get_set_other by reflexivity.
Qed.

(** C3, as the code has it.  A submission has reached the completeness
    check of a form whose question ids are pairwise distinct, and
    [answers] is what was submitted.  The loop then returns the answers
    with [None] for every absent question that is not required, keeps
    what was submitted, and collects the ids of the absent required
    questions in the order of the form; as soon as one is collected,
    [post] answers 400 with the error ["missing_fields"] and exactly that
    list. *)
Theorem missing_fields_reported (env : Env) (request : SubmitForm.Request)
        (form : Form) (response answers : dict) (w w1 : World) :
  find (fun f => String.eqb (form_id f) (SubmitForm.path_form_id request)
                 && has_feature FormFeatures.OPEN f)%bool (db_forms w)
  = Some form ->
  SubmitForm.enrich env request form w
  = (Returned (SubmitForm.Continue response), w1) ->
  Dict.get "response" (SubmitForm.json_body request) = Some (VDict answers) ->
  distinct (map question_id (questions form)) = true ->
  let fields := missing_required (questions form) answers in
  let answers' := fst (completed (questions form) answers []) in
  SubmitForm.complete_fields (questions form) response [] w1
  = (Returned (Dict.set "response" (VDict answers') response, fields), w1)
  /\ (forall q, In q (questions form) ->
                Dict.mem (question_id q) answers = false ->
                (required q = false ->
                 Dict.get (question_id q) answers' = Some VNone)
                /\ (required q = true -> In (question_id q) fields))
  /\ (forall k, Dict.mem k answers = true ->
                Dict.get k answers' = Dict.get k answers)
  /\ (fields <> [] ->
      SubmitForm.post env request w
      = (Returned {| SubmitForm.content :=
                      SubmitForm.ErrorFields "missing_fields" fields;
                     SubmitForm.status := 400;
                     SubmitForm.background := None |},
         w1)).
Proof.
  intros Hf He Ha Hd fields answers'.
  assert (Hr : Dict.get "response" response = Some (VDict answers)).
  { now rewrite (enrich_keeps_answers _ _ _ _ _ _ He). }
  assert (Hc : SubmitForm.complete_fields (questions form) response [] w1
               = (Returned (Dict.set "response" (VDict answers') response,
                            fields), w1)).
  { rewrite (complete_fields_completed _ _ _ _ _ Hr).
    unfold fields. now rewrite (completed_missing _ answers answers Hd). }
  split; [exact Hc|]. split; [|split].
  - intros q Hq Hm. split.
    + intros Hreq. now apply completed_fills.
    + intros Hreq. unfold fields, missing_required.
      apply in_map, filter_In. split; [exact Hq|].
      now rewrite Hreq, Hm.
  - intros k Hk. now apply completed_keeps.
  - intros Hne.
    unfold SubmitForm.post, SubmitForm.and_then, bind, SubmitForm.find_one.
    rewrite Hf, He. unfold SubmitForm.check, bind. rewrite Hc.
    cbn [fst snd]. destruct fields; [congruence | reflexivity].
Qed.

(** A form with the optional question [nick] and the required questions
    [name] and [mail]; only [nick] and [mail] stay unanswered. *)
Lemma missing_fields_reported_sample :
  let form :=
    Sample.form ["OPEN"; "DISABLE_ANTISPAM"]
                [Sample.question "nick" false [];
                 Sample.question "name" true [];
                 Sample.question "mail" true [];
                 Sample.question "age" true []] None in
  let request :=
    Sample.request [("response", VDict [("name", VStr "Ada")])]
                   Sample.anonymous in
  let w := Sample.world [form] [] in
  SubmitForm.post Sample.env request w
  = (Returned {| SubmitForm.content :=
                  SubmitForm.ErrorFields "missing_fields" ["mail"; "age"];
                 SubmitForm.status := 400;
                 SubmitForm.background := None |},
     w).
Proof.
  intros form request w.
  edestruct (missing_fields_reported Sample.env request form) with (w := w)
    as (_ & _ & _ & Hpost);
    [reflexivity | reflexivity | reflexivity | reflexivity |].
  apply Hpost. discriminate.
Defined.

(** C3 as stated fails in two ways.  A required question that shares its id
    with an earlier optional one is absent from the submitted answers, yet
    the loop finds the [None] it has just filled in, collects nothing, and
    the response is stored with [None] for it.  And a submission that the
    login stage refuses never reaches the check, whatever it lacks. *)
Lemma missing_fields_not_always_reported :
  let twice :=
    Sample.form ["OPEN"; "DISABLE_ANTISPAM"]
                [Sample.question "x" false [];
                 Sample.question "x" true []] None in
  let login :=
    Sample.form ["OPEN"; "DISABLE_ANTISPAM"; "REQUIRES_LOGIN"]
                [Sample.question "q1" true []] None in
  let request :=
    Sample.request [("response", VDict [])] Sample.anonymous in
  (missing_required (questions twice) [] = ["x"]
   /\ exists stored,
       SubmitForm.post Sample.env request (Sample.world [twice] [])
       = (Returned {| SubmitForm.content := SubmitForm.Submission twice stored;
                      SubmitForm.status := 200;
                      SubmitForm.background := None |},
          {| db_forms := [twice]; db_responses := [stored]; remote := [];
             trace := [Inserted stored] |})
       /\ response_answers stored = [("x", VNone)])
  /\ (missing_required (questions login) [] = ["q1"]
      /\ SubmitForm.post Sample.env request (Sample.world [login] [])
         = (Returned {| SubmitForm.content :=
                          SubmitForm.Error "missing_discord_data";
                        SubmitForm.status := 400;
                        SubmitForm.background := None |},
            Sample.world [login] [])).
Proof.
  intros twice login request. split; split; try reflexivity.
  eexists. split; reflexivity.
Qed.

(* ------------------------------------------------------------------ *)
(** ** The pipeline: what [post] can answer *)

(** [post] either refuses, or answers 200 with the stored response and a
    background task that depends on the flag [WEBHOOK_ENABLED] alone. *)
Lemma post_outcome (env : Env) (request : SubmitForm.Request) (w w' : World)
      (r : SubmitForm.JSONResponse) :
  SubmitForm.post env request w = (Returned r, w') ->
  refusal r
  \/ exists form response_obj,
      In form (db_forms w)
      /\ has_feature FormFeatures.OPEN form = true
      /\ r = {| SubmitForm.content := SubmitForm.Submission form response_obj;
                SubmitForm.status := 200;
                SubmitForm.background :=
                  if has_feature FormFeatures.WEBHOOK_ENABLED form
                  then Some {| SubmitForm.task_form := form;
                               SubmitForm.task_response := response_obj;
                               SubmitForm.task_user :=
                                 SubmitForm.request_user request |}
                  else None |}.
Proof.
  intros E.
  unfold SubmitForm.post, SubmitForm.and_then, bind, SubmitForm.find_one in E.
  destruct (find _ (db_forms w)) as [form|] eqn:Hf;
    [| inversion E; subst; left; split; [discriminate|reflexivity]].
  apply find_open in Hf as (Hin & _ & Hopen).
  pose proof (enrich_quiet env request form w) as H1.
  destruct (SubmitForm.enrich env request form w) as [[[response|r1]|e|] w1];
    cbn [ret] in E; try discriminate;
    [| inversion E; subst; left; apply H1].
  pose proof (check_quiet env form response w1) as H2.
  destruct (SubmitForm.check env form response w1) as [[[obj|r2]|e|] w2];
    cbn [ret] in E; try discriminate;
    [| inversion E; subst; left; apply H2].
  pose proof (grade_quiet env form obj w2) as H3.
  destruct (SubmitForm.grade env form obj w2) as [[[obj'|r3]|e|] w3];
    cbn [ret] in E; try discriminate;
    [| inversion E; subst; left; apply H3].
  rewrite persist_eq in E.
  destruct (SubmitForm.renders form obj'); cbn [ret] in E; [|discriminate].
  inversion E; subst. right. exists form, obj'. auto.
Qed.

(** The guard of the route's [send_submission_webhook] is taken exactly
    when the form has no webhook: only then does the call end in the
    [ValueError] with the world untouched. *)
Lemma webhook_guard (env : Env) (form : Form) (response : FormResponse)
      (user : User) (w : World) :
  SubmitForm.send_submission_webhook env form response user w
  = (Raised (ValueError "Got empty webhook."), w)
  <-> webhook form = None.
Proof.
  unfold SubmitForm.send_submission_webhook. split.
  - destruct (webhook form) as [cfg|]; [|reflexivity].
    intros H. exfalso.
    apply (f_equal (fun p => List.length (trace (snd p)))) in H.
    revert H. unfold bind, http_send, raise_for_status.
    destruct (remote w) as [|[resp|e] rest]; cbn [snd];
      [| destruct (is_error _) |];
      cbn; rewrite length_app; cbn; lia.
  - now intros ->.
Qed.

(** C7, as the code has it.  [post] attaches the webhook task exactly when
    it answers 200 for a form with the flag [WEBHOOK_ENABLED]; it never
    looks at the form's webhook.  The task then runs into the
    missing-configuration guard exactly when that form has no webhook, so
    the guard is out of reach only for forms that carry one. *)
Theorem webhook_scheduled_by_flag_alone (env : Env)
        (request : SubmitForm.Request) (w w' : World)
        (r : SubmitForm.JSONResponse) :
  SubmitForm.post env request w = (Returned r, w') ->
  (SubmitForm.status r <> 200%Z -> SubmitForm.background r = None)
  /\ (SubmitForm.status r = 200%Z ->
      exists form response_obj,
        In form (db_forms w)
        /\ SubmitForm.content r = SubmitForm.Submission form response_obj
        /\ SubmitForm.background r
           = if has_feature FormFeatures.WEBHOOK_ENABLED form
             then Some {| SubmitForm.task_form := form;
                          SubmitForm.task_response := response_obj;
                          SubmitForm.task_user :=
                            SubmitForm.request_user request |}
             else None)
  /\ (forall task later,
         SubmitForm.background r = Some task ->
         has_feature FormFeatures.WEBHOOK_ENABLED (SubmitForm.task_form task)
         = true
         /\ (SubmitForm.run_background env task later
             = (Raised (ValueError "Got empty webhook."), later)
             <-> webhook (SubmitForm.task_form task) = None)).
Proof.
  intros E. destruct (post_outcome _ _ _ _ _ E)
    as [[Hs Hb] | (form & obj & Hin & _ & ->)].
  - split; [auto|]. split; [contradiction|].
    intros task later Ht. congruence.
  - cbn. split; [congruence|]. split.
    + intros _. exists form, obj. auto.
    + intros task later Ht.
      destruct (has_feature FormFeatures.WEBHOOK_ENABLED form) eqn:Hw;
        [|discriminate].
      injection Ht as <-. cbn. split; [exact Hw|].
      unfold SubmitForm.run_background. cbn. apply webhook_guard.
Qed.

(** A form with a webhook and the flag: the task is attached and the guard
    is not taken. *)
Lemma webhook_scheduled_by_flag_alone_sample :
  let form :=
    Sample.form ["OPEN"; "DISABLE_ANTISPAM"; "WEBHOOK_ENABLED"] []
                (Some Sample.hook) in
  let request := Sample.request [("response", VDict [])] Sample.ada in
  let w := Sample.world [form] [] in
  exists r w' task,
    SubmitForm.post Sample.env request w = (Returned r, w')
    /\ SubmitForm.background r = Some task
    /\ SubmitForm.task_form task = form
    /\ (SubmitForm.run_background Sample.env task w'
        = (Raised (ValueError "Got empty webhook."), w')
        <-> webhook form = None).
Proof.
  intros form request w.
  edestruct (webhook_scheduled_by_flag_alone Sample.env request w)
    as (_ & _ & Htask); [reflexivity|].
  do 3 eexists. split; [reflexivity|]. split; [reflexivity|].
  split; [reflexivity|]. apply Htask. reflexivity.
Defined.

(** C7 as stated fails: a form with the flag and no webhook is answered
    200 with the task attached, and the task raises the [ValueError] of the
    guard. *)
Lemma webhook_guard_reached :
  let form :=
    Sample.form ["OPEN"; "DISABLE_ANTISPAM"; "WEBHOOK_ENABLED"] [] None in
  let request := Sample.request [("response", VDict [])] Sample.ada in
  let w := Sample.world [form] [] in
  exists stored w',
    let task := {| SubmitForm.task_form := form;
                   SubmitForm.task_response := stored;
                   SubmitForm.task_user := Sample.ada |} in
    SubmitForm.post Sample.env request w
    = (Returned {| SubmitForm.content := SubmitForm.Submission form stored;
                   SubmitForm.status := 200;
                   SubmitForm.background := Some task |},
       w')
    /\ has_feature FormFeatures.WEBHOOK_ENABLED form = true
    /\ webhook form = None
    /\ SubmitForm.run_background Sample.env task w'
       = (Raised (ValueError "Got empty webhook."), w').
Proof.
  intros form request w. eexists. eexists. cbv zeta.
  split; [reflexivity|]. repeat split.
Qed.

(* ------------------------------------------------------------------ *)
(** ** The pipeline: the anti-spam block *)

Lemma post_success_inv (env : Env) (request : SubmitForm.Request)
      (w w' : World) (r : SubmitForm.JSONResponse) :
  SubmitForm.post env request w = (Returned r, w') ->
  SubmitForm.status r = 200%Z ->
  exists form response w1 response_obj,
    find (fun f => String.eqb (form_id f) (SubmitForm.path_form_id request)
                   && has_feature FormFeatures.OPEN f)%bool (db_forms w)
    = Some form
    /\ SubmitForm.enrich env request form w
       = (Returned (SubmitForm.Continue response), w1)
    /\ SubmitForm.check env form response w1
       = (Returned (SubmitForm.Continue response_obj), w1)
    /\ SubmitForm.content r = SubmitForm.Submission form response_obj
    /\ db_responses w' = (db_responses w ++ [response_obj])%list.
Proof.
  intros E Hs.
  unfold SubmitForm.post, SubmitForm.and_then, bind, SubmitForm.find_one in E.
  destruct (find _ (db_forms w)) as [form|] eqn:Hf;
    [| inversion E; subst; discriminate Hs].
  pose proof (enrich_quiet env request form w) as H1.
  destruct (SubmitForm.enrich env request form w) as [[[response|r1]|e|] w1]
    eqn:He; cbn [ret] in E; try discriminate;
    [| inversion E; subst; destruct H1 as [[H1 _] _]; contradiction].
  pose proof (check_quiet env form response w1) as H2.
  destruct (SubmitForm.check env form response w1) as [[[obj|r2]|e|] w2]
    eqn:Hc; cbn [ret] in E; try discriminate;
    [| inversion E; subst; destruct H2 as [[H2 _] _]; contradiction].
  subst w2.
  pose proof (grade_quiet env form obj w1) as H3.
  destruct (SubmitForm.grade env form obj w1) as [[[obj'|r3]|e|] w3];
    cbn [ret] in E; try discriminate;
    [| inversion E; subst; destruct H3 as [[H3 _] _]; contradiction].
  destruct H3 as [-> H3].
  rewrite persist_eq in E.
  destruct (SubmitForm.renders form obj); cbn [ret] in E; [|discriminate].
  inversion E; subst. exists form, response, w1, obj.
  repeat split; try assumption; try reflexivity. cbn.
  destruct (quiet_trans _ _ _ H1 H3) as (Hd & _). now rewrite Hd.
Qed.

Lemma complete_fields_keeps (key : string) (qs : list Question)
      (response out : dict) (missing_fields out_missing : list string)
      (w w' : World) :
  String.eqb key "response" = false ->
  SubmitForm.complete_fields qs response missing_fields w
  = (Returned (out, out_missing), w') ->
  Dict.get key out = Dict.get key response.
Proof.
  intros Hk. revert response missing_fields w.
  induction qs as [|q qs IH]; intros response missing_fields w;
    cbn [SubmitForm.complete_fields]; [now intros [= <- _ _]|].
  unfold bind.
  destruct (subscript (VDict response) "response" w) as [[answers|e|] w1];
    try discriminate.
  destruct (not_in (question_id q) answers w1) as [[absent|e|] w2];
    try discriminate.
  destruct absent; [|apply IH].
  destruct (negb (required q)); [|apply IH].
  destruct (setitem answers (question_id q) VNone w2) as [[answers'|e|] w3];
    try discriminate.
  intros H. rewrite (IH _ _ _ H). now apply get_set_other.
Qed.

(** What [enrich] leaves under ["antispam"]: the block it has built when
    the form has anti-spam, and whatever the body held when it has not. *)
Lemma enrich_antispam (env : Env) (request : SubmitForm.Request) (form : Form)
      (response : dict) (w w1 : World) :
  SubmitForm.enrich env request form w
  = (Returned (SubmitForm.Continue response), w1) ->
  if has_feature FormFeatures.DISABLE_ANTISPAM form
  then Dict.get "antispam" response
       = Dict.get "antispam" (SubmitForm.json_body request)
  else exists agent success,
      Dict.get "antispam" response
      = Some (VDict
                [("ip_hash",
                  VStr (md5_hex env (SubmitForm.client_host request)));
                 ("user_agent_hash", VStr (md5_hex env agent));
                 ("captcha_pass", success)]).
Proof.
  unfold SubmitForm.enrich, bind. intros H.
  destruct (SubmitForm.antispam_stage _ _ _ _ _ w) as [[out|e|] w0] eqn:Ea;
    try discriminate.
  cbn [ret] in H. injection H as Hl _.
  rewrite (login_stage_keeps "antispam" _ _ _ _ eq_refl Hl).
  unfold SubmitForm.antispam_stage in Ea.
  destruct (has_feature FormFeatures.DISABLE_ANTISPAM form); cbn [negb] in Ea.
  - injection Ea as <- _. now rewrite !get_set_other by reflexivity.
  - unfold bind in Ea.
    destruct (header _ _) as [agent|]; cbn [ret raise] in Ea; [|discriminate].
    destruct (http_send _ w) as [[r|e|] w2]; try discriminate.
    destruct (raise_for_status r w2) as [[[]|e|] w3]; try discriminate.
    destruct (subscript _ _ w3) as [[success|e|] w4]; try discriminate.
    cbn [ret] in Ea. injection Ea as <- _.
    exists agent, success. apply get_set_same.
Qed.

Lemma check_antispam (env : Env) (form : Form) (response : dict)
      (response_obj : FormResponse) (w w' : World) :
  SubmitForm.check env form response w
  = (Returned (SubmitForm.Continue response_obj), w') ->
  Models.optional_antispam (Dict.get "antispam" response)
  = Some (antispam response_obj).
Proof.
  unfold SubmitForm.check, bind.
  destruct (SubmitForm.complete_fields _ _ _ w) as [[[out miss]|e|] w1] eqn:Ec;
    try discriminate.
  cbn [fst snd]. destruct miss; [|discriminate].
  rewrite <- (complete_fields_keeps "antispam" _ _ _ _ _ _ _ eq_refl Ec).
  unfold Models.FormResponse_init.
  destruct (Models.as_str (Dict.get "id" out)); try discriminate;
  destruct (Models.optional_dict (Dict.get "user" out)); try discriminate;
  destruct (Models.optional_antispam (Dict.get "antispam" out));
    try discriminate;
  destruct (Models.as_dict (Dict.get "response" out)); try discriminate;
  destruct (Models.as_str (Dict.get "form_id" out)); try discriminate;
  destruct (Models.timestamp_or (now env) (Dict.get "timestamp" out));
    try discriminate.
  now intros [= <- _].
Qed.

(** For a body that has no ["antispam"] entry of its own, the stored
    response carries an anti-spam block exactly when the form does not
    disable anti-spam. *)
Theorem antispam_block_by_flag (env : Env) (request : SubmitForm.Request)
        (w w' : World) (r : SubmitForm.JSONResponse) :
  SubmitForm.post env request w = (Returned r, w') ->
  SubmitForm.status r = 200%Z ->
  Dict.mem "antispam" (SubmitForm.json_body request) = false ->
  exists form response_obj,
    In form (db_forms w)
    /\ SubmitForm.content r = SubmitForm.Submission form response_obj
    /\ db_responses w' = (db_responses w ++ [response_obj])%list
    /\ (antispam response_obj <> None
        <-> has_feature FormFeatures.DISABLE_ANTISPAM form = false).
Proof.
  intros E Hs Hb.
  destruct (post_success_inv _ _ _ _ _ E Hs)
    as (form & response & w1 & obj & Hf & He & Hc & Hr & Hd).
  exists form, obj. apply find_open in Hf as (Hin & _).
  repeat split; try assumption.
  - intros Ha. pose proof (enrich_antispam _ _ _ _ _ _ He) as H.
    pose proof (check_antispam _ _ _ _ _ _ Hc) as Hv.
    destruct (has_feature FormFeatures.DISABLE_ANTISPAM form); [|reflexivity].
    rewrite H in Hv. unfold Dict.mem in Hb.
    destruct (Dict.get "antispam" (SubmitForm.json_body request));
      [discriminate|].
    cbn in Hv. congruence.
  - intros Hflag Ha. pose proof (enrich_antispam _ _ _ _ _ _ He) as H.
    pose proof (check_antispam _ _ _ _ _ _ Hc) as Hv.
    rewrite Hflag in H. destruct H as (agent & success & H).
    rewrite H, Ha in Hv. cbn in Hv. destruct success; discriminate.
Qed.

(** A plain body sent to a form with anti-spam and to one without. *)
Lemma antispam_block_by_flag_sample :
  let request :=
    Sample.request [("response", VDict []); ("captcha", VStr "tok")]
                   Sample.anonymous in
  let verdict := Sample.answer 200 [] (VDict [("success", VBool true)]) in
  let guarded := Sample.form ["OPEN"] [] None in
  let unguarded := Sample.form ["OPEN"; "DISABLE_ANTISPAM"] [] None in
  (exists stored,
      db_responses (snd (SubmitForm.post Sample.env request
                           (Sample.world [guarded] [verdict]))) = [stored]
      /\ antispam stored <> None)
  /\ (exists stored,
         db_responses (snd (SubmitForm.post Sample.env request
                              (Sample.world [unguarded] []))) = [stored]
         /\ antispam stored = None).
Proof.
  intros request verdict guarded unguarded. split.
  - edestruct (antispam_block_by_flag Sample.env request
                 (Sample.world [guarded] [verdict]))
      as (form & stored & Hin & Hc & Hd & Hiff);
      [reflexivity | reflexivity | reflexivity |].
    injection Hc as <- <-.
    eexists. split; [reflexivity|]. apply Hiff. reflexivity.
  - edestruct (antispam_block_by_flag Sample.env request
                 (Sample.world [unguarded] []))
      as (form & stored & Hin & Hc & Hd & Hiff);
      [reflexivity | reflexivity | reflexivity |].
    injection Hc as <- <-.
    eexists. split; [reflexivity|].
    match goal with
    | |- ?a = None =>
        destruct a eqn:Ha; [exfalso | reflexivity];
        assert (Hn : a <> None) by (rewrite Ha; discriminate);
        apply Hiff in Hn; discriminate Hn
    end.
Defined.

(** C6.  The response is assembled from a copy of the body, so an
    ["antispam"] entry sent by the client stays in it: on a form that
    disables anti-spam the stored response then carries the client's block,
    while the same form stores none for a body without the entry. *)
Theorem antispam_block_forged :
  let form := Sample.form ["OPEN"; "DISABLE_ANTISPAM"] [] None in
  let block :=
    VDict [("ip_hash", VStr "0"); ("user_agent_hash", VStr "0");
           ("captcha_pass", VBool true)] in
  let plain := Sample.request [("response", VDict [])] Sample.anonymous in
  let forging :=
    Sample.request [("response", VDict []); ("antispam", block)]
                   Sample.anonymous in
  let w := Sample.world [form] [] in
  has_feature FormFeatures.DISABLE_ANTISPAM form = true
  /\ (exists r w', SubmitForm.post Sample.env plain w = (Returned r, w')
                   /\ SubmitForm.status r = 200%Z
                   /\ map antispam (db_responses w') = [None])
  /\ (exists r w', SubmitForm.post Sample.env forging w = (Returned r, w')
                   /\ SubmitForm.status r = 200%Z
                   /\ map antispam (db_responses w')
                      = [Some {| ip_hash := "0"; user_agent_hash := "0";
                                 captcha_pass := true |}]).
Proof.
  intros form block plain forging w.
  split; [reflexivity|].
  split; do 2 eexists; (split; [reflexivity|]); split; reflexivity.
Qed.

(* ------------------------------------------------------------------ *)
(** ** Direct messages *)

(** With fuel for one turn of the loop, [make_request] sends exactly one
    request, whatever comes back. *)
Lemma make_request_requests (env : Env) (fuel : nat) (method url : string)
      (json : option value) (headers : list (string * string)) (w : World) :
  requests (trace (snd (Discord.make_request env (S fuel) method url json
                          headers w)))
  = (requests (trace w)
     ++ [Discord.request_of env method url json headers])%list.
Proof.
  rewrite make_request_first_reply.
  destruct (remote w) as [|[resp|e] rest]; cbn [snd];
    try (cbn; now rewrite requests_app).
  destruct (status_code resp =? 429)%Z.
  - destruct (header _ _) as [s|]; [destruct (float env s)|];
      cbn; rewrite ?requests_app; cbn; try reflexivity.
    now rewrite app_nil_r.
  - destruct (is_error _); cbn; now rewrite requests_app.
Qed.

(** C5.  [send_direct_message] for a user whose claims hold an id.
    When opening the channel raises the status error of a 400 response,
    the call returns normally in the world the failed request left: only
    the channel request was sent.  Any other exception of that call comes
    out unchanged.  When a channel id was obtained and posting the message
    raises the status error of a 403 response, the call returns normally;
    any other exception of the post comes out unchanged. *)
Theorem direct_message_failures (env : Env) (fuel : nat) (form : Form)
        (response : FormResponse) (user : User) (user_id : value)
        (w : World) :
  Dict.get "id" (payload user) = Some user_id ->
  let open :=
    Discord.make_request env (S fuel) "POST" "users/@me/channels"
      (Some (VDict [("recipient_id", user_id)])) [] in
  let send := Discord.send_direct_message env (S fuel) form response user in
  (forall r w1,
      open w = (Raised (HTTPStatusError r), w1) ->
      status_code r = 400%Z ->
      send w = (Returned tt, w1)
      /\ requests (trace w1)
         = (requests (trace w)
            ++ [Discord.request_of env "POST" "users/@me/channels"
                  (Some (VDict [("recipient_id", user_id)])) []])%list)
  /\ (forall e w1,
         open w = (Raised e, w1) ->
         (forall r, e = HTTPStatusError r -> status_code r <> 400%Z) ->
         send w = (Raised e, w1))
  /\ (forall resp d channel template w1,
         open w = (Returned resp, w1) ->
         resp_json resp = VDict d ->
         Dict.get "id" d = Some channel ->
         truthy channel = true ->
         dm_message form = Some template ->
         let message :=
           format_message (Discord.build_ctx_variables form response user)
                          template in
         let deliver :=
           Discord.make_request env (S fuel) "POST"
             ("channels/" ++ py_str channel ++ "/messages")
             (Some (VDict [("content", VStr message)])) [] in
         (forall r w2,
             deliver w1 = (Raised (HTTPStatusError r), w2) ->
             status_code r = 403%Z ->
             send w = (Returned tt, w2))
         /\ (forall e w2,
                deliver w1 = (Raised e, w2) ->
                (forall r, e = HTTPStatusError r -> status_code r <> 403%Z) ->
                send w = (Raised e, w2))
         /\ (forall r w2,
                deliver w1 = (Returned r, w2) ->
                send w = (Returned tt, w2))).
Proof.
  intros Hid open send.
  assert (Hsend : forall w0,
    send w0
    = bind (Discord.get_direct_message_channel env (S fuel) user_id)
        (fun channel =>
           if negb (truthy channel) then ret tt
           else
             match dm_message form with
             | None => raise (AttributeError "replace")
             | Some template =>
                 try_except
                   (bind (Discord.make_request env (S fuel) "POST"
                            ("channels/" ++ py_str channel ++ "/messages")
                            (Some (VDict
                               [("content",
                                 VStr (format_message
                                         (Discord.build_ctx_variables
                                            form response user) template))]))
                            [])
                         (fun _ => ret tt))
                   (fun e =>
                      match e with
                      | HTTPStatusError r =>
                          if (status_code r =? 403)%Z
                          then ret tt else raise e
                      | _ => raise e
                      end)
             end) w0).
  { intros w0. unfold send, Discord.send_direct_message, bind at 1, subscript.
    now rewrite Hid. }
  split; [|split].
  - intros r w1 Ho Hs. split.
    + rewrite Hsend. unfold bind, Discord.get_direct_message_channel,
        try_except, bind. fold open. rewrite Ho.
      apply Z.eqb_eq in Hs. now rewrite Hs.
    + pose proof (make_request_requests env fuel "POST" "users/@me/channels"
                    (Some (VDict [("recipient_id", user_id)])) [] w) as Hr.
      fold open in Hr. now rewrite Ho in Hr.
  - intros e w1 Ho Hne.
    rewrite Hsend. unfold bind, Discord.get_direct_message_channel,
      try_except, bind. fold open. rewrite Ho.
    destruct e; try reflexivity.
    specialize (Hne response0 eq_refl). apply Z.eqb_neq in Hne.
    now rewrite Hne.
  - intros resp d channel template w1 Ho Hj Hc Ht Hm message deliver.
    assert (Hchan : Discord.get_direct_message_channel env (S fuel) user_id w
                    = (Returned channel, w1)).
    { unfold Discord.get_direct_message_channel, try_except, bind.
      fold open. now rewrite Ho, Hj, Hc. }
    assert (Hrest : send w
                    = try_except (bind deliver (fun _ => ret tt))
                        (fun e =>
                           match e with
                           | HTTPStatusError r =>
                               if (status_code r =? 403)%Z
                               then ret tt else raise e
                           | _ => raise e
                           end) w1).
    { rewrite Hsend. unfold bind at 1. now rewrite Hchan, Ht, Hm. }
    split; [|split].
    + intros r w2 Hd Hs. rewrite Hrest. unfold try_except, bind.
      rewrite Hd. apply Z.eqb_eq in Hs. now rewrite Hs.
    + intros e w2 Hd Hne. rewrite Hrest. unfold try_except, bind.
      rewrite Hd. destruct e; try reflexivity.
      specialize (Hne response0 eq_refl). apply Z.eqb_neq in Hne.
      now rewrite Hne.
    + intros r w2 Hd. rewrite Hrest. unfold try_except, bind.
      now rewrite Hd.
Qed.

(** A user whose channel cannot be opened (400): no exception, and the
    channel request is the only one sent.  A user whose channel opens but
    whose DMs are closed (403 on the post): no exception either. *)
Lemma direct_message_failures_sample :
  let form := Sample.form ["OPEN"] [] None in
  let blocked := Sample.world [] [Sample.answer 400 [] VNone] in
  let closed :=
    Sample.world [] [Sample.answer 200 [] (VDict [("id", VStr "77")]);
                     Sample.answer 403 [] VNone] in
  let send :=
    Discord.send_direct_message Sample.env 1 form Sample.response Sample.ada in
  (fst (send blocked) = Returned tt
   /\ requests (trace (snd (send blocked)))
      = [Discord.request_of Sample.env "POST" "users/@me/channels"
           (Some (VDict [("recipient_id", VStr "42")])) []])
  /\ fst (send closed) = Returned tt.
Proof.
  intros form blocked closed send. split.
  - destruct (direct_message_failures Sample.env 0 form Sample.response
                Sample.ada (VStr "42") blocked eq_refl) as (H400 & _ & _).
    edestruct H400 as [Hs Hr]; [reflexivity | reflexivity |].
    unfold send. rewrite Hs. split; [reflexivity | exact Hr].
  - destruct (direct_message_failures Sample.env 0 form Sample.response
                Sample.ada (VStr "42") closed eq_refl) as (_ & _ & Hopen).
    edestruct Hopen as (H403 & _ & _);
      [reflexivity | reflexivity | reflexivity | reflexivity | reflexivity |].
    unfold send. erewrite H403; [reflexivity | reflexivity | reflexivity].
Defined.

(* ------------------------------------------------------------------ *)
(** ** End to end *)

(** The answers [{"q1": "yes"}] with the token ["tok"], sent to an open form
    with anti-spam, no login, the required question [q1] and no webhook
    flag: one CAPTCHA request goes out, [post] answers 200, the stored
    response carries the anti-spam block and the server's timestamp, and no
    background task is attached. *)
Theorem post_end_to_end :
  let form := Sample.form ["OPEN"] [Sample.question "q1" true []] None in
  let request :=
    Sample.request [("response", VDict [("q1", VStr "yes")]);
                    ("captcha", VStr "tok")] Sample.anonymous in
  let verdict := Sample.answer 200 [] (VDict [("success", VBool true)]) in
  let stored :=
    {| response_id := uuid4 Sample.env; response_user := None;
       antispam :=
         Some {| ip_hash := md5_hex Sample.env "203.0.113.7";
                 user_agent_hash := md5_hex Sample.env "curl/7.74";
                 captcha_pass := true |};
       response_answers := [("q1", VStr "yes")];
       response_form_id := "survey";
       timestamp := now Sample.env |} in
  SubmitForm.post Sample.env request (Sample.world [form] [verdict])
  = (Returned {| SubmitForm.content := SubmitForm.Submission form stored;
                 SubmitForm.status := 200;
                 SubmitForm.background := None |},
     {| db_forms := [form]; db_responses := [stored]; remote := [];
        trace :=
          [Sent {| req_method := "POST";
                   req_url := "https://hcaptcha.com/siteverify";
                   req_params := [("secret", VStr "hcaptcha-secret");
                                  ("response", VStr "tok")];
                   req_json := None;
                   req_headers :=
                     [("Content-Type",
                       "application/x-www-form-urlencoded")] |};
           Inserted stored] |}).
Proof. reflexivity. Qed.

(** What [urljoin] makes of the URLs the module passes: a relative path
    goes under the base, dot segments and empty segments are resolved, a
    leading slash replaces the base's path, and an absolute URL replaces
    the base. *)
Example urljoin_api_base :
  Parse.urljoin Discord.API_BASE_URL "users/@me"
  = "https://discord.com/api/v8/users/@me"
  /\ Parse.urljoin Discord.API_BASE_URL "guilds/1/members/42/roles/.."
     = "https://discord.com/api/v8/guilds/1/members/42/"
  /\ Parse.urljoin Discord.API_BASE_URL "channels//messages"
     = "https://discord.com/api/v8/channels/messages"
  /\ Parse.urljoin Discord.API_BASE_URL "/x" = "https://discord.com/x"
  /\ Parse.urljoin Discord.API_BASE_URL "//host/p" = "https://host/p"
  /\ Parse.urljoin Discord.API_BASE_URL "HTTPS://x/y?" = "https://x/y"
  /\ Parse.urljoin Discord.API_BASE_URL
                   "https://discord.com/api/webhooks/1/abc"
     = "https://discord.com/api/webhooks/1/abc".
Proof. repeat split. Qed.

(** A response that is not rate limited comes back as it is, or as the
    status error [raise_for_status] makes of it. *)
Lemma make_request_plain (env : Env) (fuel : nat) (method url : string)
      (json : option value) (headers : list (string * string)) (w : World)
      (resp : Response) (rest : list Reply) :
  remote w = Answer resp :: rest ->
  status_code resp <> 429%Z ->
  Discord.make_request env (S fuel) method url json headers w
  = (if is_error (status_code resp)
     then Raised (HTTPStatusError resp) else Returned resp,
     advance (emit (Sent (Discord.request_of env method url json headers)) w)).
Proof.
  intros Hr Hs. rewrite make_request_first_reply, Hr.
  apply Z.eqb_neq in Hs. rewrite Hs. now destruct (is_error _).
Qed.

(* ------------------------------------------------------------------ *)
(** ** [make_request] and its callers *)

(** Whatever [make_request] returns is the first reply of the remote side,
    neither rate limited nor an error, and nothing but the one request was
    done to get it. *)
Theorem make_request_returns_first_reply (env : Env) (fuel : nat)
        (method url : string) (json : option value)
        (headers : list (string * string)) (w w' : World) (resp : Response) :
  Discord.make_request env (S fuel) method url json headers w
  = (Returned resp, w') ->
  (exists rest, remote w = Answer resp :: rest)
  /\ status_code resp <> 429%Z
  /\ is_error (status_code resp) = false
  /\ w' = advance (emit (Sent (Discord.request_of env method url json
                                                   headers)) w).
Proof.
  rewrite make_request_first_reply.
  destruct (remote w) as [|[r|e] rest]; try discriminate.
  destruct (Z.eqb_spec (status_code r) 429) as [E|E].
  - destruct (header _ _) as [s|]; [destruct (float env s)|]; discriminate.
  - destruct (is_error (status_code r)) eqn:Herr; [discriminate|].
    intros [= <- <-]. split; [now exists rest | auto].
Qed.

Lemma make_request_returns_first_reply_sample :
  let w := Sample.world [] [Sample.answer 204 [] VNone] in
  exists resp w',
    Discord.make_request Sample.env 1 "PUT" "guilds/1/members/42/roles/7"
                         None [] w = (Returned resp, w')
    /\ status_code resp = 204%Z
    /\ remote w' = [].
Proof.
  intros w.
  edestruct (make_request_returns_first_reply Sample.env 0 "PUT"
               "guilds/1/members/42/roles/7" None [] w)
    as ([rest Hr] & _ & _ & Hw); [reflexivity|].
  do 2 eexists. split; [reflexivity|]. split; reflexivity.
Defined.

(** [dict.update]: the last value given for a key wins, and keys not given
    keep what they had. *)
Lemma get_update {A : Type} (k : string) (d e : list (string * A)) :
  Dict.get k (Dict.update d e)
  = match Dict.get k (rev e) with
    | Some v => Some v
    | None => Dict.get k d
    end.
Proof.
  unfold Dict.update. revert d.
  induction e as [|[k' v'] e IH]; intros d; [reflexivity|].
  cbn [fold_left fst snd rev]. rewrite IH.
  assert (Happ : forall (l1 l2 : list (string * A)),
             Dict.get k (l1 ++ l2)%list
             = match Dict.get k l1 with
               | Some v => Some v
               | None => Dict.get k l2
               end).
  { induction l1 as [|[k0 v0] l1 IHl]; intros l2; [reflexivity|].
    cbn [app Dict.get]. destruct (String.eqb k k0); [reflexivity | apply IHl]. }
  rewrite Happ. destruct (Dict.get k (rev e)) as [v|]; [reflexivity|].
  cbn [Dict.get]. destruct (String.eqb k k') eqn:E.
  - apply String.eqb_eq in E. subst k'. apply get_set_same.
  - now apply get_set_other.
Qed.

(** The headers [make_request] sends: what the caller gave for a name, and
    the bot credential under [Authorization] only when the caller gave
    nothing under that name. *)
Theorem make_request_headers (env : Env) (method url : string)
        (json : option value) (headers : list (string * string))
        (name : string) :
  Dict.get name (req_headers (Discord.request_of env method url json headers))
  = match Dict.get name (rev headers) with
    | Some v => Some v
    | None =>
        if String.eqb name "Authorization"
        then Some ("Bot " ++ DISCORD_BOT_TOKEN env)
        else None
    end.
Proof.
  unfold Discord.request_of. cbn [req_headers]. rewrite get_update.
  destruct (Dict.get name (rev headers)); [reflexivity|].
  unfold Discord.DISCORD_HEADERS. cbn [Dict.get].
  now destruct (String.eqb name "Authorization").
Qed.

(** [fetch_user_details] sends one [GET] for [users/@me] whose only
    credential is the bearer token (it takes the place of the bot's), and
    hands back the JSON of a reply that is neither rate limited nor an
    error; an error status comes out as [HTTPStatusError]. *)
Theorem fetch_user_details_request (env : Env) (fuel : nat)
        (bearer_token : string) (w : World) :
  let sent :=
    {| req_method := "GET";
       req_url := "https://discord.com/api/v8/users/@me";
       req_params := []; req_json := None;
       req_headers := [("Authorization", "Bearer " ++ bearer_token)] |} in
  let run := Discord.fetch_user_details env (S fuel) bearer_token w in
  requests (trace (snd run)) = (requests (trace w) ++ [sent])%list
  /\ (forall resp rest,
         remote w = Answer resp :: rest ->
         status_code resp <> 429%Z ->
         run = (if is_error (status_code resp)
                then Raised (HTTPStatusError resp)
                else Returned (resp_json resp),
                advance (emit (Sent sent) w))).
Proof.
  intros sent run.
  assert (Hsent : Discord.request_of env "GET" "users/@me" None
                    [("Authorization", "Bearer " ++ bearer_token)] = sent).
  { unfold Discord.request_of, Discord.DISCORD_HEADERS, Dict.update.
    reflexivity. }
  split.
  - unfold run, Discord.fetch_user_details, bind.
    pose proof (make_request_requests env fuel "GET" "users/@me" None
                  [("Authorization", "Bearer " ++ bearer_token)] w) as H.
    rewrite Hsent in H.
    destruct (Discord.make_request _ _ _ _ _ _ w) as [[r|e|] w1];
      cbn [snd] in *; try exact H.
    unfold raise_for_status. destruct (is_error _); exact H.
  - intros resp rest Hr Hs.
    unfold run, Discord.fetch_user_details, bind.
    rewrite (make_request_plain _ _ _ _ _ _ _ _ _ Hr Hs), Hsent.
    destruct (is_error (status_code resp)) eqn:E; [reflexivity|].
    unfold raise_for_status. now rewrite E.
Qed.

(** [assign_role]: a form without a role id (none, or the empty string)
    ends in [ValueError] before anything is sent; claims without an [id]
    end in [KeyError] before anything is sent; otherwise exactly one
    request is sent, whatever it is answered: the [PUT] that [make_request]
    makes of the relative URL of the member's role under the guild, without
    a body and with the bot's credential as its only header. *)
Theorem assign_role_request (env : Env) (fuel : nat) (guild : string)
        (form : Form) (user : User) (w : World) :
  let run := Discord.assign_role env (S fuel) guild form user w in
  let sent role id :=
    Discord.request_of env "PUT"
      ("guilds/" ++ guild ++ "/members/" ++ py_str id ++ "/roles/" ++ role)
      None [] in
  ((discord_role form = None \/ discord_role form = Some "") ->
   run = (Raised (ValueError "Got empty Discord role ID."), w))
  /\ (forall role,
         discord_role form = Some role -> role <> "" ->
         match Dict.get "id" (payload user) with
         | None => run = (Raised (KeyError "id"), w)
         | Some id =>
             requests (trace (snd run))
             = (requests (trace w) ++ [sent role id])%list
             /\ req_method (sent role id) = "PUT"
             /\ req_json (sent role id) = None
             /\ req_headers (sent role id)
                = [("Authorization", "Bot " ++ DISCORD_BOT_TOKEN env)]
         end).
Proof.
  intros run sent. unfold run, sent, Discord.assign_role. split.
  - intros [-> | ->]; reflexivity.
  - intros role -> Hne. apply String.eqb_neq in Hne. rewrite Hne.
    unfold bind at 1, subscript.
    destruct (Dict.get "id" (payload user)) as [id|]; [|reflexivity].
    cbn [ret]. unfold bind.
    pose proof (make_request_requests env fuel "PUT"
                  ("guilds/" ++ guild ++ "/members/" ++ py_str id
                   ++ "/roles/" ++ role) None [] w) as H.
    split; [|repeat split].
    destruct (Discord.make_request _ _ _ _ _ _ w) as [[r|e|] w1];
      cbn [snd] in *; exact H.
Qed.

(** [send_direct_message] when the channel request is answered without an
    error: if the answer holds no usable channel id (none, [null], or an
    empty one) the call returns having sent nothing else; otherwise the
    form's template, rendered with the context of the submission, is posted
    to that channel as the second and last request. *)
Theorem direct_message_delivery (env : Env) (fuel : nat) (form : Form)
        (response : FormResponse) (user : User) (user_id : value)
        (w : World) (opened : Response) (rest : list Reply)
        (d : dict) (template : string) :
  Dict.get "id" (payload user) = Some user_id ->
  remote w = Answer opened :: rest ->
  status_code opened <> 429%Z ->
  is_error (status_code opened) = false ->
  resp_json opened = VDict d ->
  dm_message form = Some template ->
  let open :=
    Discord.request_of env "POST" "users/@me/channels"
      (Some (VDict [("recipient_id", user_id)])) [] in
  let channel := match Dict.get "id" d with Some c => c | None => VNone end in
  let message :=
    format_message (Discord.build_ctx_variables form response user) template in
  let deliver :=
    Discord.request_of env "POST"
      ("channels/" ++ py_str channel ++ "/messages")
      (Some (VDict [("content", VStr message)])) [] in
  let run := Discord.send_direct_message env (S fuel) form response user w in
  if truthy channel
  then requests (trace (snd run))
       = (requests (trace w) ++ [open; deliver])%list
  else run = (Returned tt, advance (emit (Sent open) w)).
Proof.
  intros Hid Hr Hs He Hj Hm open channel message deliver run.
  assert (Hchan : Discord.get_direct_message_channel env (S fuel) user_id w
                  = (Returned channel, advance (emit (Sent open) w))).
  { unfold Discord.get_direct_message_channel, try_except, bind.
    rewrite (make_request_plain _ _ _ _ _ _ _ _ _ Hr Hs), He, Hj.
    reflexivity. }
  destruct (truthy channel) eqn:Ht;
    unfold run, Discord.send_direct_message, subscript; rewrite Hid;
    unfold bind at 1; cbn [ret]; unfold bind at 1; rewrite Hchan, Ht;
    cbn [negb]; [|reflexivity].
  rewrite Hm. unfold try_except, bind.
  pose proof (make_request_requests env fuel "POST"
                ("channels/" ++ py_str channel ++ "/messages")
                (Some (VDict [("content", VStr message)])) []
                (advance (emit (Sent open) w))) as H.
  fold deliver in H.
  assert (Hopen : requests (trace (advance (emit (Sent open) w)))
                  = (requests (trace w) ++ [open])%list).
  { cbn. now rewrite requests_app. }
  rewrite Hopen, <- app_assoc in H. cbn [app] in H.
  fold message.
  destruct (Discord.make_request _ _ _ _ _ _ _) as [[r|e|] w2];
    cbn [snd ret] in *; try exact H.
  destruct e; cbn [raise snd]; try exact H.
  destruct (status_code response0 =? 403)%Z; exact H.
Qed.

Lemma direct_message_delivery_sample :
  let form := Sample.form ["OPEN"] [] None in
  let w :=
    Sample.world [] [Sample.answer 200 [] (VDict [("id", VStr "77")]);
                     Sample.answer 200 [] VNone] in
  requests (trace (snd (Discord.send_direct_message Sample.env 1 form
                          Sample.response Sample.ada w)))
  = [Discord.request_of Sample.env "POST" "users/@me/channels"
       (Some (VDict [("recipient_id", VStr "42")])) [];
     Discord.request_of Sample.env "POST" "channels/77/messages"
       (Some (VDict [("content", VStr "Thanks <@42>")])) []].
Proof.
  intros form w.
  exact (direct_message_delivery Sample.env 0 form Sample.response Sample.ada
           (VStr "42") w _ _ [("id", VStr "77")] "Thanks {user}"
           eq_refl eq_refl ltac:(discriminate) eq_refl eq_refl eq_refl).
Defined.

(* ------------------------------------------------------------------ *)
(** ** The pipeline: what [post] sends *)

Lemma antispam_stage_requests (env : Env) (request : SubmitForm.Request)
      (form : Form) (response : dict) (w : World) :
  requests (trace (snd (SubmitForm.antispam_stage env request form
                          (Dict.set "timestamp" VNone
                             (SubmitForm.json_body request))
                          response w)))
  = (requests (trace w)
     ++ if has_feature FormFeatures.DISABLE_ANTISPAM form then []
        else match header "User-Agent" (SubmitForm.request_headers request) with
             | Some _ => [captcha_request env request]
             | None => []
             end)%list.
Proof.
  unfold SubmitForm.antispam_stage.
  destruct (has_feature FormFeatures.DISABLE_ANTISPAM form); cbn [negb];
    [cbn; now rewrite app_nil_r|].
  unfold bind.
  destruct (header _ _) as [agent|]; cbn [ret raise snd];
    [|now rewrite app_nil_r].
  rewrite (get_set_other "captcha" "timestamp") by reflexivity.
  fold (captcha_request env request).
  assert (Hsent : requests (trace (advance (emit (Sent (captcha_request env
                                                         request)) w)))
                  = (requests (trace w) ++ [captcha_request env request])%list).
  { cbn. now rewrite requests_app. }
  unfold http_send.
  destruct (remote w) as [|[r|e] rest]; cbn [snd]; try exact Hsent.
  unfold raise_for_status.
  destruct (is_error _); cbn [raise ret snd]; try exact Hsent.
  pose proof (subscript_pure (resp_json r) "success"
                (advance (emit (Sent (captcha_request env request)) w))) as Hp.
  destruct (subscript _ _ _) as [[v|e|] w1]; cbn [snd ret] in *; subst w1;
    exact Hsent.
Qed.

(** The only request [post] ever sends is the one to the CAPTCHA service,
    and it sends it exactly when an open form is found, the form does not
    disable anti-spam and the request has a [User-Agent] header: before
    login, completeness or validation are looked at, and whatever the
    answer to the submission turns out to be. *)
Theorem post_requests (env : Env) (request : SubmitForm.Request) (w : World) :
  requests (trace (snd (SubmitForm.post env request w)))
  = (requests (trace w)
     ++ match find (fun f =>
                      String.eqb (form_id f) (SubmitForm.path_form_id request)
                      && has_feature FormFeatures.OPEN f)%bool (db_forms w)
        with
        | None => []
        | Some form =>
            if has_feature FormFeatures.DISABLE_ANTISPAM form then []
            else match header "User-Agent"
                              (SubmitForm.request_headers request) with
                 | Some _ => [captcha_request env request]
                 | None => []
                 end
        end)%list.
Proof.
  unfold SubmitForm.post, SubmitForm.and_then, bind, SubmitForm.find_one.
  destruct (find _ (db_forms w)) as [form|];
    [|cbn; now rewrite app_nil_r].
  unfold SubmitForm.enrich at 1. unfold bind.
  pose proof (antispam_stage_requests env request form
                (Dict.set "form_id" (VStr (form_id form))
                   (Dict.set "id" (VStr (uuid4 env))
                      (Dict.set "timestamp" VNone
                         (SubmitForm.json_body request)))) w) as H1.
  destruct (SubmitForm.antispam_stage _ _ _ _ _ w) as [[response|e|] w1];
    cbn [snd ret] in *; try exact H1.
  rewrite <- H1. clear H1.
  destruct (SubmitForm.login_stage request form response) as [resp|r];
    [|reflexivity].
  pose proof (check_pure env form resp w1) as H2.
  destruct (SubmitForm.check env form resp w1) as [[[obj|r]|e|] w2];
    cbn [snd ret] in *; subst w2; try reflexivity.
  unfold SubmitForm.grade, SubmitForm.run_unittests, bind, log.
  destruct (SubmitForm.has_unittests form); cbn [ret].
  - destruct (execute_unittest env obj form) as [e|results]; cbn [raise ret].
    + cbn. rewrite requests_app. cbn. now rewrite app_nil_r.
    + destruct (negb _); cbn [ret].
      * cbn. rewrite requests_app. cbn. now rewrite app_nil_r.
      * rewrite persist_eq.
        destruct (SubmitForm.renders form obj); cbn;
          rewrite !requests_app; cbn; now rewrite !app_nil_r.
  - rewrite persist_eq.
    destruct (SubmitForm.renders form obj); cbn;
      rewrite requests_app; cbn; now rewrite app_nil_r.
Qed.

(* ------------------------------------------------------------------ *)
(** ** The pipeline: login *)

(** On a form that requires login, a request without an authenticated user
    is never answered with anything but 400 ["missing_discord_data"], and
    an authenticated one whose claims lack the e-mail the form collects
    with anything but 400 ["email_required"].  With anti-spam disabled that
    answer is given at once, in the world as it was. *)
Theorem login_gate (env : Env) (request : SubmitForm.Request) (form : Form)
        (w : World) :
  find (fun f => String.eqb (form_id f) (SubmitForm.path_form_id request)
                 && has_feature FormFeatures.OPEN f)%bool (db_forms w)
  = Some form ->
  has_feature FormFeatures.REQUIRES_LOGIN form = true ->
  let user := SubmitForm.request_user request in
  let refused why := SubmitForm.reply (SubmitForm.Error why) 400 in
  let only why :=
    (forall r w', SubmitForm.post env request w = (Returned r, w') ->
                  r = refused why)
    /\ (has_feature FormFeatures.DISABLE_ANTISPAM form = true ->
        SubmitForm.post env request w = (Returned (refused why), w)) in
  (is_authenticated user = false -> only "missing_discord_data")
  /\ (is_authenticated user = true ->
      has_feature FormFeatures.COLLECT_EMAIL form = true ->
      Dict.mem "email" (payload user) = false ->
      only "email_required").
Proof.
  intros Hf Hl user refused only.
  assert (Hpost : forall why,
             (forall response,
                 SubmitForm.login_stage request form response
                 = SubmitForm.Return (refused why)) ->
             only why).
  { intros why Hstage. unfold only.
    unfold SubmitForm.post, SubmitForm.and_then, bind, SubmitForm.find_one.
    rewrite Hf. unfold SubmitForm.enrich, bind. split.
    - intros r w'.
      destruct (SubmitForm.antispam_stage _ _ _ _ _ w) as [[out|e|] w1];
        try discriminate.
      cbn [ret]. rewrite Hstage. now intros [= <- _].
    - intros Hd. unfold SubmitForm.antispam_stage. rewrite Hd.
      cbn [negb ret]. now rewrite Hstage. }
  split.
  - intros Ha. apply Hpost. intros response.
    unfold SubmitForm.login_stage. fold user. now rewrite Hl, Ha.
  - intros Ha He Hm. apply Hpost. intros response.
    unfold SubmitForm.login_stage. fold user. now rewrite Hl, Ha, He, Hm.
Qed.

Lemma login_gate_sample :
  let form :=
    Sample.form ["OPEN"; "DISABLE_ANTISPAM"; "REQUIRES_LOGIN";
                 "COLLECT_EMAIL"] [] None in
  let body := [("response", VDict [])] in
  let w := Sample.world [form] [] in
  SubmitForm.post Sample.env (Sample.request body Sample.anonymous) w
  = (Returned (SubmitForm.reply (SubmitForm.Error "missing_discord_data") 400),
     w)
  /\ SubmitForm.post Sample.env (Sample.request body Sample.ada) w
     = (Returned (SubmitForm.reply (SubmitForm.Error "email_required") 400), w).
Proof.
  intros form body w. split.
  - apply (login_gate Sample.env (Sample.request body Sample.anonymous) form w
             eq_refl eq_refl); reflexivity.
  - apply (login_gate Sample.env (Sample.request body Sample.ada) form w
             eq_refl eq_refl); reflexivity.
Defined.

(* ------------------------------------------------------------------ *)
(** ** The pipeline: what is stored *)

(** What [check] hands on is the model's reading of the completed fields. *)
Lemma check_init (env : Env) (form : Form) (response : dict)
      (response_obj : FormResponse) (w w' : World) :
  SubmitForm.check env form response w
  = (Returned (SubmitForm.Continue response_obj), w') ->
  exists out,
    SubmitForm.complete_fields (questions form) response [] w
    = (Returned (out, []), w)
    /\ Models.FormResponse_init env out = inr response_obj.
Proof.
  unfold SubmitForm.check, bind. intros H.
  pose proof (complete_fields_pure (questions form) response [] w) as Hp.
  destruct (SubmitForm.complete_fields _ _ _ w) as [[[out miss]|e|] w1];
    try discriminate.
  cbn [fst snd] in *. subst w1. destruct miss; [|discriminate].
  exists out. split; [reflexivity|].
  destruct (Models.FormResponse_init env out); [discriminate|].
  now injection H as ->.
Qed.

Lemma init_fields (env : Env) (out : dict) (obj : FormResponse) :
  Models.FormResponse_init env out = inr obj ->
  Models.as_str (Dict.get "id" out) = Some (response_id obj)
  /\ Models.optional_dict (Dict.get "user" out) = Some (response_user obj)
  /\ Models.optional_antispam (Dict.get "antispam" out) = Some (antispam obj)
  /\ Models.as_dict (Dict.get "response" out) = Some (response_answers obj)
  /\ Models.as_str (Dict.get "form_id" out) = Some (response_form_id obj)
  /\ Models.timestamp_or (now env) (Dict.get "timestamp" out)
     = Some (timestamp obj).
Proof.
  unfold Models.FormResponse_init.
  destruct (Models.as_str (Dict.get "id" out)); try discriminate;
  destruct (Models.optional_dict (Dict.get "user" out)); try discriminate;
  destruct (Models.optional_antispam (Dict.get "antispam" out));
    try discriminate;
  destruct (Models.as_dict (Dict.get "response" out)); try discriminate;
  destruct (Models.as_str (Dict.get "form_id" out)); try discriminate;
  destruct (Models.timestamp_or (now env) (Dict.get "timestamp" out));
    try discriminate.
  intros [= <-]. cbn. auto 10.
Qed.

(** What [enrich] leaves under a key that neither anti-spam nor login
    writes: what the response shell had there. *)
Lemma enrich_shell (key : string) (env : Env) (request : SubmitForm.Request)
      (form : Form) (response : dict) (w w1 : World) :
  String.eqb key "antispam" = false ->
  String.eqb key "user" = false ->
  SubmitForm.enrich env request form w
  = (Returned (SubmitForm.Continue response), w1) ->
  Dict.get key response
  = Dict.get key
      (Dict.set "form_id" (VStr (form_id form))
         (Dict.set "id" (VStr (uuid4 env))
            (Dict.set "timestamp" VNone (SubmitForm.json_body request)))).
Proof.
  intros Ha Hu. unfold SubmitForm.enrich, bind. intros H.
  destruct (SubmitForm.antispam_stage _ _ _ _ _ w) as [[out|e|] w0] eqn:Ea;
    try discriminate.
  cbn [ret] in H. injection H as Hl _.
  rewrite (login_stage_keeps key _ _ _ _ Hu Hl).
  now rewrite (antispam_stage_keeps key _ _ _ _ _ _ _ _ Ha Ea).
Qed.

(** Every stored response has the id drawn for this request, the id of the
    form under which it was submitted, and the server's timestamp, whatever
    the body held under [id], [form_id] or [timestamp]. *)
Theorem stored_identity (env : Env) (request : SubmitForm.Request)
        (w w' : World) (r : SubmitForm.JSONResponse) :
  SubmitForm.post env request w = (Returned r, w') ->
  SubmitForm.status r = 200%Z ->
  exists form response_obj,
    SubmitForm.content r = SubmitForm.Submission form response_obj
    /\ db_responses w' = (db_responses w ++ [response_obj])%list
    /\ form_id form = SubmitForm.path_form_id request
    /\ response_id response_obj = uuid4 env
    /\ response_form_id response_obj = SubmitForm.path_form_id request
    /\ timestamp response_obj = now env.
Proof.
  intros E Hs.
  destruct (post_success_inv _ _ _ _ _ E Hs)
    as (form & response & w1 & obj & Hf & He & Hc & Hr & Hd).
  apply find_open in Hf as (_ & Hid & _).
  destruct (check_init _ _ _ _ _ _ Hc) as (out & Hcf & Hi).
  destruct (init_fields _ _ _ Hi) as (H1 & _ & _ & _ & H5 & H6).
  rewrite (complete_fields_keeps "id" _ _ _ _ _ _ _ eq_refl Hcf),
    (enrich_shell "id" _ _ _ _ _ _ eq_refl eq_refl He) in H1.
  rewrite (complete_fields_keeps "form_id" _ _ _ _ _ _ _ eq_refl Hcf),
    (enrich_shell "form_id" _ _ _ _ _ _ eq_refl eq_refl He) in H5.
  rewrite (complete_fields_keeps "timestamp" _ _ _ _ _ _ _ eq_refl Hcf),
    (enrich_shell "timestamp" _ _ _ _ _ _ eq_refl eq_refl He) in H6.
  rewrite get_set_other, get_set_same in H1 by reflexivity.
  rewrite get_set_same in H5.
  rewrite !get_set_other, get_set_same in H6 by reflexivity.
  cbn in H1, H5, H6.
  exists form, obj. repeat split; congruence.
Qed.

Lemma stored_identity_sample :
  let form := Sample.form ["OPEN"; "DISABLE_ANTISPAM"] [] None in
  let body :=
    [("response", VDict []); ("id", VStr "mine"); ("form_id", VStr "other");
     ("timestamp", VStr "1999-01-01T00:00:00")] in
  exists stored,
    db_responses (snd (SubmitForm.post Sample.env
                         (Sample.request body Sample.anonymous)
                         (Sample.world [form] []))) = [stored]
    /\ response_id stored = uuid4 Sample.env
    /\ response_form_id stored = "survey"
    /\ timestamp stored = now Sample.env.
Proof.
  intros form body.
  edestruct (stored_identity Sample.env (Sample.request body Sample.anonymous)
               (Sample.world [form] []))
    as (f & stored & Hc & Hd & _ & H1 & H2 & H3);
    [reflexivity | reflexivity |].
  exists stored. cbn [snd]. auto.
Defined.

(** What [enrich] leaves under ["user"]: the claims of the authenticated
    user when the form requires login, and whatever the body held when it
    does not. *)
Lemma enrich_user (env : Env) (request : SubmitForm.Request) (form : Form)
      (response : dict) (w w1 : World) :
  SubmitForm.enrich env request form w
  = (Returned (SubmitForm.Continue response), w1) ->
  let user := SubmitForm.request_user request in
  if has_feature FormFeatures.REQUIRES_LOGIN form
  then is_authenticated user = true
       /\ (has_feature FormFeatures.COLLECT_EMAIL form = true ->
           Dict.mem "email" (payload user) = true)
       /\ Dict.get "user" response = Some (VDict (payload user))
  else Dict.get "user" response
       = Dict.get "user" (SubmitForm.json_body request).
Proof.
  intros H user. unfold SubmitForm.enrich, bind in H.
  destruct (SubmitForm.antispam_stage _ _ _ _ _ w) as [[out|e|] w0] eqn:Ea;
    try discriminate.
  cbn [ret] in H. injection H as Hl _.
  pose proof (antispam_stage_keeps "user" _ _ _ _ _ _ _ _ eq_refl Ea) as Hk.
  rewrite !get_set_other in Hk by reflexivity.
  unfold SubmitForm.login_stage in Hl. fold user in Hl.
  destruct (has_feature FormFeatures.REQUIRES_LOGIN form).
  - destruct (is_authenticated user); [|discriminate].
    destruct (has_feature FormFeatures.COLLECT_EMAIL form); cbn [andb] in Hl.
    + destruct (Dict.mem "email" (payload user)); [|discriminate].
      injection Hl as <-. repeat split. apply get_set_same.
    + injection Hl as <-. repeat split; [discriminate | apply get_set_same].
  - injection Hl as <-. exact Hk.
Qed.

(** For a body that has no ["user"] entry of its own, the stored response
    names a user exactly when the form requires login; it is then the
    authenticated user of the request, with an e-mail among the claims if
    the form collects it. *)
Theorem stored_user (env : Env) (request : SubmitForm.Request)
        (w w' : World) (r : SubmitForm.JSONResponse) :
  SubmitForm.post env request w = (Returned r, w') ->
  SubmitForm.status r = 200%Z ->
  Dict.mem "user" (SubmitForm.json_body request) = false ->
  let user := SubmitForm.request_user request in
  exists form response_obj,
    SubmitForm.content r = SubmitForm.Submission form response_obj
    /\ db_responses w' = (db_responses w ++ [response_obj])%list
    /\ if has_feature FormFeatures.REQUIRES_LOGIN form
       then response_user response_obj = Some (payload user)
            /\ is_authenticated user = true
            /\ (has_feature FormFeatures.COLLECT_EMAIL form = true ->
                Dict.mem "email" (payload user) = true)
       else response_user response_obj = None.
Proof.
  intros E Hs Hb user.
  destruct (post_success_inv _ _ _ _ _ E Hs)
    as (form & response & w1 & obj & Hf & He & Hc & Hr & Hd).
  destruct (check_init _ _ _ _ _ _ Hc) as (out & Hcf & Hi).
  destruct (init_fields _ _ _ Hi) as (_ & H2 & _).
  rewrite (complete_fields_keeps "user" _ _ _ _ _ _ _ eq_refl Hcf) in H2.
  pose proof (enrich_user _ _ _ _ _ _ He) as Hu. cbv zeta in Hu.
  subst user. exists form, obj. split; [exact Hr|]. split; [exact Hd|].
  destruct (has_feature FormFeatures.REQUIRES_LOGIN form).
  - destruct Hu as (Ha & Hm & Hg). rewrite Hg in H2. cbn in H2.
    split; [now injection H2 | split; assumption].
  - rewrite Hu in H2. unfold Dict.mem in Hb.
    destruct (Dict.get "user" (SubmitForm.json_body request));
      [discriminate|].
    cbn in H2. now injection H2.
Qed.

Lemma stored_user_sample :
  let form := Sample.form ["OPEN"; "DISABLE_ANTISPAM"; "REQUIRES_LOGIN"] []
                          None in
  let request := Sample.request [("response", VDict [])] Sample.ada in
  exists stored,
    db_responses (snd (SubmitForm.post Sample.env request
                         (Sample.world [form] []))) = [stored]
    /\ response_user stored = Some [("id", VStr "42")].
Proof.
  intros form request.
  edestruct (stored_user Sample.env request (Sample.world [form] []))
    as (f & stored & Hc & Hd & Hu);
    [reflexivity | reflexivity | reflexivity |].
  injection Hc as <- _.
  exists stored. cbn [snd]. split; [exact Hd | apply Hu].
Defined.

(** When nothing is collected, every question has an entry. *)
Lemma completed_covers (qs : list Question) (answers : dict) :
  snd (completed qs answers []) = [] ->
  forall q, In q qs ->
            Dict.mem (question_id q) (fst (completed qs answers [])) = true.
Proof.
  assert (Hkeep : forall qs answers k,
             Dict.mem k answers = true ->
             Dict.mem k (fst (completed qs answers [])) = true).
  { intros qs0 a k Hk. unfold Dict.mem in *.
    rewrite completed_keeps by exact Hk. exact Hk. }
  revert answers.
  induction qs as [|q0 qs IH]; intros answers Hnone q Hin; [contradiction|].
  cbn [completed] in *.
  destruct (Dict.mem (question_id q0) answers) eqn:Em; cbn [negb] in *.
  - destruct Hin as [<-|Hin]; [now apply Hkeep | now apply IH].
  - destruct (required q0); cbn [negb] in *.
    + rewrite completed_missing_app in Hnone. discriminate Hnone.
    + destruct Hin as [<-|Hin]; [|now apply IH].
      apply Hkeep. apply mem_set_same.
Qed.

(** The loop only ever goes through with answers that are a dict. *)
Lemma complete_fields_shape (qs : list Question) (response out : dict)
      (missing_fields out_missing : list string) (w w' : World)
      (answers : dict) :
  SubmitForm.complete_fields qs response missing_fields w
  = (Returned (out, out_missing), w') ->
  Dict.get "response" out = Some (VDict answers) ->
  exists submitted, Dict.get "response" response = Some (VDict submitted).
Proof.
  revert response missing_fields w.
  induction qs as [|q qs IH]; intros response missing_fields w;
    cbn [SubmitForm.complete_fields].
  - intros [= <- _ _] H. now exists answers.
  - unfold bind, subscript.
    destruct (Dict.get "response" response) as [v|] eqn:Hg; [|discriminate].
    cbn [ret]. destruct (not_in (question_id q) v w) as [[absent|e|] w2] eqn:En;
      try discriminate.
    assert (Hsame : forall m w0,
               SubmitForm.complete_fields qs response m w0
               = (Returned (out, out_missing), w') ->
               Dict.get "response" out = Some (VDict answers) ->
               exists submitted, Some v = Some (VDict submitted)).
    { intros m w0 H Ho. destruct (IH _ _ _ H Ho) as (s & Hs).
      exists s. now rewrite <- Hg. }
    destruct absent; [|apply Hsame].
    destruct (negb (required q)); [|apply Hsame].
    destruct v; cbn [setitem]; try discriminate.
    intros _ _. now exists entries.
Qed.

(** An entry the loop has added holds [None]. *)
Lemma completed_adds_none (qs : list Question) (answers : dict) (k : string) :
  Dict.mem k answers = false ->
  Dict.mem k (fst (completed qs answers [])) = true ->
  Dict.get k (fst (completed qs answers [])) = Some VNone.
Proof.
  assert (Hm : forall qs a m, fst (completed qs a m) = fst (completed qs a [])).
  { induction qs0 as [|q0 qs0 IHq]; intros a m; [reflexivity|].
    cbn [completed].
    destruct (negb (Dict.mem (question_id q0) a)); [|apply IHq].
    destruct (negb (required q0)); [apply IHq|].
    rewrite IHq. symmetry. apply IHq. }
  revert answers.
  induction qs as [|q qs IH]; intros answers Ha Hin.
  - cbn in *. congruence.
  - cbn [completed] in *.
    destruct (Dict.mem (question_id q) answers) eqn:Em; cbn [negb] in *;
      [now apply IH|].
    destruct (required q); cbn [negb] in *.
    + rewrite Hm in *. now apply IH.
    + destruct (String.eqb_spec k (question_id q)) as [->|Hne].
      * rewrite completed_keeps by apply mem_set_same. apply get_set_same.
      * apply IH; [|exact Hin].
        rewrite mem_set_other; [exact Ha | now apply String.eqb_neq].
Qed.

(** In every stored response each question of the form has an entry: what
    was submitted for it, or [None] when nothing was.  The loop asks for
    no more than that: a required question may be stored with a submitted
    [null]. *)
Theorem stored_answers_cover (env : Env) (request : SubmitForm.Request)
        (w w' : World) (r : SubmitForm.JSONResponse) :
  SubmitForm.post env request w = (Returned r, w') ->
  SubmitForm.status r = 200%Z ->
  exists form response_obj submitted,
    SubmitForm.content r = SubmitForm.Submission form response_obj
    /\ db_responses w' = (db_responses w ++ [response_obj])%list
    /\ Dict.get "response" (SubmitForm.json_body request)
       = Some (VDict submitted)
    /\ (forall k, Dict.mem k submitted = true ->
                  Dict.get k (response_answers response_obj)
                  = Dict.get k submitted)
    /\ (forall q, In q (questions form) ->
                  Dict.mem (question_id q) (response_answers response_obj)
                  = true
                  /\ (Dict.mem (question_id q) submitted = false ->
                      Dict.get (question_id q) (response_answers response_obj)
                      = Some VNone)).
Proof.
  intros E Hs.
  destruct (post_success_inv _ _ _ _ _ E Hs)
    as (form & response & w1 & obj & Hf & He & Hc & Hr & Hd).
  destruct (check_init _ _ _ _ _ _ Hc) as (out & Hcf & Hi).
  destruct (init_fields _ _ _ Hi) as (_ & _ & _ & H4 & _).
  assert (Hout : Dict.get "response" out = Some (VDict (response_answers obj))).
  { unfold Models.as_dict in H4.
    destruct (Dict.get "response" out) as [[]|]; try discriminate.
    now injection H4 as ->. }
  destruct (complete_fields_shape _ _ _ _ _ _ _ _ Hcf Hout) as (submitted & Hsub).
  pose proof (complete_fields_completed (questions form) _ _ [] w1 Hsub) as Hcc.
  rewrite Hcf in Hcc. injection Hcc as Hout' Hmiss.
  rewrite Hout', get_set_same in Hout. injection Hout as Hans.
  exists form, obj, submitted.
  split; [exact Hr|]. split; [exact Hd|].
  split; [now rewrite <- (enrich_keeps_answers _ _ _ _ _ _ He)|].
  rewrite <- Hans. split.
  - intros k Hk. now apply completed_keeps.
  - intros q Hq.
    assert (Hin : Dict.mem (question_id q)
                    (fst (completed (questions form) submitted [])) = true).
    { apply completed_covers; [now symmetry | exact Hq]. }
    split; [exact Hin|]. intros Ha. now apply completed_adds_none.
Qed.

Lemma stored_answers_cover_sample :
  let form :=
    Sample.form ["OPEN"; "DISABLE_ANTISPAM"]
                [Sample.question "name" true [];
                 Sample.question "nick" false []] None in
  let request :=
    Sample.request [("response", VDict [("name", VNone)])] Sample.anonymous in
  exists stored,
    db_responses (snd (SubmitForm.post Sample.env request
                         (Sample.world [form] []))) = [stored]
    /\ Dict.get "name" (response_answers stored) = Some VNone
    /\ Dict.get "nick" (response_answers stored) = Some VNone.
Proof.
  intros form request.
  edestruct (stored_answers_cover Sample.env request (Sample.world [form] []))
    as (f & stored & submitted & Hc & Hd & Hb & Hkeep & Hcover);
    [reflexivity | reflexivity |].
  injection Hc as <- _. injection Hb as <-.
  exists stored. cbn [snd]. split; [exact Hd|]. split.
  - rewrite Hkeep; reflexivity.
  - apply (Hcover (Sample.question "nick" false [])); [|reflexivity].
    right. left. reflexivity.
Defined.

(** What the anti-spam stage does when it goes through on a form that has
    not disabled it. *)
Lemma antispam_stage_inv (env : Env) (request : SubmitForm.Request)
      (form : Form) (data response out : dict) (w w1 : World) :
  has_feature FormFeatures.DISABLE_ANTISPAM form = false ->
  SubmitForm.antispam_stage env request form data response w
  = (Returned out, w1) ->
  exists agent reply rest d verdict,
    header "User-Agent" (SubmitForm.request_headers request) = Some agent
    /\ remote w = Answer reply :: rest
    /\ is_error (status_code reply) = false
    /\ resp_json reply = VDict d
    /\ Dict.get "success" d = Some verdict
    /\ Dict.get "antispam" out
       = Some (VDict
                 [("ip_hash",
                   VStr (md5_hex env (SubmitForm.client_host request)));
                  ("user_agent_hash", VStr (md5_hex env agent));
                  ("captcha_pass", verdict)]).
Proof.
  intros Hd. unfold SubmitForm.antispam_stage. rewrite Hd. cbn [negb].
  unfold bind.
  destruct (header _ _) as [agent|]; cbn [ret raise]; [|discriminate].
  unfold http_send.
  destruct (remote w) as [|[reply|e] rest]; try discriminate.
  unfold raise_for_status.
  destruct (is_error (status_code reply)) eqn:Herr; cbn [raise ret];
    [discriminate|].
  unfold subscript.
  destruct (resp_json reply) as [| | | | |d|] eqn:Hj; cbn [raise];
    try discriminate.
  destruct (Dict.get "success" d) as [verdict|] eqn:Hv; cbn [raise ret];
    [|discriminate].
  intros [= <- _].
  exists agent, reply, rest, d, verdict.
  repeat split; try reflexivity; try assumption. apply get_set_same.
Qed.

(** On a form with anti-spam, for a body without an ["antispam"] entry of
    its own, the stored block holds the digests of the client's host and
    of its [User-Agent] and the verdict the CAPTCHA service gave.  The
    verdict is recorded and nothing more: the submission is stored whether
    it is [true] or [false]. *)
Theorem stored_antispam_block (env : Env) (request : SubmitForm.Request)
        (w w' : World) (r : SubmitForm.JSONResponse) (form : Form)
        (response_obj : FormResponse) :
  SubmitForm.post env request w = (Returned r, w') ->
  SubmitForm.content r = SubmitForm.Submission form response_obj ->
  has_feature FormFeatures.DISABLE_ANTISPAM form = false ->
  Dict.mem "antispam" (SubmitForm.json_body request) = false ->
  exists agent reply rest d verdict,
    header "User-Agent" (SubmitForm.request_headers request) = Some agent
    /\ remote w = Answer reply :: rest
    /\ resp_json reply = VDict d
    /\ Dict.get "success" d = Some (VBool verdict)
    /\ antispam response_obj
       = Some {| ip_hash := md5_hex env (SubmitForm.client_host request);
                 user_agent_hash := md5_hex env agent;
                 captcha_pass := verdict |}.
Proof.
  intros E Hcontent Hflag Hb.
  destruct (post_outcome _ _ _ _ _ E) as [[Hs _] | (f & o & _ & _ & Hr)].
  - exfalso.
    unfold SubmitForm.post, SubmitForm.and_then, bind, SubmitForm.find_one in E.
    destruct (find _ (db_forms w)) as [form0|];
      [| injection E as <- _; discriminate Hcontent].
    destruct (SubmitForm.enrich env request form0 w)
      as [[[response|r1]|e|] w1] eqn:He; cbn [ret] in E; try discriminate.
    + destruct (SubmitForm.check env form0 response w1)
        as [[[obj|r2]|e|] w2] eqn:Hc; cbn [ret] in E; try discriminate.
      * pose proof (grade_quiet env form0 obj w2) as H3.
        destruct (SubmitForm.grade env form0 obj w2)
          as [[[obj'|r3]|e|] w3] eqn:Hg; cbn [ret] in E; try discriminate.
        -- rewrite persist_eq in E.
           destruct (SubmitForm.renders form0 obj'); cbn [ret] in E;
             [|discriminate].
           injection E as <- _. now apply Hs.
        -- unfold SubmitForm.grade, SubmitForm.run_unittests, bind, log in Hg.
           destruct (SubmitForm.has_unittests form0); cbn in Hg;
             [|discriminate].
           destruct (execute_unittest env obj form0); cbn in Hg;
             [discriminate|].
           destruct (negb _); cbn in Hg; [|discriminate].
           injection Hg as <- _. injection E as <- _. discriminate Hcontent.
      * unfold SubmitForm.check, bind in Hc.
        destruct (SubmitForm.complete_fields _ _ _ w1)
          as [[[o1 miss]|e|] w4]; try discriminate.
        cbn [fst snd] in Hc. destruct miss.
        -- destruct (Models.FormResponse_init env o1); [|discriminate].
           injection Hc as <- _. injection E as <- _. discriminate Hcontent.
        -- injection Hc as <- _. injection E as <- _. discriminate Hcontent.
    + unfold SubmitForm.enrich, bind in He.
      destruct (SubmitForm.antispam_stage _ _ _ _ _ w) as [[o1|e|] w4];
        try discriminate.
      cbn [ret] in He. injection He as Hl _.
      unfold SubmitForm.login_stage in Hl.
      repeat match type of Hl with
             | context [if ?b then _ else _] => destruct b
             end; try discriminate;
        injection Hl as <-; injection E as <- _; discriminate Hcontent.
  - subst r. cbn in Hcontent. injection Hcontent as <- <-.
    destruct (post_success_inv _ _ _ _ _ E eq_refl)
      as (form' & response & w1 & obj & Hf & He & Hc & Hr' & _).
    cbn in Hr'. injection Hr' as <- <-.
    unfold SubmitForm.enrich, bind in He.
    destruct (SubmitForm.antispam_stage _ _ _ _ _ w) as [[o1|e|] w4] eqn:Ea;
      try discriminate.
    cbn [ret] in He. injection He as Hl _.
    destruct (antispam_stage_inv _ _ _ _ _ _ _ _ Hflag Ea)
      as (agent & reply & rest & d & verdict & Hh & Hrem & _ & Hj & Hv & Hblock).
    pose proof (login_stage_keeps "antispam" _ _ _ _ eq_refl Hl) as Hk.
    pose proof (check_antispam _ _ _ _ _ _ Hc) as Hopt.
    rewrite Hk, Hblock in Hopt. cbn in Hopt.
    destruct verdict as [|passed| | | | |]; try discriminate.
    injection Hopt as Hopt.
    exists agent, reply, rest, d, passed. auto 10.
Qed.

Lemma stored_antispam_block_sample :
  let form := Sample.form ["OPEN"] [] None in
  let request :=
    Sample.request [("response", VDict []); ("captcha", VStr "bad")]
                   Sample.anonymous in
  let verdict := Sample.answer 200 [] (VDict [("success", VBool false)]) in
  exists stored,
    db_responses (snd (SubmitForm.post Sample.env request
                         (Sample.world [form] [verdict]))) = [stored]
    /\ antispam stored
       = Some {| ip_hash := "md5(203.0.113.7)";
                 user_agent_hash := "md5(curl/7.74)";
                 captcha_pass := false |}.
Proof.
  intros form request verdict.
  edestruct (stored_antispam_block Sample.env request
               (Sample.world [form] [verdict]))
    as (agent & reply & rest & d & v & Hh & Hrem & Hj & Hv & Hblock);
    [reflexivity | reflexivity | reflexivity | reflexivity |].
  eexists. split; [reflexivity|].
  injection Hh as <-. injection Hrem as <- _. injection Hj as <-.
  injection Hv as <-. exact Hblock.
Defined.

(* ------------------------------------------------------------------ *)
(** ** The pipeline: grading *)

Lemma graded_app (t u : list event) :
  graded (t ++ u) = (graded t ++ graded u)%list.
Proof.
  induction t as [|[r|q|r|r] t IH]; cbn [graded app]; congruence.
Qed.

Lemma antispam_stage_grades_nothing (env : Env) (request : SubmitForm.Request)
      (form : Form) (data response : dict) (w : World) :
  graded (trace (snd (SubmitForm.antispam_stage env request form data
                        response w)))
  = graded (trace w).
Proof.
  unfold SubmitForm.antispam_stage.
  destruct (negb _); [|reflexivity].
  unfold bind.
  destruct (header _ _) as [agent|]; cbn [ret raise snd]; [|reflexivity].
  assert (Hsent : forall r,
             graded (trace (advance (emit (Sent r) w))) = graded (trace w)).
  { intros r. cbn. rewrite graded_app. cbn. apply app_nil_r. }
  unfold http_send.
  destruct (remote w) as [|[r|e] rest]; cbn [snd]; try apply Hsent.
  unfold raise_for_status.
  destruct (is_error _); cbn [raise ret snd]; try apply Hsent.
  match goal with
  | |- context [subscript ?v ?k ?w0] =>
      pose proof (subscript_pure v k w0) as Hp;
      destruct (subscript v k w0) as [[x|e|] w1]
  end; cbn [snd ret] in *; subst w1; apply Hsent.
Qed.

Lemma enrich_grades_nothing (env : Env) (request : SubmitForm.Request)
      (form : Form) (w : World) :
  graded (trace (snd (SubmitForm.enrich env request form w)))
  = graded (trace w).
Proof.
  unfold SubmitForm.enrich, bind.
  match goal with
  | |- context [SubmitForm.antispam_stage ?e ?rq ?f ?d ?rs w] =>
      pose proof (antispam_stage_grades_nothing e rq f d rs w) as H;
      destruct (SubmitForm.antispam_stage e rq f d rs w) as [[response|e0|] w1]
  end; exact H.
Qed.

Lemma enrich_return_content (env : Env) (request : SubmitForm.Request)
      (form : Form) (w w1 : World) (r : SubmitForm.JSONResponse) :
  SubmitForm.enrich env request form w
  = (Returned (SubmitForm.Return r), w1) ->
  exists error, SubmitForm.content r = SubmitForm.Error error.
Proof.
  unfold SubmitForm.enrich, bind.
  destruct (SubmitForm.antispam_stage _ _ _ _ _ w) as [[o1|e|] w4];
    try discriminate.
  cbn [ret]. intros [= Hl _].
  unfold SubmitForm.login_stage in Hl.
  repeat match type of Hl with
         | context [if ?b then _ else _] => destruct b
         end; try discriminate; injection Hl as <-; eexists; reflexivity.
Qed.

Lemma check_return_content (env : Env) (form : Form) (response : dict)
      (w w1 : World) (r : SubmitForm.JSONResponse) (f : Form)
      (o : FormResponse) :
  SubmitForm.check env form response w
  = (Returned (SubmitForm.Return r), w1) ->
  SubmitForm.content r <> SubmitForm.Submission f o.
Proof.
  unfold SubmitForm.check, bind.
  destruct (SubmitForm.complete_fields _ _ _ w) as [[[o1 miss]|e1|] w4];
    try discriminate.
  cbn [fst snd]. destruct miss.
  - destruct (Models.FormResponse_init env o1); [|discriminate].
    intros [= <- _]. discriminate.
  - intros [= <- _]. discriminate.
Qed.

(** [post] calls the grader exactly when an open form is found, the
    submission gets through enrichment and validation, and one of the
    form's questions carries [unittests]; it then calls it once, with the
    response that validation has built and with the form that was found,
    and the grader's verdict on these two decides what follows: its error
    is the error of [post], a result that has not passed is answered
    ["failed_tests"] with nothing stored, and when all have passed the
    response is stored.  In every other case the grader is not called.  A
    200 answer for a form with [unittests] reports the very response that
    was graded. *)
Theorem post_grades_once (env : Env) (request : SubmitForm.Request)
        (w : World) :
  let run := SubmitForm.post env request w in
  let found :=
    find (fun f => String.eqb (form_id f) (SubmitForm.path_form_id request)
                   && has_feature FormFeatures.OPEN f)%bool (db_forms w) in
  let calls :=
    match found with
    | Some form =>
        match SubmitForm.enrich env request form w with
        | (Returned (SubmitForm.Continue response), w1) =>
            match SubmitForm.check env form response w1 with
            | (Returned (SubmitForm.Continue response_obj), _) =>
                if SubmitForm.has_unittests form then [response_obj] else []
            | _ => []
            end
        | _ => []
        end
    | None => []
    end in
  graded (trace (snd run)) = (graded (trace w) ++ calls)%list
  /\ (forall form response w1 response_obj,
         found = Some form ->
         SubmitForm.enrich env request form w
         = (Returned (SubmitForm.Continue response), w1) ->
         SubmitForm.check env form response w1
         = (Returned (SubmitForm.Continue response_obj), w1) ->
         SubmitForm.has_unittests form = true ->
         let called := emit (Graded response_obj) w1 in
         match execute_unittest env response_obj form with
         | inl e => run = (Raised e, called)
         | inr results =>
             if forallb passed results
             then snd run
                  = store response_obj (emit (Inserted response_obj) called)
             else run
                  = (Returned
                       (SubmitForm.reply
                          (SubmitForm.ErrorTests
                             "failed_tests"
                             (filter (fun test => negb (passed test))
                                     results))
                          (if existsb (fun test => (return_code test =? 99)%Z)
                                      results
                           then 500 else 403)),
                     called)
         end)
  /\ (forall r form response_obj,
         fst run = Returned r ->
         SubmitForm.content r = SubmitForm.Submission form response_obj ->
         calls = if SubmitForm.has_unittests form then [response_obj]
                 else []).
Proof.
  cbv zeta.
  destruct (find _ (db_forms w)) as [form|] eqn:Hf.
  2:{ unfold SubmitForm.post, bind, SubmitForm.find_one. rewrite Hf. cbn.
      rewrite app_nil_r. split; [reflexivity|]. split; [discriminate|].
      intros r f o [= <-]. discriminate. }
  pose proof (enrich_grades_nothing env request form w) as H1.
  destruct (SubmitForm.enrich env request form w) as [[[response|r0]|e0|] w1]
    eqn:He; cbn [snd] in H1.
  2,3,4: unfold SubmitForm.post, SubmitForm.and_then, bind,
           SubmitForm.find_one; rewrite Hf, He; cbn [ret snd fst];
         rewrite app_nil_r; split; [exact H1|]; split;
         [intros f r1 w2 o [= <-] E; rewrite He in E; discriminate|];
         try discriminate.
  2:{ intros r f o [= <-] Hc.
      destruct (enrich_return_content _ _ _ _ _ _ He) as [error Herr].
      congruence. }
  pose proof (check_pure env form response w1) as H2.
  destruct (SubmitForm.check env form response w1) as [[[obj|r0]|e0|] w2]
    eqn:Hc; cbn [snd] in H2; subst w2.
  2,3,4: unfold SubmitForm.post, SubmitForm.and_then, bind,
           SubmitForm.find_one; rewrite Hf, He, Hc; cbn [ret snd fst];
         rewrite app_nil_r; split; [exact H1|]; split;
         [intros f r1 w2 o [= <-] E1 E2; rewrite He in E1;
          injection E1 as <- <-; rewrite Hc in E2; discriminate|];
         try discriminate.
  2:{ intros r f o [= <-] Hcont.
      exfalso. exact (check_return_content _ _ _ _ _ _ _ _ Hc Hcont). }
  rewrite (post_after_check _ _ _ _ _ _ _ _ Hf He Hc).
  unfold SubmitForm.grade, SubmitForm.run_unittests, bind, log.
  assert (Hsame : forall f r1 w2 o,
             Some form = Some f ->
             SubmitForm.enrich env request f w
             = (Returned (SubmitForm.Continue r1), w2) ->
             SubmitForm.check env f r1 w2
             = (Returned (SubmitForm.Continue o), w2) ->
             f = form /\ w2 = w1 /\ o = obj).
  { intros f r1 w2 o [= <-] E1 E2. rewrite He in E1.
    injection E1 as <- <-. rewrite Hc in E2. injection E2 as <-. auto. }
  assert (Hcalled : graded (trace (emit (Graded obj) w1))
                    = (graded (trace w) ++ [obj])%list).
  { cbn. now rewrite graded_app, H1. }
  destruct (SubmitForm.has_unittests form) eqn:Hu; cbn [ret].
  - destruct (execute_unittest env obj form) as [e0|results] eqn:Hx;
      cbn [raise ret snd fst].
    + split; [exact Hcalled|]. split; [|discriminate].
      intros f r1 w2 o Ef E1 E2 _.
      destruct (Hsame _ _ _ _ Ef E1 E2) as (-> & -> & ->). now rewrite Hx.
    + destruct (forallb passed results) eqn:Hp; cbn [negb ret snd fst].
      * split; [cbn; rewrite !graded_app, H1; cbn; now rewrite app_nil_r|].
        split.
        -- intros f r1 w2 o Ef E1 E2 _.
           destruct (Hsame _ _ _ _ Ef E1 E2) as (-> & -> & ->).
           now rewrite Hx, Hp.
        -- intros r f o.
           destruct (SubmitForm.renders form obj); [|discriminate].
           intros [= <-]. cbn. now intros [= <- <-]; rewrite Hu.
      * split; [exact Hcalled|]. split.
        -- intros f r1 w2 o Ef E1 E2 _.
           destruct (Hsame _ _ _ _ Ef E1 E2) as (-> & -> & ->).
           now rewrite Hx, Hp.
        -- intros r f o [= <-]. discriminate.
  - cbn [snd fst]. split.
    + cbn. rewrite graded_app, H1. cbn. now rewrite !app_nil_r.
    + split; [intros f r1 w2 o [= <-] _ _; congruence|].
      intros r f o.
      destruct (SubmitForm.renders form obj); [|discriminate].
      intros [= <-]. cbn. now intros [= <- <-]; rewrite Hu.
Qed.

(* ------------------------------------------------------------------ *)
(** ** The webhook payload: author, name and content *)

Lemma with_author_block (request_user : User) (user : option dict)
      (embed : dict) :
  Dict.mem "author" embed = false ->
  Dict.get "author" (Discord.with_author request_user user embed)
  = author_block request_user user.
Proof.
  intros Hm. unfold Discord.with_author, author_block.
  destruct (is_authenticated request_user).
  - rewrite get_set_same.
    destruct user as [u|]; [|reflexivity].
    now destruct (truthy _).
  - unfold Dict.mem in Hm. now destruct (Dict.get "author" embed).
Qed.

(** Both payloads carry an author block exactly for an authenticated user,
    with the display name and, when the response's user has an avatar, the
    icon URL; the webhook's name is the form's, or "Python Discord Forms"
    for a form without one; and a content exactly when the webhook has a
    non-empty message: the message run through [format_message], and in
    the route's version with [_USER_MENTION_] replaced as well. *)
Theorem webhook_payload_parts (env : Env) (form : Form) (cfg : WebHook)
        (response : FormResponse) (user : User) :
  let by_helper := Discord.hook_of env form cfg response user in
  let by_route := SubmitForm.hook_of env form cfg response user in
  let ctx := Discord.build_ctx_variables form response user in
  let name :=
    Some (VStr (if String.eqb (form_name form) ""
                then "Python Discord Forms" else form_name form)) in
  let rendered (finish : string -> string) :=
    match webhook_message cfg with
    | Some message =>
        if String.eqb message "" then None
        else Some (VStr (finish (format_message ctx message)))
    | None => None
    end in
  embed_field "author" by_helper = author_block user (response_user response)
  /\ embed_field "author" by_route = author_block user (response_user response)
  /\ Dict.get "username" by_helper = name
  /\ Dict.get "username" by_route = name
  /\ Dict.get "content" by_helper = rendered (fun s => s)
  /\ Dict.get "content" by_route
     = rendered (replace "_USER_MENTION_" (Discord.mention_of user)).
Proof.
  intros by_helper by_route ctx name rendered.
  unfold by_helper, by_route, name, rendered, ctx,
    Discord.hook_of, SubmitForm.hook_of, embed_field, Discord.embed_of,
    Discord.str_or, Discord.build_ctx_variables.
  destruct (webhook_message cfg) as [m|];
    [cbn [truthy]; destruct (String.eqb m ""); cbn [negb]|];
    cbn [Dict.get Dict.set String.eqb Ascii.eqb Bool.eqb];
    repeat split; apply with_author_block; reflexivity.
Qed.
